(** * webgl2-deferred-rendering-base: a shallow embedding of [src/main.js]

    The program is one JavaScript module: two mesh builders, a
    [RenderObject] class, an offscreen framebuffer with a scoped [capture],
    two shader programs and an animation loop.

    Conventions of the embedding.
    - JavaScript numbers that the program writes as literals or negates are
      rationals ([Q]); NaN and the infinities are outside the model.
    - The WebGL context is a call log together with the state the claims
      read back (current framebuffer binding, fresh-handle counter).  The
      context's own argument validation is outside the model: a logged call
      does not throw.
    - [gl-matrix] is an external library: its matrix type and operations are
      parameters (class [GlMatrix]).
    - A computation that can throw is a function from the world to an
      [Outcome]. *)

From Stdlib Require Import String.
From Stdlib Require Import QArith Qminmax Lqa Lia Psatz.
From Stdlib Require Import List Bool Arith ZArith Permutation.
Import ListNotations.

Local Open Scope Q_scope.

(** ** Meshes *)

Record Mesh := mkMesh {
  positions : list Q;
  normals   : list Q;
  colors    : list Q;
  indices   : list nat
}.

(** The spread of a three-element array literal [...p] into a flat list. *)
Definition spread (p : Q * Q * Q) : list Q :=
  let '(x, y, z) := p in [x; y; z].

Module Box.

Definition points (s : Q) : list (Q * Q * Q) :=
  [ (- s,   s,   s);
    (- s, - s,   s);
    (  s,   s,   s);
    (  s, - s,   s);
    (- s,   s, - s);
    (- s, - s, - s);
    (  s,   s, - s);
    (  s, - s, - s) ].

Definition colors : list (Q * Q * Q) :=
  [ (1, 0, 0); (0, 1, 0); (0, 0, 1); (1, 1, 0); (0, 1, 1); (1, 0, 1) ].

Definition normals : list (Q * Q * Q) :=
  [ (0, 0, 1); (- (1), 0, 0); (0, 0, - (1)); (1, 0, 0); (0, 1, 0); (0, - (1), 0) ].

(** [arr[i]] on one of the three tables above; every use is in range. *)
Definition at_ (l : list (Q * Q * Q)) (i : nat) : Q * Q * Q :=
  nth i l (0, 0, 0).

(** [...arr[i0], ...arr[i1], ...] *)
Definition spreads (l : list (Q * Q * Q)) (ixs : list nat) : list Q :=
  flat_map (fun i => spread (at_ l i)) ixs.

End Box.

Definition createBoxMesh (s : Q) : Mesh :=
  let points := Box.points s in
  let colors := Box.colors in
  let normals := Box.normals in
  {| positions := Box.spreads points
       [ 0; 1; 2;  2; 1; 3;     (* front *)
         4; 5; 0;  0; 5; 1;     (* left *)
         6; 7; 4;  4; 7; 5;     (* back *)
         2; 3; 6;  6; 3; 7;     (* right *)
         4; 0; 6;  6; 0; 2;     (* top *)
         1; 5; 3;  3; 5; 7 ]%nat; (* bottom *)
     normals := Box.spreads normals
       [ 0; 0; 0;  0; 0; 0;
         1; 1; 1;  1; 1; 1;
         2; 2; 2;  2; 2; 2;
         3; 3; 3;  3; 3; 3;
         4; 4; 4;  4; 4; 4;
         5; 5; 5;  5; 5; 5 ]%nat;
     colors := Box.spreads colors
       [ 0; 0; 0;  0; 0; 0;
         1; 1; 1;  1; 1; 1;
         2; 2; 2;  2; 2; 2;
         3; 3; 3;  3; 3; 3;
         4; 4; 4;  4; 4; 4;
         5; 5; 5;  5; 5; 5 ]%nat;
     indices :=
       [ 0; 1; 2; 3; 4; 5;
         6; 7; 8; 9; 10; 11;
         12; 13; 14; 15; 16; 17;
         18; 19; 20; 21; 22; 23;
         24; 25; 26; 27; 28; 29;
         30; 31; 32; 33; 34; 35 ]%nat |}.

Definition createFloorMesh (s : Q) : Mesh :=
  {| positions :=
       [ - s; 0; - s;
         - s; 0;   s;
           s; 0; - s;
           s; 0;   s ];
     colors :=
       [ 1; 0; 0;
         0; 1; 0;
         0; 0; 1;
         1; 1; 0 ];
     normals :=
       [ 0; 1; 0;
         0; 1; 0;
         0; 1; 0;
         0; 1; 0 ];
     indices := [ 0; 1; 2; 3; 2; 1 ]%nat |}.

(** ** Reading a mesh the way an indexed triangle-list draw does *)

Definition vec3 : Type := Q * Q * Q.

(** The [i]-th triplet of a flat attribute array. *)
Definition triplet (l : list Q) (i : nat) : option vec3 :=
  match skipn (3 * i) l with
  | x :: y :: z :: _ => Some (x, y, z)
  | _ => None
  end.

Definition triplet_count (l : list Q) : nat := Nat.div (length l) 3.

Definition Triangle : Type := vec3 * vec3 * vec3.

(** Consecutive index triples, each resolved against the position array;
    a trailing incomplete triple is dropped, as the draw call does. *)
Fixpoint triangles_of (pos : list Q) (idx : list nat) : list (option Triangle) :=
  match idx with
  | i :: j :: k :: rest =>
      (match triplet pos i, triplet pos j, triplet pos k with
       | Some a, Some b, Some c => Some (a, b, c)
       | _, _, _ => None
       end) :: triangles_of pos rest
  | _ => []
  end.

Definition triangles (m : Mesh) : list (option Triangle) :=
  triangles_of (positions m) (indices m).

Definition vsub (a b : vec3) : vec3 :=
  let '(ax, ay, az) := a in
  let '(bx, by_, bz) := b in
  (ax - bx, ay - by_, az - bz).

Definition cross (a b : vec3) : vec3 :=
  let '(ax, ay, az) := a in
  let '(bx, by_, bz) := b in
  (ay * bz - az * by_, az * bx - ax * bz, ax * by_ - ay * bx).

Definition dot (a b : vec3) : Q :=
  let '(ax, ay, az) := a in
  let '(bx, by_, bz) := b in
  ax * bx + ay * by_ + az * bz.

(** Componentwise rational equality. *)
Definition veq (a b : vec3) : Prop :=
  let '(ax, ay, az) := a in
  let '(bx, by_, bz) := b in
  ax == bx /\ ay == by_ /\ az == bz.

(** The geometric normal of a triangle from its vertices in index order
    (right-hand rule, not normalised). *)
Definition geometric_normal (t : Triangle) : vec3 :=
  let '(a, b, c) := t in cross (vsub b a) (vsub c a).

(** A vector points along +Y: no X or Z component, positive Y component. *)
Definition points_along_plus_Y (n : vec3) : Prop :=
  let '(nx, ny, nz) := n in nx == 0 /\ 0 < ny /\ nz == 0.

(** *** Coverage in the plane Y = 0 *)

(** Twice the signed area of the triangle a, b, p projected on XZ. *)
Definition edge (a b : vec3) (x z : Q) : Q :=
  let '(ax, _, az) := a in
  let '(bx, _, bz) := b in
  (bx - ax) * (z - az) - (bz - az) * (x - ax).

(** The point (x, 0, z) lies in the closed triangle. *)
Definition in_triangle (t : Triangle) (x z : Q) : Prop :=
  let '(a, b, c) := t in
  (0 <= edge a b x z /\ 0 <= edge b c x z /\ 0 <= edge c a x z) \/
  (edge a b x z <= 0 /\ edge b c x z <= 0 /\ edge c a x z <= 0).

(** The point (x, 0, z) lies strictly inside the triangle. *)
Definition in_interior (t : Triangle) (x z : Q) : Prop :=
  let '(a, b, c) := t in
  (0 < edge a b x z /\ 0 < edge b c x z /\ 0 < edge c a x z) \/
  (edge a b x z < 0 /\ edge b c x z < 0 /\ edge c a x z < 0).

(** The quad spanned by the four floor vertices: the axis-aligned square
    between -s and s in both X and Z. *)
Definition in_quad (s x z : Q) : Prop :=
  Qmin (- s) s <= x /\ x <= Qmax (- s) s /\
  Qmin (- s) s <= z /\ z <= Qmax (- s) s.

(** *** Face culling *)

Inductive FrontFace := CCW | CW.
Inductive CullMode := CullFront | CullBack | CullFrontAndBack.

(** Seen from [eye], the triangle's vertices appear counter-clockwise iff
    the eye is on the side its geometric normal points to. *)
Definition appears_ccw (eye : vec3) (t : Triangle) : bool :=
  let '(a, _, _) := t in
  negb (Qle_bool (dot (geometric_normal t) (vsub eye a)) 0).

Definition front_facing (ff : FrontFace) (eye : vec3) (t : Triangle) : bool :=
  match ff with
  | CCW => appears_ccw eye t
  | CW => negb (appears_ccw eye t)
  end.

Definition culled (ff : FrontFace) (cm : CullMode) (eye : vec3) (t : Triangle) : bool :=
  match cm with
  | CullFront => front_facing ff eye t
  | CullBack => negb (front_facing ff eye t)
  | CullFrontAndBack => true
  end.

(** The floor claim at half-extent [s]: the mesh draws two triangles,
    both with a geometric normal along +Y, which together cover the quad
    exactly (their union is the quad, their interiors do not overlap) and
    which every culling convention treats alike from every eye position. *)
Definition floor_winding_consistent (s : Q) : Prop :=
  exists t1 t2 : Triangle,
    triangles (createFloorMesh s) = [Some t1; Some t2] /\
    points_along_plus_Y (geometric_normal t1) /\
    points_along_plus_Y (geometric_normal t2) /\
    (forall x z, in_quad s x z <-> in_triangle t1 x z \/ in_triangle t2 x z) /\
    (forall x z, ~ (in_interior t1 x z /\ in_interior t2 x z)) /\
    (forall ff cm eye, culled ff cm eye t1 = culled ff cm eye t2).

(** ** The composite fragment shader ([fragment_source2]) *)

Definition vec4 : Type := Q * Q * Q * Q.

Definition red (v : vec4) : Q := let '(r, _, _, _) := v in r.

(** [main] of the composite fragment shader: [sample] is
    [texture(uSampler, vUV)], the result is [outColor].  The arithmetic is
    exact; a zero denominator, where the shader's float division overflows,
    is outside the model. *)
Definition fragment_main2
    (uIsSingleChannel uUseLinear : bool) (uNear uFar : Q) (sample : vec4) : vec4 :=
  if uIsSingleChannel then
    let c := red sample in
    let c := if uUseLinear
             then (2 * uNear) / (uFar + uNear - c * (uFar - uNear))
             else c in
    (c, c, c, 1)
  else sample.

(** The spec's formula for the linearised depth. *)
Definition linear_depth (near far c : Q) : Q :=
  (2 * near) / (far + near - c * (far - near)).

(** ** JavaScript values, exceptions and throwing computations *)

(** The values an option or a uniform argument takes in this program. *)
Inductive JsValue :=
| JsUndefined
| JsNull
| JsBoolean (b : bool)
| JsNumber (q : Q)
| JsString (s : string)
| JsArray (l : list Q).

(** ToBoolean: what [if (v)] and [!v] test. *)
Definition truthy (v : JsValue) : bool :=
  match v with
  | JsUndefined | JsNull => false
  | JsBoolean b => b
  | JsNumber q => negb (Qeq_bool q 0)
  | JsString s => negb (String.eqb s EmptyString)
  | JsArray _ => true
  end.

Definition JsError : Type := string.

Inductive Outcome (S A : Type) :=
| Returned (a : A) (s : S)
| Thrown (e : JsError) (s : S).
Arguments Returned {S A} a s.
Arguments Thrown {S A} e s.

(** A computation over a mutable world [S] that returns an [A] or throws. *)
Definition M (S A : Type) : Type := S -> Outcome S A.

Definition ret {S A} (a : A) : M S A := fun s => Returned a s.

Definition throw {S A} (e : JsError) : M S A := fun s => Thrown e s.

Definition bind {S A B} (c : M S A) (k : A -> M S B) : M S B :=
  fun s => match c s with
           | Returned a s' => k a s'
           | Thrown e s' => Thrown e s'
           end.

(** [try { c } catch (err) { handler err }] *)
Definition try_catch {S A} (c : M S A) (handler : JsError -> M S A) : M S A :=
  fun s => match c s with
           | Returned a s' => Returned a s'
           | Thrown e s' => handler e s'
           end.

Definition get {S} : M S S := fun s => Returned s s.
Definition modify {S} (f : S -> S) : M S unit := fun s => Returned tt (f s).

Declare Scope js_scope.
Delimit Scope js_scope with js.
Notation "x <- c ;; k" := (bind c (fun x => k))
  (at level 61, c at next level, right associativity) : js_scope.
Notation "c ;; k" := (bind c (fun _ => k))
  (at level 61, right associativity) : js_scope.

(** The state left behind, whichever way the computation ended. *)
Definition final_state {S A} (o : Outcome S A) : S :=
  match o with Returned _ s => s | Thrown _ s => s end.

Definition returned {S A} (o : Outcome S A) : bool :=
  match o with Returned _ _ => true | Thrown _ _ => false end.

(** [arr.forEach(f)] *)
Fixpoint forEach {S A} (l : list A) (f : A -> M S unit) : M S unit :=
  match l with
  | [] => ret tt
  | x :: rest => bind (f x) (fun _ => forEach rest f)
  end.

(** ** Numbers computed from [Math.PI] *)

(** Such a number is kept as the expression the program writes; its
    floating-point value is left to the matrix library that consumes it. *)
Inductive Num :=
| NQ (q : Q)
| NPi
| NMul (a b : Num)
| NDiv (a b : Num).

(** [Math.PI/180*degrees] *)
Definition radians (degrees : Q) : Num := NMul (NDiv NPi (NQ 180)) (NQ degrees).

(** ** The external matrix library *)

Class GlMatrix := {
  mat4 : Type;
  (** [mat4.create()]: a new identity matrix *)
  mat4_create : mat4;
  (** [mat4.translate(out, a, v)]: the value written to [out] *)
  mat4_translate : mat4 -> vec3 -> mat4;
  (** [mat4.rotateX(out, a, rad)] and its siblings *)
  mat4_rotateX : mat4 -> Num -> mat4;
  mat4_rotateY : mat4 -> Num -> mat4;
  mat4_rotateZ : mat4 -> Num -> mat4;
  (** [mat4.perspective(out, fovy, aspect, near, far)] *)
  mat4_perspective : Num -> Q -> Q -> Q -> mat4;
  (** [mat4.lookAt(out, eye, center, up)] *)
  mat4_lookAt : vec3 -> vec3 -> vec3 -> mat4
}.

(** ** The WebGL2 context *)

(** A WebGL object (buffer, vertex array, texture, framebuffer, program). *)
Definition Handle : Type := nat.

Inductive BufferTarget := ARRAY_BUFFER | ELEMENT_ARRAY_BUFFER.
Inductive BufferSource := Float32Array (l : list Q) | Uint32Array (l : list nat).
Inductive BufferUsage := STATIC_DRAW.
Inductive DataType := FLOAT | UNSIGNED_INT.
Inductive DrawMode := TRIANGLES | TRIANGLE_STRIP.
Inductive Capability := DEPTH_TEST | CULL_FACE.
Inductive ClearBit := COLOR_BUFFER_BIT | DEPTH_BUFFER_BIT.
Inductive Attachment :=
| COLOR_ATTACHMENT0 | COLOR_ATTACHMENT1 | COLOR_ATTACHMENT2 | DEPTH_ATTACHMENT.
Inductive TexParam :=
| TEXTURE_MAG_FILTER | TEXTURE_MIN_FILTER | TEXTURE_WRAP_S | TEXTURE_WRAP_T.
Inductive TexParamValue := NEAREST | CLAMP_TO_EDGE.
Inductive TexFormat := RGBA32F | RGBA | DEPTH_COMPONENT32F | DEPTH_COMPONENT.
Inductive ShaderType := VERTEX_SHADER | FRAGMENT_SHADER.

(** The four shader texts of the module, by the constant that holds them. *)
Inductive ShaderText :=
| vertex_source | fragment_source | vertex_source2 | fragment_source2.

(** [gl.getUniformLocation(program, name)] *)
Record UniformLocation := getUniformLocation {
  loc_program : Handle;
  loc_name : string
}.

Section Context_.

Context {glm : GlMatrix}.

(** One call on the context, with its arguments; a [create*] call carries
    the object it returned.  The target argument of [bindFramebuffer],
    [bindTexture], [texParameteri], [texImage2D] and [framebufferTexture2D]
    is always [FRAMEBUFFER] or [TEXTURE_2D] and is not recorded, nor is the
    [null] pixel source of [texImage2D]. *)
Inductive GlCall :=
| CreateVertexArray (h : Handle)
| CreateBuffer (h : Handle)
| CreateFramebuffer (h : Handle)
| CreateTexture (h : Handle)
| CreateProgram (h : Handle)
| CreateShader (type : ShaderType) (h : Handle)
| ShaderSource (shader : Handle) (source : ShaderText)
| CompileShader (shader : Handle)
| AttachShader (program shader : Handle)
| LinkProgram (program : Handle)
| DetachShader (program shader : Handle)
| DeleteShader (shader : Handle)
| DeleteProgram (program : Handle)
| GetExtension (name : string)
| BindVertexArray (vao : option Handle)
| BindBuffer (target : BufferTarget) (buffer : option Handle)
| BufferData (target : BufferTarget) (data : BufferSource) (usage : BufferUsage)
| EnableVertexAttribArray (index : nat)
| DisableVertexAttribArray (index : nat)
| VertexAttribPointer (index size : nat) (type : DataType)
    (normalized : bool) (stride offset : nat)
| VertexAttrib3fv (index : nat) (value : JsValue)
| UniformMatrix4fv (loc : UniformLocation) (transpose : bool) (value : mat4)
| Uniform1i (loc : UniformLocation) (value : JsValue)
| Uniform1f (loc : UniformLocation) (value : Q)
| DrawElements (mode : DrawMode) (count : nat) (type : DataType) (offset : nat)
| DrawArrays (mode : DrawMode) (first count : nat)
| BindFramebuffer (framebuffer : option Handle)
| DrawBuffers (buffers : list Attachment)
| BindTexture (texture : option Handle)
| TexParameteri (pname : TexParam) (param : TexParamValue)
| TexImage2D (level : nat) (internalFormat : TexFormat) (width height : Q)
    (border : nat) (format : TexFormat) (type : DataType)
| FramebufferTexture2D (attachment : Attachment) (texture : Handle) (level : nat)
| Enable (cap : Capability)
| Viewport (x y width height : Q)
| ClearColor (r g b a : Q)
| ClearDepth (depth : Q)
| Clear (mask : list ClearBit)
| UseProgram (program : Handle)
| DeleteVertexArray (h : Handle)
| DeleteBuffer (h : Handle)
| DeleteFramebuffer (h : Handle)
| DeleteTexture (h : Handle).

(** The world a frame runs in: the context and the matrices the program
    mutates in place. *)
Record World := mkWorld {
  gl_calls : list GlCall;          (* every call so far, oldest first *)
  gl_fresh : Handle;               (* the next object a create call returns *)
  gl_framebuffer : option Handle;  (* FRAMEBUFFER binding; None is the default target *)
  js_fresh : nat;                  (* the identity of the next new RenderObject *)
  js_mMatrix : nat -> mat4;        (* [mMatrix] of each RenderObject, by identity *)
  js_vMatrix : mat4;
  js_pMatrix : mat4
}.

Definition record_call (c : GlCall) (w : World) : World :=
  {| gl_calls := gl_calls w ++ [c];
     gl_fresh := gl_fresh w;
     gl_framebuffer := match c with
                       | BindFramebuffer fb => fb
                       | _ => gl_framebuffer w
                       end;
     js_fresh := js_fresh w;
     js_mMatrix := js_mMatrix w;
     js_vMatrix := js_vMatrix w;
     js_pMatrix := js_pMatrix w |}.

(** A call that returns nothing. *)
Definition gl (c : GlCall) : M World unit := modify (record_call c).

(** A call that returns a new object. *)
Definition gl_create (mk : Handle -> GlCall) : M World Handle :=
  fun w =>
    let h := gl_fresh w in
    Returned h
      {| gl_calls := gl_calls w ++ [mk h];
         gl_fresh := S h;
         gl_framebuffer := gl_framebuffer w;
         js_fresh := js_fresh w;
         js_mMatrix := js_mMatrix w;
         js_vMatrix := js_vMatrix w;
         js_pMatrix := js_pMatrix w |}.

(** [new]: a fresh object identity. *)
Definition js_new : M World nat :=
  fun w =>
    Returned (js_fresh w)
      {| gl_calls := gl_calls w;
         gl_fresh := gl_fresh w;
         gl_framebuffer := gl_framebuffer w;
         js_fresh := S (js_fresh w);
         js_mMatrix := js_mMatrix w;
         js_vMatrix := js_vMatrix w;
         js_pMatrix := js_pMatrix w |}.

Definition set_mMatrix (self : nat) (m : mat4) (w : World) : World :=
  {| gl_calls := gl_calls w;
     gl_fresh := gl_fresh w;
     gl_framebuffer := gl_framebuffer w;
     js_fresh := js_fresh w;
     js_mMatrix := fun o => if Nat.eqb o self then m else js_mMatrix w o;
     js_vMatrix := js_vMatrix w;
     js_pMatrix := js_pMatrix w |}.

Definition set_vMatrix (m : mat4) (w : World) : World :=
  {| gl_calls := gl_calls w;
     gl_fresh := gl_fresh w;
     gl_framebuffer := gl_framebuffer w;
     js_fresh := js_fresh w;
     js_mMatrix := js_mMatrix w;
     js_vMatrix := m;
     js_pMatrix := js_pMatrix w |}.

Definition set_pMatrix (m : mat4) (w : World) : World :=
  {| gl_calls := gl_calls w;
     gl_fresh := gl_fresh w;
     gl_framebuffer := gl_framebuffer w;
     js_fresh := js_fresh w;
     js_mMatrix := js_mMatrix w;
     js_vMatrix := js_vMatrix w;
     js_pMatrix := m |}.

End Context_.

(** ** [class RenderObject] *)

(** The option object of a [RenderObject]; a missing [color] reads as
    [undefined]. *)
Record Options := mkOptions { color : JsValue }.

(** [{ ...options }], where [options] may be [undefined]. *)
Definition spread_options (options : option Options) : Options :=
  match options with
  | Some o => o
  | None => {| color := JsUndefined |}
  end.

(** The fields of a [RenderObject] that never change after construction;
    [mMatrix] is mutated in place and lives in the world under [ro_self]. *)
Record RenderObject := mkRenderObject {
  ro_self : nat;
  ro_options : Options;
  ro_mesh : Mesh;
  ro_vao : Handle;
  ro_vbo_position : Handle;
  ro_vbo_normal : Handle;
  ro_vbo_color : Handle;
  ro_ebo : Handle
}.

(** [a != b] on two [RenderObject]s compares identities. *)
Definition same_object (a b : RenderObject) : bool :=
  Nat.eqb (ro_self a) (ro_self b).

(** The offscreen target returned by [createFramebuffer] (its [capture]
    and [destroy] closures are separate definitions below). *)
Record Framebuffer := mkFramebuffer {
  framebuffer : Handle;
  diffuseBuf : Handle;
  normalBuf : Handle;
  positionBuf : Handle;
  depthBuf : Handle
}.

Section Program.

Context {glm : GlMatrix}.

Local Open Scope js_scope.

(** [new RenderObject(gl, mesh, options)] *)
Definition RenderObject_new (mesh : Mesh) (options : option Options)
  : M World RenderObject :=
  this <- js_new ;;
  let this_options := spread_options options in
  let this_mesh := mesh in
  modify (set_mMatrix this mat4_create) ;;
  vao <- gl_create CreateVertexArray ;;
  vbo_position <- gl_create CreateBuffer ;;
  vbo_normal <- gl_create CreateBuffer ;;
  vbo_color <- gl_create CreateBuffer ;;
  ebo <- gl_create CreateBuffer ;;
  gl (BindVertexArray (Some vao)) ;;
  (* position *)
  gl (BindBuffer ARRAY_BUFFER (Some vbo_position)) ;;
  gl (BufferData ARRAY_BUFFER (Float32Array (positions this_mesh)) STATIC_DRAW) ;;
  gl (EnableVertexAttribArray 0) ;;
  gl (VertexAttribPointer 0 3 FLOAT false 0 0) ;;
  (* normal *)
  gl (BindBuffer ARRAY_BUFFER (Some vbo_normal)) ;;
  gl (BufferData ARRAY_BUFFER (Float32Array (normals this_mesh)) STATIC_DRAW) ;;
  gl (EnableVertexAttribArray 1) ;;
  gl (VertexAttribPointer 1 3 FLOAT false 0 0) ;;
  (* color *)
  (if negb (truthy (color this_options)) then
     gl (BindBuffer ARRAY_BUFFER (Some vbo_color)) ;;
     gl (BufferData ARRAY_BUFFER (Float32Array (colors this_mesh)) STATIC_DRAW) ;;
     gl (EnableVertexAttribArray 2) ;;
     gl (VertexAttribPointer 2 3 FLOAT false 0 0)
   else
     gl (DisableVertexAttribArray 2) ;;
     gl (VertexAttrib3fv 2 (color this_options))) ;;
  (* index *)
  gl (BindBuffer ELEMENT_ARRAY_BUFFER (Some ebo)) ;;
  gl (BufferData ELEMENT_ARRAY_BUFFER (Uint32Array (indices this_mesh)) STATIC_DRAW) ;;
  (* cleanup *)
  gl (BindVertexArray None) ;;
  gl (BindBuffer ARRAY_BUFFER None) ;;
  gl (BindBuffer ELEMENT_ARRAY_BUFFER None) ;;
  ret {| ro_self := this;
         ro_options := this_options;
         ro_mesh := this_mesh;
         ro_vao := vao;
         ro_vbo_position := vbo_position;
         ro_vbo_normal := vbo_normal;
         ro_vbo_color := vbo_color;
         ro_ebo := ebo |}.

(** [this.render(gl, program, vMatrix, pMatrix)] *)
Definition RenderObject_render (this : RenderObject) (program : Handle)
    (vMatrix pMatrix : mat4) : M World unit :=
  if Nat.eqb (length (indices (ro_mesh this))) 0 then
    ret tt
  else
    w <- get ;;
    gl (UniformMatrix4fv (getUniformLocation program "uMMatrix") false
          (js_mMatrix w (ro_self this))) ;;
    gl (UniformMatrix4fv (getUniformLocation program "uVMatrix") false vMatrix) ;;
    gl (UniformMatrix4fv (getUniformLocation program "uPMatrix") false pMatrix) ;;
    gl (BindVertexArray (Some (ro_vao this))) ;;
    gl (DrawElements TRIANGLES (length (indices (ro_mesh this))) UNSIGNED_INT 0) ;;
    gl (BindVertexArray None).

(** [this.destroy(gl)] *)
Definition RenderObject_destroy (this : RenderObject) : M World unit :=
  gl (DeleteVertexArray (ro_vao this)) ;;
  gl (DeleteBuffer (ro_ebo this)) ;;
  gl (DeleteBuffer (ro_vbo_position this)) ;;
  gl (DeleteBuffer (ro_vbo_normal this)) ;;
  gl (DeleteBuffer (ro_vbo_color this)).

(** ** [createFramebuffer] *)

Definition setupTexture (texture : Handle) (internalFormat : TexFormat)
    (width height : Q) (format : TexFormat) (type : DataType) : M World unit :=
  gl (BindTexture (Some texture)) ;;
  gl (TexParameteri TEXTURE_MAG_FILTER NEAREST) ;;
  gl (TexParameteri TEXTURE_MIN_FILTER NEAREST) ;;
  gl (TexParameteri TEXTURE_WRAP_S CLAMP_TO_EDGE) ;;
  gl (TexParameteri TEXTURE_WRAP_T CLAMP_TO_EDGE) ;;
  gl (TexImage2D 0 internalFormat width height 0 format type).

(** The body of [createFramebuffer] up to the definition of its closures;
    [canvas_width] and [canvas_height] are [gl.canvas.width] and
    [gl.canvas.height]. *)
Definition createFramebuffer (canvas_width canvas_height : Q)
  : M World Framebuffer :=
  framebuffer <- gl_create CreateFramebuffer ;;
  diffuseBuf <- gl_create CreateTexture ;;
  normalBuf <- gl_create CreateTexture ;;
  positionBuf <- gl_create CreateTexture ;;
  depthBuf <- gl_create CreateTexture ;;
  gl (BindFramebuffer (Some framebuffer)) ;;
  setupTexture diffuseBuf RGBA32F canvas_width canvas_height RGBA FLOAT ;;
  setupTexture normalBuf RGBA32F canvas_width canvas_height RGBA FLOAT ;;
  setupTexture positionBuf RGBA32F canvas_width canvas_height RGBA FLOAT ;;
  gl (BindTexture (Some depthBuf)) ;;
  gl (TexParameteri TEXTURE_MAG_FILTER NEAREST) ;;
  gl (TexParameteri TEXTURE_MIN_FILTER NEAREST) ;;
  gl (TexParameteri TEXTURE_WRAP_S CLAMP_TO_EDGE) ;;
  gl (TexParameteri TEXTURE_WRAP_T CLAMP_TO_EDGE) ;;
  gl (TexImage2D 0 DEPTH_COMPONENT32F canvas_width canvas_height 0
        DEPTH_COMPONENT FLOAT) ;;
  gl (FramebufferTexture2D COLOR_ATTACHMENT0 diffuseBuf 0) ;;
  gl (FramebufferTexture2D COLOR_ATTACHMENT1 normalBuf 0) ;;
  gl (FramebufferTexture2D COLOR_ATTACHMENT2 positionBuf 0) ;;
  gl (FramebufferTexture2D DEPTH_ATTACHMENT depthBuf 0) ;;
  gl (BindFramebuffer None) ;;
  gl (BindTexture None) ;;
  ret {| framebuffer := framebuffer;
         diffuseBuf := diffuseBuf;
         normalBuf := normalBuf;
         positionBuf := positionBuf;
         depthBuf := depthBuf |}.

(** [fb.capture(cb)] *)
Definition capture (fb : Framebuffer) (cb : M World unit) : M World unit :=
  gl (BindFramebuffer (Some (framebuffer fb))) ;;
  gl (DrawBuffers [COLOR_ATTACHMENT0; COLOR_ATTACHMENT1; COLOR_ATTACHMENT2]) ;;
  cb ;;
  gl (BindFramebuffer None).

(** [fb.destroy(gl)] *)
Definition Framebuffer_destroy (fb : Framebuffer) : M World unit :=
  gl (DeleteFramebuffer (framebuffer fb)) ;;
  gl (DeleteTexture (diffuseBuf fb)) ;;
  gl (DeleteTexture (normalBuf fb)) ;;
  gl (DeleteTexture (positionBuf fb)) ;;
  gl (DeleteTexture (depthBuf fb)).

(** ** [createShader] and [createProgram] *)

Definition createShader (type : ShaderType) (source : ShaderText) : M World Handle :=
  shader <- gl_create (CreateShader type) ;;
  gl (ShaderSource shader source) ;;
  gl (CompileShader shader) ;;
  ret shader.

Definition createProgram (vsSource fsSource : ShaderText) : M World Handle :=
  program <- gl_create CreateProgram ;;
  vs <- createShader VERTEX_SHADER vsSource ;;
  fs <- createShader FRAGMENT_SHADER fsSource ;;
  gl (AttachShader program vs) ;;
  gl (AttachShader program fs) ;;
  gl (LinkProgram program) ;;
  gl (DetachShader program vs) ;;
  gl (DetachShader program fs) ;;
  gl (DeleteShader vs) ;;
  gl (DeleteShader fs) ;;
  ret program.

(** ** The closures of [window.onload]

    The variables they capture are the variables of this section. *)

Section Onload.

Variable width height : Q.            (* 640, 480 *)
Variable canvas_width canvas_height : Q.
Variable program program2 : Handle.
Variable objects : list RenderObject.
Variable floor : RenderObject.
Variable fb : Framebuffer.
Variable near far : Q.                (* 0.8, 100.0: the outer constants *)

Definition aspect : Q := width / height.

(** The callback of [objects.forEach] in [renderGeometry]. *)
Definition renderGeometry_each (object : RenderObject) : M World unit :=
  (if negb (same_object object floor) then
     w <- get ;;
     modify (set_mMatrix (ro_self object)
               (mat4_rotateY (js_mMatrix w (ro_self object)) (radians (4 # 10)))) ;;
     w <- get ;;
     modify (set_mMatrix (ro_self object)
               (mat4_rotateZ (js_mMatrix w (ro_self object)) (radians (25 # 100)))) ;;
     w <- get ;;
     modify (set_mMatrix (ro_self object)
               (mat4_rotateX (js_mMatrix w (ro_self object)) (radians (6 # 10))))
   else ret tt) ;;
  w <- get ;;
  RenderObject_render object program (js_vMatrix w) (js_pMatrix w).

(** [renderGeometry(near, far)]; its parameters shadow the outer constants. *)
Definition renderGeometry (near far : Q) : M World unit :=
  gl (Enable DEPTH_TEST) ;;
  gl (Enable CULL_FACE) ;;
  gl (Viewport 0 0 canvas_width canvas_height) ;;
  gl (ClearColor (1 # 10) (1 # 10) (1 # 10) 1) ;;
  gl (ClearDepth 1) ;;
  gl (Clear [COLOR_BUFFER_BIT; DEPTH_BUFFER_BIT]) ;;
  modify (set_pMatrix (mat4_perspective (NMul (NDiv NPi (NQ 180)) (NQ 60)) aspect near far)) ;;
  modify (set_vMatrix (mat4_lookAt (0, 5 # 10, 22 # 10) (0, 0, 0) (0, 1, 0))) ;;
  gl (UseProgram program) ;;
  forEach objects renderGeometry_each.

(** [renderTexture(texture, isSingleChannel, useLinear)] *)
Definition renderTexture (texture : Handle) (isSingleChannel useLinear : bool)
  : M World unit :=
  gl (UseProgram program2) ;;
  gl (Uniform1i (getUniformLocation program2 "uSampler") (JsNumber 0)) ;;
  gl (Uniform1i (getUniformLocation program2 "uIsSingleChannel") (JsBoolean isSingleChannel)) ;;
  gl (Uniform1i (getUniformLocation program2 "uUseLinear") (JsBoolean useLinear)) ;;
  gl (Uniform1f (getUniformLocation program2 "uNear") near) ;;
  gl (Uniform1f (getUniformLocation program2 "uFar") far) ;;
  gl (BindTexture (Some texture)) ;;
  gl (DrawArrays TRIANGLE_STRIP 0 4) ;;
  gl (BindTexture None).

(** [render()] *)
Definition render : M World unit :=
  if truthy (JsNumber 0) then
    renderGeometry near far
  else
    capture fb (renderGeometry near far) ;;
    (* render frame *)
    gl (Viewport 0 0 canvas_width canvas_height) ;;
    gl (Enable DEPTH_TEST) ;;
    gl (Enable CULL_FACE) ;;
    gl (ClearColor 0 0 0 1) ;;
    gl (ClearDepth 1) ;;
    gl (Clear [COLOR_BUFFER_BIT; DEPTH_BUFFER_BIT]) ;;
    let w := (width / 4) / 2 in
    let h := w * (height / width) in
    gl (Viewport (w * 0) (canvas_height - h) w h) ;;
    renderTexture (diffuseBuf fb) false false ;;
    gl (Viewport (w * 1) (canvas_height - h) w h) ;;
    renderTexture (normalBuf fb) false false ;;
    gl (Viewport (w * 2) (canvas_height - h) w h) ;;
    renderTexture (positionBuf fb) false false ;;
    gl (Viewport (w * 3) (canvas_height - h) w h) ;;
    renderTexture (depthBuf fb) true false ;;
    (* render final results *)
    gl (Viewport 0 0 canvas_width canvas_height) ;;
    renderTexture (diffuseBuf fb) false false.

End Onload.

(** ** The scene set up by [window.onload]

    [random k] is the result of the [k]-th call of [Math.random()]; the
    overlay, the canvas element and [gman.disable()] are outside the
    model. *)

Record Scene := mkScene {
  scene_program : Handle;
  scene_program2 : Handle;
  scene_objects : list RenderObject;
  scene_floor : RenderObject;
  scene_fb : Framebuffer
}.

(** [mat4.translate(o.mMatrix, o.mMatrix, v)] and its siblings. *)
Definition update_mMatrix (o : RenderObject) (f : mat4 -> mat4) : M World unit :=
  w <- get ;;
  modify (set_mMatrix (ro_self o) (f (js_mMatrix w (ro_self o)))).

(** One turn of the [for] loop that adds a random box. *)
Definition onload_random_box (random : nat -> Q) (i : nat)
  : M World RenderObject :=
  object <- RenderObject_new (createBoxMesh (random (5 * i)%nat * (32 # 100))) None ;;
  update_mMatrix object (fun m =>
    mat4_translate m (random (5 * i + 1)%nat * (18 # 10) - (9 # 10),
                      random (5 * i + 2)%nat * (14 # 10) - (7 # 10),
                      0)) ;;
  update_mMatrix object (fun m =>
    mat4_rotateZ m (NMul (NMul (NQ (random (5 * i + 3)%nat)) NPi) (NQ 2))) ;;
  update_mMatrix object (fun m =>
    mat4_rotateY m (NMul (NMul (NQ (random (5 * i + 4)%nat)) NPi) (NQ 2))) ;;
  ret object.

Fixpoint onload_random_boxes (random : nat -> Q) (turns : list nat)
  : M World (list RenderObject) :=
  match turns with
  | [] => ret []
  | i :: rest =>
      object <- onload_random_box random i ;;
      more <- onload_random_boxes random rest ;;
      ret (object :: more)
  end.

Definition onload (random : nat -> Q) : M World Scene :=
  let width := 640 in
  let height := 480 in
  gl (GetExtension "EXT_color_buffer_float") ;;
  gl (GetExtension "GMAN_debug_helper") ;;
  program <- createProgram vertex_source fragment_source ;;
  program2 <- createProgram vertex_source2 fragment_source2 ;;
  modify (set_vMatrix mat4_create) ;;
  modify (set_pMatrix mat4_create) ;;
  floor <- RenderObject_new (createFloorMesh (18 # 10))
             (Some {| color := JsArray [6 # 10; 6 # 10; 6 # 10] |}) ;;
  update_mMatrix floor (fun m => mat4_translate m (0, - (5 # 10), 0)) ;;
  box <- RenderObject_new (createBoxMesh (4 # 10)) None ;;
  update_mMatrix box (fun m => mat4_translate m (0, - (1 # 10), 0)) ;;
  boxes <- (if truthy (JsNumber 1)
            then onload_random_boxes random (seq 0 6)
            else ret []) ;;
  fb <- createFramebuffer width height ;;
  ret {| scene_program := program;
         scene_program2 := program2;
         scene_objects := [floor; box] ++ boxes;
         scene_floor := floor;
         scene_fb := fb |}.

(** [render] with the variables [window.onload] binds. *)
Definition scene_render (sc : Scene) : M World unit :=
  render 640 480 640 480 (scene_program sc) (scene_program2 sc)
    (scene_objects sc) (scene_floor sc) (scene_fb sc) (8 # 10) 100.

End Program.

(** ** The animation loop and its host *)

Inductive StatsEvent := StatsBegin | StatsEnd.

Section Loop.

Context {glm : GlMatrix}.

Local Open Scope js_scope.

(** What the page owns besides the scene: the statistics overlay, the
    animation-frame callbacks the browser holds, the [request] variable and
    the console.  Only [loop] is ever registered, so a registered callback
    is represented by the id its registration returned. *)
Record Host := mkHost {
  world : World;
  stats_events : list StatsEvent;
  raf_pending : list nat;
  raf_fresh : nat;
  request : option nat;
  console : list JsError
}.

(** Run a computation on the scene inside the page. *)
Definition lift {A} (c : M World A) : M Host A :=
  fun h =>
    match c (world h) with
    | Returned a w =>
        Returned a {| world := w; stats_events := stats_events h;
                      raf_pending := raf_pending h; raf_fresh := raf_fresh h;
                      request := request h; console := console h |}
    | Thrown e w =>
        Thrown e {| world := w; stats_events := stats_events h;
                    raf_pending := raf_pending h; raf_fresh := raf_fresh h;
                    request := request h; console := console h |}
    end.

Definition stats_mark (ev : StatsEvent) : M Host unit :=
  modify (fun h =>
    {| world := world h; stats_events := stats_events h ++ [ev];
       raf_pending := raf_pending h; raf_fresh := raf_fresh h;
       request := request h; console := console h |}).

(** [stats.begin()] and [stats.end()]: the overlay only records. *)
Definition stats_begin : M Host unit := stats_mark StatsBegin.
Definition stats_end : M Host unit := stats_mark StatsEnd.

(** [requestAnimationFrame(loop)]: registers one callback, returns its id. *)
Definition requestAnimationFrame : M Host nat :=
  fun h =>
    let id := raf_fresh h in
    Returned id
      {| world := world h; stats_events := stats_events h;
         raf_pending := raf_pending h ++ [id]; raf_fresh := S id;
         request := request h; console := console h |}.

(** [request = id] *)
Definition set_request (id : nat) : M Host unit :=
  modify (fun h =>
    {| world := world h; stats_events := stats_events h;
       raf_pending := raf_pending h; raf_fresh := raf_fresh h;
       request := Some id; console := console h |}).

(** [console.error(err)] *)
Definition console_error (err : JsError) : M Host unit :=
  modify (fun h =>
    {| world := world h; stats_events := stats_events h;
       raf_pending := raf_pending h; raf_fresh := raf_fresh h;
       request := request h; console := console h ++ [err] |}).

(** [loop]; the [render] closure it calls is a parameter, so that a frame
    that throws can be expressed. *)
Definition loop (render : M World unit) : M Host unit :=
  try_catch
    (stats_begin ;;
     lift render ;;
     stats_end ;;
     id <- requestAnimationFrame ;;
     set_request id)
    (fun err => console_error err).

(** One display refresh of the browser: the callbacks registered before
    the refresh are taken off the list and run once each, in order. *)
Definition animation_frame (render : M World unit) (h : Host) : Host :=
  fold_left (fun h' (_ : nat) => final_state (loop render h'))
    (raf_pending h)
    {| world := world h; stats_events := stats_events h;
       raf_pending := []; raf_fresh := raf_fresh h;
       request := request h; console := console h |}.

Fixpoint animation_frames (n : nat) (render : M World unit) (h : Host) : Host :=
  match n with
  | O => h
  | S n' => animation_frames n' render (animation_frame render h)
  end.

(** The number of frames begun so far. *)
Definition frames_begun (h : Host) : nat :=
  length (filter (fun ev => match ev with StatsBegin => true | StatsEnd => false end)
            (stats_events h)).

End Loop.

(** ** Reading a call log back *)

Section Observations.

Context {glm : GlMatrix}.

(** The calls made between two worlds of one run. *)
Definition calls_since (w w' : World) : list GlCall :=
  skipn (length (gl_calls w)) (gl_calls w').

(** The buffer objects a run of calls creates, in creation order. *)
Definition created_buffers (log : list GlCall) : list Handle :=
  flat_map (fun c => match c with CreateBuffer h => [h] | _ => [] end) log.

(** The data stores a run of calls allocates: for each [bufferData], the
    buffer bound to its target at that point and the data uploaded.
    [array] and [element] are the bindings before the run. *)
Fixpoint buffer_stores (array element : option Handle) (log : list GlCall)
  : list (option Handle * BufferSource) :=
  match log with
  | [] => []
  | BindBuffer ARRAY_BUFFER b :: rest => buffer_stores b element rest
  | BindBuffer ELEMENT_ARRAY_BUFFER b :: rest => buffer_stores array b rest
  | BufferData ARRAY_BUFFER d _ :: rest =>
      (array, d) :: buffer_stores array element rest
  | BufferData ELEMENT_ARRAY_BUFFER d _ :: rest =>
      (element, d) :: buffer_stores array element rest
  | _ :: rest => buffer_stores array element rest
  end.

(** How a vertex attribute location is fed. *)
Record Attrib := mkAttrib {
  attrib_array_enabled : bool;           (* fed per vertex from a buffer *)
  attrib_array_buffer : option Handle;   (* the buffer its pointer names *)
  attrib_constant : option JsValue       (* the constant set for it *)
}.

Definition attrib_unset : Attrib :=
  {| attrib_array_enabled := false;
     attrib_array_buffer := None;
     attrib_constant := None |}.

(** The state of attribute location [i] after a run of calls. *)
Fixpoint attrib_after (i : nat) (array : option Handle) (a : Attrib)
    (log : list GlCall) : Attrib :=
  match log with
  | [] => a
  | BindBuffer ARRAY_BUFFER b :: rest => attrib_after i b a rest
  | EnableVertexAttribArray j :: rest =>
      attrib_after i array
        (if Nat.eqb i j
         then {| attrib_array_enabled := true;
                 attrib_array_buffer := attrib_array_buffer a;
                 attrib_constant := attrib_constant a |}
         else a) rest
  | DisableVertexAttribArray j :: rest =>
      attrib_after i array
        (if Nat.eqb i j
         then {| attrib_array_enabled := false;
                 attrib_array_buffer := attrib_array_buffer a;
                 attrib_constant := attrib_constant a |}
         else a) rest
  | VertexAttribPointer j _ _ _ _ _ :: rest =>
      attrib_after i array
        (if Nat.eqb i j
         then {| attrib_array_enabled := attrib_array_enabled a;
                 attrib_array_buffer := array;
                 attrib_constant := attrib_constant a |}
         else a) rest
  | VertexAttrib3fv j v :: rest =>
      attrib_after i array
        (if Nat.eqb i j
         then {| attrib_array_enabled := attrib_array_enabled a;
                 attrib_array_buffer := attrib_array_buffer a;
                 attrib_constant := Some v |}
         else a) rest
  | _ :: rest => attrib_after i array a rest
  end.

(** The indexed draws of a run of calls. *)
Definition element_draws (log : list GlCall)
  : list (DrawMode * nat * DataType * nat) :=
  flat_map (fun c => match c with
                     | DrawElements mode count type offset =>
                         [(mode, count, type, offset)]
                     | _ => []
                     end) log.

(** The matrix uniforms a run of calls sets, by name. *)
Definition matrix_uniforms (log : list GlCall) : list (string * mat4) :=
  flat_map (fun c => match c with
                     | UniformMatrix4fv loc _ m => [(loc_name loc, m)]
                     | _ => []
                     end) log.

(** One draw of the composite program: where, from which texture, and the
    two flags as last set. *)
Record TextureDraw := mkTextureDraw {
  td_viewport : option (Q * Q * Q * Q);
  td_texture : option Handle;
  td_isSingleChannel : JsValue;
  td_useLinear : JsValue
}.

(** The [drawArrays] calls of a run, each with the viewport, the texture
    binding and the flag uniforms in force when it is issued. *)
Fixpoint texture_draws (st : TextureDraw) (log : list GlCall) : list TextureDraw :=
  match log with
  | [] => []
  | Viewport x y w h :: rest =>
      texture_draws {| td_viewport := Some (x, y, w, h);
                       td_texture := td_texture st;
                       td_isSingleChannel := td_isSingleChannel st;
                       td_useLinear := td_useLinear st |} rest
  | BindTexture t :: rest =>
      texture_draws {| td_viewport := td_viewport st;
                       td_texture := t;
                       td_isSingleChannel := td_isSingleChannel st;
                       td_useLinear := td_useLinear st |} rest
  | Uniform1i loc v :: rest =>
      texture_draws
        {| td_viewport := td_viewport st;
           td_texture := td_texture st;
           td_isSingleChannel :=
             if String.eqb (loc_name loc) "uIsSingleChannel"
             then v else td_isSingleChannel st;
           td_useLinear :=
             if String.eqb (loc_name loc) "uUseLinear"
             then v else td_useLinear st |} rest
  | DrawArrays _ _ _ :: rest => st :: texture_draws st rest
  | _ :: rest => texture_draws st rest
  end.

Definition texture_draw_unset : TextureDraw :=
  {| td_viewport := None;
     td_texture := None;
     td_isSingleChannel := JsUndefined;
     td_useLinear := JsUndefined |}.

(** The three rotations [renderGeometry] applies to a model matrix, by
    0.4, 0.25 and 0.6 degrees: an angle of [d] degrees is the number
    [Math.PI / 180 * d]. *)
Definition spin (m : mat4) : mat4 :=
  mat4_rotateX
    (mat4_rotateZ
       (mat4_rotateY m (NMul (NDiv NPi (NQ 180)) (NQ (4 # 10))))
       (NMul (NDiv NPi (NQ 180)) (NQ (25 # 100))))
    (NMul (NDiv NPi (NQ 180)) (NQ (6 # 10))).

(** How often the object of identity [k] occurs in [objects]. *)
Definition visits (k : nat) (objects : list RenderObject) : nat :=
  length (filter (fun o => Nat.eqb (ro_self o) k) objects).

(** The size of a shrunk debug view: [w] and [h] of [render]. *)
Definition debug_view_w (width : Q) : Q := (width / 4) / 2.
Definition debug_view_h (width height : Q) : Q :=
  debug_view_w width * (height / width).

(** The statement that constructing with [options] creates no color
    buffer object. *)
Definition creates_no_color_buffer (mesh : Mesh) (options : option Options)
    (w : World) : Prop :=
  match RenderObject_new mesh options w with
  | Returned obj w' => ~ In (ro_vbo_color obj) (created_buffers (calls_since w w'))
  | Thrown _ _ => False
  end.

(** The statement that the fourth texture draw of a frame shows the depth
    buffer single-channel and linearised. *)
Definition depth_view_is_linearized (fb : Framebuffer) (draws : list TextureDraw)
  : Prop :=
  exists d,
    nth_error draws 3 = Some d /\
    td_texture d = Some (depthBuf fb) /\
    td_isSingleChannel d = JsBoolean true /\
    td_useLinear d = JsBoolean true.

(** The world in which [capture] invokes its callback. *)
Definition capture_entry (fb : Framebuffer) (w : World) : World :=
  record_call (DrawBuffers [COLOR_ATTACHMENT0; COLOR_ATTACHMENT1; COLOR_ATTACHMENT2])
    (record_call (BindFramebuffer (Some (framebuffer fb))) w).

(** A callback that leaves the draw target as it finds it. *)
Definition keeps_framebuffer (cb : M World unit) : Prop :=
  forall w, gl_framebuffer (final_state (cb w)) = gl_framebuffer w.

End Observations.

(** ** A matrix library of terms

    Matrices as the expressions that build them: an instance of [GlMatrix]
    on which the program can be run. *)

Inductive SymMat :=
| SIdentity
| STranslate (m : SymMat) (v : vec3)
| SRotateX (m : SymMat) (rad : Num)
| SRotateY (m : SymMat) (rad : Num)
| SRotateZ (m : SymMat) (rad : Num)
| SPerspective (fovy : Num) (aspect near far : Q)
| SLookAt (eye center up : vec3).

#[export] Instance SymGlMatrix : GlMatrix :=
  {| mat4 := SymMat;
     mat4_create := SIdentity;
     mat4_translate := STranslate;
     mat4_rotateX := SRotateX;
     mat4_rotateY := SRotateY;
     mat4_rotateZ := SRotateZ;
     mat4_perspective := SPerspective;
     mat4_lookAt := SLookAt |}.

(** A fresh context and an empty heap. *)
Definition fresh_world : @World SymGlMatrix :=
  {| gl_calls := [];
     gl_fresh := 1%nat;
     gl_framebuffer := None;
     js_fresh := 0%nat;
     js_mMatrix := fun _ => SIdentity;
     js_vMatrix := SIdentity;
     js_pMatrix := SIdentity |}.

(** The page right after [window.onload], every [Math.random()] being 1/2. *)
Definition loaded : Outcome (@World SymGlMatrix) Scene :=
  onload (fun _ => 1 # 2) fresh_world.

Definition loaded_world : @World SymGlMatrix := final_state loaded.

Definition loaded_scene : option Scene :=
  match loaded with Returned sc _ => Some sc | Thrown _ _ => None end.

(** The texture draws of the first frame on the loaded page, with the
    offscreen target they read. *)
Definition loaded_frame : option (Framebuffer * list TextureDraw) :=
  match loaded with
  | Returned sc w =>
      Some (scene_fb sc,
            texture_draws texture_draw_unset
              (calls_since w (final_state (scene_render sc w))))
  | Thrown _ _ => None
  end.

(** The floor's arguments in [window.onload]. *)
Definition floor_mesh : Mesh := createFloorMesh (18 # 10).
Definition floor_options : option Options :=
  Some {| color := JsArray [6 # 10; 6 # 10; 6 # 10] |}.

(** The floor and the first box as two constructions on a fresh context
    return them. *)
Definition floor0 : RenderObject :=
  {| ro_self := 0%nat;
     ro_options := {| color := JsArray [6 # 10; 6 # 10; 6 # 10] |};
     ro_mesh := floor_mesh;
     ro_vao := 1%nat;
     ro_vbo_position := 2%nat;
     ro_vbo_normal := 3%nat;
     ro_vbo_color := 4%nat;
     ro_ebo := 5%nat |}.

Definition box0 : RenderObject :=
  {| ro_self := 1%nat;
     ro_options := {| color := JsUndefined |};
     ro_mesh := createBoxMesh (4 # 10);
     ro_vao := 6%nat;
     ro_vbo_position := 7%nat;
     ro_vbo_normal := 8%nat;
     ro_vbo_color := 9%nat;
     ro_ebo := 10%nat |}.

(** An offscreen target. *)
Definition fb0 : Framebuffer :=
  {| framebuffer := 11%nat;
     diffuseBuf := 12%nat;
     normalBuf := 13%nat;
     positionBuf := 14%nat;
     depthBuf := 15%nat |}.

(** A geometry pass that fails after its first call. *)
Definition failing_pass : M (@World SymGlMatrix) unit :=
  bind (gl (Enable DEPTH_TEST)) (fun _ => throw "context lost"%string).

(** The page as [window.onload] leaves it: one callback registered. *)
Definition host0 : @Host SymGlMatrix :=
  {| world := fresh_world;
     stats_events := [];
     raf_pending := [1%nat];
     raf_fresh := 2%nat;
     request := Some 1%nat;
     console := [] |}.

(** ** Further definitions: meshes as a draw call reads them *)

Definition vertex_count (m : Mesh) : nat := triplet_count (positions m).

(** What an indexed triangle-list draw needs of a mesh: the three attribute
    arrays hold whole triplets, one per vertex, the indices come in whole
    triples, and every index names a vertex. *)
Definition mesh_well_formed (m : Mesh) : Prop :=
  length (positions m) = (3 * vertex_count m)%nat /\
  length (normals m) = (3 * vertex_count m)%nat /\
  length (colors m) = (3 * vertex_count m)%nat /\
  Nat.modulo (length (indices m)) 3 = 0%nat /\
  Forall (fun i => (i < vertex_count m)%nat) (indices m).

Definition vscale (k : Q) (v : vec3) : vec3 :=
  let '(x, y, z) := v in (k * x, k * y, k * z).

(** One drawn triangle with what its three vertices carry: positions,
    normals and colors, each resolved through the index list. *)
Definition Face : Type :=
  option Triangle * option Triangle * option Triangle.

Definition faces (m : Mesh) : list Face :=
  combine
    (combine (triangles_of (positions m) (indices m))
             (triangles_of (normals m) (indices m)))
    (triangles_of (colors m) (indices m)).

(** The three vertices of a face carry one normal, and the face's
    geometric normal is that normal scaled by [k]. *)
Definition face_normal_matches (k : Q) (f : Face) : Prop :=
  match f with
  | (Some t, Some (n1, n2, n3), _) =>
      n1 = n2 /\ n2 = n3 /\ veq (geometric_normal t) (vscale k n1)
  | _ => False
  end.

(** The three vertices of a face carry one color. *)
Definition face_one_color (f : Face) : Prop :=
  match f with
  | (_, _, Some (c1, c2, c3)) => c1 = c2 /\ c2 = c3
  | _ => False
  end.

(** The color a face carries, if its three vertices agree on one. *)
Definition face_color (f : Face) : option vec3 :=
  match f with
  | (_, _, Some (c1, _, _)) => Some c1
  | _ => None
  end.

(** ** Further definitions: the composite vertex shader ([vertex_source2]) *)

Definition vec2 : Type := Q * Q.

Module Quad.

Definition positions : list vec4 :=
  [ (- (1), 1, 0, 1);
    (- (1), - (1), 0, 1);
    (1, 1, 0, 1);
    (1, - (1), 0, 1) ].

Definition uvs : list vec2 :=
  [ (0, 1); (0, 0); (1, 1); (1, 0) ].

End Quad.

(** [main] of the composite vertex shader: [gl_Position] and [vUV] for a
    vertex id, which a draw call never makes negative. *)
Definition vertex_main2 (gl_VertexID : nat) : vec4 * vec2 :=
  (nth (Nat.modulo gl_VertexID 4) Quad.positions (0, 0, 0, 0),
   nth (Nat.modulo gl_VertexID 4) Quad.uvs (0, 0)).

(** The point of the viewport rectangle a clip-space position lands on,
    in normalised device coordinates. *)
Definition ndc (p : vec4) : vec2 :=
  let '(x, y, _, w) := p in (x / w, y / w).

(** The triangles a TRIANGLE_STRIP draw of [count] vertices from [first]
    assembles: vertices i, i+1, i+2, the first two swapped for odd i so
    that every triangle keeps the winding of the first. *)
Fixpoint strip_triangles_from (i : nat) (n : nat) : list (nat * nat * nat) :=
  match n with
  | O => []
  | S n' =>
      (if Nat.even i then (i, S i, S (S i)) else (S i, i, S (S i)))
        :: strip_triangles_from (S i) n'
  end.

Definition strip_triangles (first count : nat) : list (nat * nat * nat) :=
  map (fun '(a, b, c) => ((first + a)%nat, (first + b)%nat, (first + c)%nat))
    (strip_triangles_from 0 (count - 2)).

(** Twice the signed area of a triangle on the screen; positive when its
    vertices run counter-clockwise. *)
Definition area2 (a b c : vec2) : Q :=
  let '(ax, ay) := a in
  let '(bx, by_) := b in
  let '(cx, cy) := c in
  (bx - ax) * (cy - ay) - (by_ - ay) * (cx - ax).

Definition Triangle2 : Type := vec2 * vec2 * vec2.

Definition counter_clockwise (t : Triangle2) : Prop :=
  let '(a, b, c) := t in 0 < area2 a b c.

(** The point lies in the closed triangle. *)
Definition in_triangle2 (t : Triangle2) (p : vec2) : Prop :=
  let '(a, b, c) := t in
  (0 <= area2 a b p /\ 0 <= area2 b c p /\ 0 <= area2 c a p) \/
  (area2 a b p <= 0 /\ area2 b c p <= 0 /\ area2 c a p <= 0).

(** The point lies strictly inside the triangle. *)
Definition in_interior2 (t : Triangle2) (p : vec2) : Prop :=
  let '(a, b, c) := t in
  (0 < area2 a b p /\ 0 < area2 b c p /\ 0 < area2 c a p) \/
  (area2 a b p < 0 /\ area2 b c p < 0 /\ area2 c a p < 0).

(** The screen triangles of [drawArrays(TRIANGLE_STRIP, first, count)]
    under the composite vertex shader. *)
Definition quad_triangles (first count : nat) : list Triangle2 :=
  map (fun '(a, b, c) =>
         (ndc (fst (vertex_main2 a)),
          ndc (fst (vertex_main2 b)),
          ndc (fst (vertex_main2 c))))
    (strip_triangles first count).

(** ** Further definitions: the geometry shaders *)

(** A GLSL [mat4] by its four columns, and the product [m * v]. *)
Definition glsl_mat4 : Type := vec4 * vec4 * vec4 * vec4.

Definition vadd4 (a b : vec4) : vec4 :=
  let '(ax, ay, az, aw) := a in
  let '(bx, by_, bz, bw) := b in
  (ax + bx, ay + by_, az + bz, aw + bw).

Definition vscale4 (k : Q) (v : vec4) : vec4 :=
  let '(x, y, z, w) := v in (k * x, k * y, k * z, k * w).

Definition mat_mul_vec (m : glsl_mat4) (v : vec4) : vec4 :=
  let '(c0, c1, c2, c3) := m in
  let '(x, y, z, w) := v in
  vadd4 (vadd4 (vadd4 (vscale4 x c0) (vscale4 y c1)) (vscale4 z c2))
    (vscale4 w c3).

Definition veq4 (a b : vec4) : Prop :=
  let '(ax, ay, az, aw) := a in
  let '(bx, by_, bz, bw) := b in
  ax == bx /\ ay == by_ /\ az == bz /\ aw == bw.

(** [vec4(v, w)] and [v.xyz] *)
Definition vec4_of (v : vec3) (w : Q) : vec4 :=
  let '(x, y, z) := v in (x, y, z, w).

Definition xyz (v : vec4) : vec3 :=
  let '(x, y, z, _) := v in (x, y, z).

Definition alpha (v : vec4) : Q := let '(_, _, _, a) := v in a.

(** What the vertex shader hands to the fragment shader. *)
Record Varyings := mkVaryings {
  vColor : vec4;
  vNormal : vec4;
  vPosition : vec4
}.

(** [main] of the geometry vertex shader: the varyings and [gl_Position]. *)
Definition vertex_main (uMMatrix uVMatrix uPMatrix : glsl_mat4)
    (aPosition aNormal aColor : vec3) : Varyings * vec4 :=
  let transformedPosition := mat_mul_vec uMMatrix (vec4_of aPosition 1) in
  let transformedNormal := mat_mul_vec uMMatrix (vec4_of aNormal 0) in
  let varyings :=
    {| vColor := vec4_of aColor 1;
       vNormal := mat_mul_vec uVMatrix transformedNormal;
       vPosition := mat_mul_vec uVMatrix transformedPosition |} in
  (varyings, mat_mul_vec uPMatrix (vPosition varyings)).

(** The three outputs of the geometry fragment shader. *)
Record GBufferSample := mkGBufferSample {
  outDiffuse : vec4;
  outNormal : vec4;
  outPosition : vec4
}.

(** [main] of the geometry fragment shader; GLSL's [normalize] is a
    parameter. *)
Definition fragment_main (normalize : vec3 -> vec3) (v : Varyings)
  : GBufferSample :=
  let diffuse := vec4_of (xyz (vColor v)) 1 in
  let diffuse := vec4_of (xyz diffuse) 1 in
  {| outDiffuse := diffuse;
     outNormal := vec4_of (normalize (xyz (vNormal v))) 1;
     outPosition := vec4_of (xyz (vPosition v)) 1 |}.

(** ** Further definitions: the state a run of calls builds in the context

    The part of the WebGL2 state machine the program relies on.  The
    element-array binding and the attribute arrays belong to the bound
    vertex array object ([None] is the default one); the array-buffer
    binding, the constant attribute values and the buffer contents belong
    to the context. *)

Section Machine.

Context {glm : GlMatrix}.

Definition same_handle (a b : option Handle) : bool :=
  match a, b with
  | Some x, Some y => Nat.eqb x y
  | None, None => true
  | _, _ => false
  end.

Record GlMachine := mkGlMachine {
  m_vertex_array : option Handle;
  m_array_buffer : option Handle;
  m_element_buffer : option Handle -> option Handle;
  m_attrib_enabled : option Handle -> nat -> bool;
  m_attrib_buffer : option Handle -> nat -> option Handle;
  m_attrib_constant : nat -> option JsValue;
  m_buffer_data : Handle -> option BufferSource
}.

(** [bufferData] on the buffer bound to the target; without one the call
    is an error and stores nothing. *)
Definition store_data (b : option Handle) (d : BufferSource)
    (data : Handle -> option BufferSource) : Handle -> option BufferSource :=
  match b with
  | Some h => fun k => if Nat.eqb k h then Some d else data k
  | None => data
  end.

Definition machine_step (c : GlCall) (m : GlMachine) : GlMachine :=
  match c with
  | BindVertexArray v =>
      {| m_vertex_array := v;
         m_array_buffer := m_array_buffer m;
         m_element_buffer := m_element_buffer m;
         m_attrib_enabled := m_attrib_enabled m;
         m_attrib_buffer := m_attrib_buffer m;
         m_attrib_constant := m_attrib_constant m;
         m_buffer_data := m_buffer_data m |}
  | BindBuffer ARRAY_BUFFER b =>
      {| m_vertex_array := m_vertex_array m;
         m_array_buffer := b;
         m_element_buffer := m_element_buffer m;
         m_attrib_enabled := m_attrib_enabled m;
         m_attrib_buffer := m_attrib_buffer m;
         m_attrib_constant := m_attrib_constant m;
         m_buffer_data := m_buffer_data m |}
  | BindBuffer ELEMENT_ARRAY_BUFFER b =>
      {| m_vertex_array := m_vertex_array m;
         m_array_buffer := m_array_buffer m;
         m_element_buffer :=
           fun v => if same_handle v (m_vertex_array m) then b
                    else m_element_buffer m v;
         m_attrib_enabled := m_attrib_enabled m;
         m_attrib_buffer := m_attrib_buffer m;
         m_attrib_constant := m_attrib_constant m;
         m_buffer_data := m_buffer_data m |}
  | BufferData ARRAY_BUFFER d _ =>
      {| m_vertex_array := m_vertex_array m;
         m_array_buffer := m_array_buffer m;
         m_element_buffer := m_element_buffer m;
         m_attrib_enabled := m_attrib_enabled m;
         m_attrib_buffer := m_attrib_buffer m;
         m_attrib_constant := m_attrib_constant m;
         m_buffer_data := store_data (m_array_buffer m) d (m_buffer_data m) |}
  | BufferData ELEMENT_ARRAY_BUFFER d _ =>
      {| m_vertex_array := m_vertex_array m;
         m_array_buffer := m_array_buffer m;
         m_element_buffer := m_element_buffer m;
         m_attrib_enabled := m_attrib_enabled m;
         m_attrib_buffer := m_attrib_buffer m;
         m_attrib_constant := m_attrib_constant m;
         m_buffer_data :=
           store_data (m_element_buffer m (m_vertex_array m)) d
             (m_buffer_data m) |}
  | EnableVertexAttribArray i =>
      {| m_vertex_array := m_vertex_array m;
         m_array_buffer := m_array_buffer m;
         m_element_buffer := m_element_buffer m;
         m_attrib_enabled :=
           fun v j => if same_handle v (m_vertex_array m) && Nat.eqb j i
                      then true else m_attrib_enabled m v j;
         m_attrib_buffer := m_attrib_buffer m;
         m_attrib_constant := m_attrib_constant m;
         m_buffer_data := m_buffer_data m |}
  | DisableVertexAttribArray i =>
      {| m_vertex_array := m_vertex_array m;
         m_array_buffer := m_array_buffer m;
         m_element_buffer := m_element_buffer m;
         m_attrib_enabled :=
           fun v j => if same_handle v (m_vertex_array m) && Nat.eqb j i
                      then false else m_attrib_enabled m v j;
         m_attrib_buffer := m_attrib_buffer m;
         m_attrib_constant := m_attrib_constant m;
         m_buffer_data := m_buffer_data m |}
  | VertexAttribPointer i _ _ _ _ _ =>
      {| m_vertex_array := m_vertex_array m;
         m_array_buffer := m_array_buffer m;
         m_element_buffer := m_element_buffer m;
         m_attrib_enabled := m_attrib_enabled m;
         m_attrib_buffer :=
           fun v j => if same_handle v (m_vertex_array m) && Nat.eqb j i
                      then m_array_buffer m else m_attrib_buffer m v j;
         m_attrib_constant := m_attrib_constant m;
         m_buffer_data := m_buffer_data m |}
  | VertexAttrib3fv i value =>
      {| m_vertex_array := m_vertex_array m;
         m_array_buffer := m_array_buffer m;
         m_element_buffer := m_element_buffer m;
         m_attrib_enabled := m_attrib_enabled m;
         m_attrib_buffer := m_attrib_buffer m;
         m_attrib_constant :=
           fun j => if Nat.eqb j i then Some value else m_attrib_constant m j;
         m_buffer_data := m_buffer_data m |}
  | _ => m
  end.

(** What one vertex attribute of a draw is fed from. *)
Inductive AttribInput :=
| PerVertex (data : option BufferSource)
| Constant (value : option JsValue).

Definition attrib_input (m : GlMachine) (i : nat) : AttribInput :=
  if m_attrib_enabled m (m_vertex_array m) i
  then PerVertex
         (match m_attrib_buffer m (m_vertex_array m) i with
          | Some b => m_buffer_data m b
          | None => None
          end)
  else Constant (m_attrib_constant m i).

(** What a [drawElements] call reads. *)
Record DrawInput := mkDrawInput {
  di_count : nat;
  di_indices : option BufferSource;
  di_position : AttribInput;     (* location 0 *)
  di_normal : AttribInput;       (* location 1 *)
  di_color : AttribInput         (* location 2 *)
}.

Definition draw_input (m : GlMachine) (count : nat) : DrawInput :=
  {| di_count := count;
     di_indices := match m_element_buffer m (m_vertex_array m) with
                   | Some b => m_buffer_data m b
                   | None => None
                   end;
     di_position := attrib_input m 0;
     di_normal := attrib_input m 1;
     di_color := attrib_input m 2 |}.

(** The inputs of the [drawElements] calls of a run, from machine [m]. *)
Fixpoint draw_inputs (m : GlMachine) (log : list GlCall) : list DrawInput :=
  match log with
  | [] => []
  | c :: rest =>
      match c with
      | DrawElements _ count _ _ => [draw_input m count]
      | _ => []
      end ++ draw_inputs (machine_step c m) rest
  end.

Definition machine_after (m : GlMachine) (log : list GlCall) : GlMachine :=
  fold_left (fun m' c => machine_step c m') log m.



(** ** Further definitions: objects and draw targets in a log *)

(** The objects a run of calls creates and the objects it deletes. *)
Definition created_objects (log : list GlCall) : list Handle :=
  flat_map (fun c => match c with
                     | CreateVertexArray h | CreateBuffer h
                     | CreateFramebuffer h | CreateTexture h
                     | CreateProgram h | CreateShader _ h => [h]
                     | _ => []
                     end) log.

Definition deleted_objects (log : list GlCall) : list Handle :=
  flat_map (fun c => match c with
                     | DeleteVertexArray h | DeleteBuffer h
                     | DeleteFramebuffer h | DeleteTexture h
                     | DeleteProgram h | DeleteShader h => [h]
                     | _ => []
                     end) log.

Inductive Draw :=
| DrawnElements (count : nat)
| DrawnArrays (mode : DrawMode) (first count : nat).

(** The draw calls of a run, each with the framebuffer bound when it is
    issued; [target] is the binding before the run. *)
Fixpoint draw_targets (target : option Handle) (log : list GlCall)
  : list (Draw * option Handle) :=
  match log with
  | [] => []
  | BindFramebuffer fb :: rest => draw_targets fb rest
  | DrawElements _ count _ _ :: rest =>
      (DrawnElements count, target) :: draw_targets target rest
  | DrawArrays mode first count :: rest =>
      (DrawnArrays mode first count, target) :: draw_targets target rest
  | _ :: rest => draw_targets target rest
  end.

Fixpoint target_after (target : option Handle) (log : list GlCall)
  : option Handle :=
  match log with
  | [] => target
  | BindFramebuffer fb :: rest => target_after fb rest
  | _ :: rest => target_after target rest
  end.

(** The attachments a run of calls gives framebuffer [fbo]; [bound] is the
    framebuffer binding before the run. *)
Fixpoint attachments_of (fbo : Handle) (bound : option Handle)
    (log : list GlCall) : list (Attachment * Handle) :=
  match log with
  | [] => []
  | BindFramebuffer fb :: rest => attachments_of fbo fb rest
  | FramebufferTexture2D a t _ :: rest =>
      (if same_handle bound (Some fbo) then [(a, t)] else [])
        ++ attachments_of fbo bound rest
  | _ :: rest => attachments_of fbo bound rest
  end.

(** What a run of calls does to textures, each with the texture bound at
    that point: a storage allocation or a parameter. *)
Inductive TextureOp :=
| Storage (internalFormat : TexFormat) (width height : Q)
    (format : TexFormat) (type : DataType)
| Param (pname : TexParam) (param : TexParamValue).

Fixpoint texture_ops (bound : option Handle) (log : list GlCall)
  : list (option Handle * TextureOp) :=
  match log with
  | [] => []
  | BindTexture t :: rest => texture_ops t rest
  | TexImage2D _ f w h _ fmt ty :: rest =>
      (bound, Storage f w h fmt ty) :: texture_ops bound rest
  | TexParameteri p v :: rest =>
      (bound, Param p v) :: texture_ops bound rest
  | _ :: rest => texture_ops bound rest
  end.

Fixpoint texture_after (bound : option Handle) (log : list GlCall)
  : option Handle :=
  match log with
  | [] => bound
  | BindTexture t :: rest => texture_after t rest
  | _ :: rest => texture_after bound rest
  end.

(** The shaders attached to [program] at each [linkProgram] of it, with
    type, source and whether they were compiled by then. *)
Record ShaderState := mkShaderState {
  sh_type : ShaderType;
  sh_source : option ShaderText;
  sh_compiled : bool
}.

Fixpoint link_inputs (shaders : list (Handle * ShaderState))
    (attached : list (Handle * Handle)) (log : list GlCall)
  : list (Handle * list ShaderState) :=
  let lookup h :=
    match find (fun e => Nat.eqb (fst e) h) shaders with
    | Some e => [snd e]
    | None => []
    end in
  match log with
  | [] => []
  | CreateShader ty h :: rest =>
      link_inputs
        ((h, {| sh_type := ty; sh_source := None; sh_compiled := false |})
           :: shaders) attached rest
  | ShaderSource h src :: rest =>
      link_inputs
        (map (fun e => if Nat.eqb (fst e) h
                       then (h, {| sh_type := sh_type (snd e);
                                   sh_source := Some src;
                                   sh_compiled := false |})
                       else e) shaders) attached rest
  | CompileShader h :: rest =>
      link_inputs
        (map (fun e => if Nat.eqb (fst e) h
                       then (h, {| sh_type := sh_type (snd e);
                                   sh_source := sh_source (snd e);
                                   sh_compiled := true |})
                       else e) shaders) attached rest
  | AttachShader p h :: rest =>
      link_inputs shaders (attached ++ [(p, h)]) rest
  | DetachShader p h :: rest =>
      link_inputs shaders
        (filter (fun e => negb (Nat.eqb (fst e) p && Nat.eqb (snd e) h))
           attached) rest
  | LinkProgram p :: rest =>
      (p, flat_map (fun e => if Nat.eqb (fst e) p then lookup (snd e) else [])
            attached)
        :: link_inputs shaders attached rest
  | _ :: rest => link_inputs shaders attached rest
  end.

End Machine.

(** ** Further definitions: the page from load to unload *)

Section Page.

Context {glm : GlMatrix}.

Local Open Scope js_scope.

(** [cancelAnimationFrame(handle)]: the callback registered under the id
    is withdrawn if it is still registered; [null] names none. *)
Definition cancelAnimationFrame (handle : option nat) : M Host unit :=
  modify (fun h =>
    {| world := world h; stats_events := stats_events h;
       raf_pending :=
         match handle with
         | Some id => filter (fun k => negb (Nat.eqb k id)) (raf_pending h)
         | None => raf_pending h
         end;
       raf_fresh := raf_fresh h;
       request := request h; console := console h |}).

(** [window.onload] on the page: the scene, then the first registration of
    [loop]. *)
Definition window_onload (random : nat -> Q) : M Host Scene :=
  sc <- lift (onload random) ;;
  id <- requestAnimationFrame ;;
  set_request id ;;
  ret sc.

(** [window.onbeforeunload]; clearing the handler itself is outside the
    model. *)
Definition onbeforeunload (sc : Scene) : M Host unit :=
  h <- get ;;
  cancelAnimationFrame (request h) ;;
  lift (forEach (scene_objects sc) RenderObject_destroy) ;;
  lift (Framebuffer_destroy (scene_fb sc)) ;;
  lift (gl (DeleteProgram (scene_program sc))) ;;
  lift (gl (DeleteProgram (scene_program2 sc))).

(** [loop] is registered exactly once and [request] holds its id. *)
Definition scheduled (h : Host) : Prop :=
  exists id, raf_pending h = [id] /\ request h = Some id.

(** A page on which nothing has run yet. *)
Definition blank_page (w : World) : Host :=
  {| world := w;
     stats_events := [];
     raf_pending := [];
     raf_fresh := 1%nat;
     request := None;
     console := [] |}.

(** An object is drawn when its index list is not empty. *)
Definition drawn (o : RenderObject) : bool :=
  negb (Nat.eqb (length (indices (ro_mesh o))) 0).

End Page.

(** ** Further definitions: the calls of one construction and one render *)

Section Calls.

Context {glm : GlMatrix}.

(** The calls by which an object was constructed, read off its fields. *)
Definition construction_calls (obj : RenderObject) : list GlCall :=
  [ CreateVertexArray (ro_vao obj);
    CreateBuffer (ro_vbo_position obj);
    CreateBuffer (ro_vbo_normal obj);
    CreateBuffer (ro_vbo_color obj);
    CreateBuffer (ro_ebo obj);
    BindVertexArray (Some (ro_vao obj));
    BindBuffer ARRAY_BUFFER (Some (ro_vbo_position obj));
    BufferData ARRAY_BUFFER (Float32Array (positions (ro_mesh obj))) STATIC_DRAW;
    EnableVertexAttribArray 0;
    VertexAttribPointer 0 3 FLOAT false 0 0;
    BindBuffer ARRAY_BUFFER (Some (ro_vbo_normal obj));
    BufferData ARRAY_BUFFER (Float32Array (normals (ro_mesh obj))) STATIC_DRAW;
    EnableVertexAttribArray 1;
    VertexAttribPointer 1 3 FLOAT false 0 0 ]
  ++ (if truthy (color (ro_options obj))
      then [ DisableVertexAttribArray 2;
             VertexAttrib3fv 2 (color (ro_options obj)) ]
      else [ BindBuffer ARRAY_BUFFER (Some (ro_vbo_color obj));
             BufferData ARRAY_BUFFER (Float32Array (colors (ro_mesh obj)))
               STATIC_DRAW;
             EnableVertexAttribArray 2;
             VertexAttribPointer 2 3 FLOAT false 0 0 ])
  ++ [ BindBuffer ELEMENT_ARRAY_BUFFER (Some (ro_ebo obj));
       BufferData ELEMENT_ARRAY_BUFFER (Uint32Array (indices (ro_mesh obj)))
         STATIC_DRAW;
       BindVertexArray None;
       BindBuffer ARRAY_BUFFER None;
       BindBuffer ELEMENT_ARRAY_BUFFER None ].

(** The calls of one [render] of an object whose model matrix is [m]. *)
Definition render_calls (obj : RenderObject) (program : Handle)
    (m vMatrix pMatrix : mat4) : list GlCall :=
  if drawn obj then
    [ UniformMatrix4fv (getUniformLocation program "uMMatrix") false m;
      UniformMatrix4fv (getUniformLocation program "uVMatrix") false vMatrix;
      UniformMatrix4fv (getUniformLocation program "uPMatrix") false pMatrix;
      BindVertexArray (Some (ro_vao obj));
      DrawElements TRIANGLES (length (indices (ro_mesh obj))) UNSIGNED_INT 0;
      BindVertexArray None ]
  else [].

(** The objects an object owns in the context. *)
Definition owned_objects (obj : RenderObject) : list Handle :=
  [ ro_vao obj; ro_vbo_position obj; ro_vbo_normal obj; ro_vbo_color obj;
    ro_ebo obj ].

Definition framebuffer_objects (fb : Framebuffer) : list Handle :=
  [ framebuffer fb; diffuseBuf fb; normalBuf fb; positionBuf fb; depthBuf fb ].

(** What a draw of the object's mesh should read. *)
Definition mesh_draw_input (obj : RenderObject) : DrawInput :=
  {| di_count := length (indices (ro_mesh obj));
     di_indices := Some (Uint32Array (indices (ro_mesh obj)));
     di_position := PerVertex (Some (Float32Array (positions (ro_mesh obj))));
     di_normal := PerVertex (Some (Float32Array (normals (ro_mesh obj))));
     di_color :=
       if truthy (color (ro_options obj))
       then Constant (Some (color (ro_options obj)))
       else PerVertex (Some (Float32Array (colors (ro_mesh obj)))) |}.

End Calls.

(** ** Further definitions: the calls of the other set-up and tear-down
    functions, and the objects of a scene *)

Section SceneCalls.

Context {glm : GlMatrix}.

(** The calls of [createShader] that returned [shader]. *)
Definition shader_calls (shader : Handle) (type : ShaderType)
    (source : ShaderText) : list GlCall :=
  [ CreateShader type shader; ShaderSource shader source; CompileShader shader ].

(** The calls of [createProgram] that returned [program]: its two shaders
    are the next two objects of the context. *)
Definition program_calls (program : Handle) (vsSource fsSource : ShaderText)
  : list GlCall :=
  [ CreateProgram program ]
  ++ shader_calls (S program) VERTEX_SHADER vsSource
  ++ shader_calls (S (S program)) FRAGMENT_SHADER fsSource
  ++ [ AttachShader program (S program);
       AttachShader program (S (S program));
       LinkProgram program;
       DetachShader program (S program);
       DetachShader program (S (S program));
       DeleteShader (S program);
       DeleteShader (S (S program)) ].

Definition texture_setup_calls (texture : Handle) (internalFormat : TexFormat)
    (width height : Q) (format : TexFormat) : list GlCall :=
  [ BindTexture (Some texture);
    TexParameteri TEXTURE_MAG_FILTER NEAREST;
    TexParameteri TEXTURE_MIN_FILTER NEAREST;
    TexParameteri TEXTURE_WRAP_S CLAMP_TO_EDGE;
    TexParameteri TEXTURE_WRAP_T CLAMP_TO_EDGE;
    TexImage2D 0 internalFormat width height 0 format FLOAT ].

(** The calls of [createFramebuffer] that returned [fb]. *)
Definition framebuffer_calls (fb : Framebuffer) (width height : Q)
  : list GlCall :=
  [ CreateFramebuffer (framebuffer fb);
    CreateTexture (diffuseBuf fb);
    CreateTexture (normalBuf fb);
    CreateTexture (positionBuf fb);
    CreateTexture (depthBuf fb);
    BindFramebuffer (Some (framebuffer fb)) ]
  ++ texture_setup_calls (diffuseBuf fb) RGBA32F width height RGBA
  ++ texture_setup_calls (normalBuf fb) RGBA32F width height RGBA
  ++ texture_setup_calls (positionBuf fb) RGBA32F width height RGBA
  ++ texture_setup_calls (depthBuf fb) DEPTH_COMPONENT32F width height
       DEPTH_COMPONENT
  ++ [ FramebufferTexture2D COLOR_ATTACHMENT0 (diffuseBuf fb) 0;
       FramebufferTexture2D COLOR_ATTACHMENT1 (normalBuf fb) 0;
       FramebufferTexture2D COLOR_ATTACHMENT2 (positionBuf fb) 0;
       FramebufferTexture2D DEPTH_ATTACHMENT (depthBuf fb) 0;
       BindFramebuffer None;
       BindTexture None ].

(** The calls of [destroy] on an object and on an offscreen target. *)
Definition destroy_calls (obj : RenderObject) : list GlCall :=
  [ DeleteVertexArray (ro_vao obj);
    DeleteBuffer (ro_ebo obj);
    DeleteBuffer (ro_vbo_position obj);
    DeleteBuffer (ro_vbo_normal obj);
    DeleteBuffer (ro_vbo_color obj) ].

Definition framebuffer_destroy_calls (fb : Framebuffer) : list GlCall :=
  [ DeleteFramebuffer (framebuffer fb);
    DeleteTexture (diffuseBuf fb);
    DeleteTexture (normalBuf fb);
    DeleteTexture (positionBuf fb);
    DeleteTexture (depthBuf fb) ].

(** The two shaders [createProgram] made for a program. *)
Definition program_shaders (program : Handle) : list Handle :=
  [ S program; S (S program) ].

(** Every object the scene's set-up created in the context. *)
Definition scene_created (sc : Scene) : list Handle :=
  (scene_program sc :: program_shaders (scene_program sc))
  ++ (scene_program2 sc :: program_shaders (scene_program2 sc))
  ++ flat_map owned_objects (scene_objects sc)
  ++ framebuffer_objects (scene_fb sc).

(** A run from [w] to [w'] that appended [log] to the call log, created
    [dgl] objects in the context and [djs] render objects. *)
Definition advances (w w' : World) (log : list GlCall) (dgl djs : nat) : Prop :=
  gl_calls w' = gl_calls w ++ log /\
  gl_fresh w' = (dgl + gl_fresh w)%nat /\
  js_fresh w' = (djs + js_fresh w)%nat.

(** A run that neither creates nor deletes an object. *)
Definition allocation_free (log : list GlCall) : Prop :=
  created_objects log = [] /\ deleted_objects log = [].

(** The geometry draws of one frame over [objects] into the offscreen
    target, then the five texture draws on the default target. *)
Definition frame_draws (objects : list RenderObject) (fb : Framebuffer)
  : list (Draw * option Handle) :=
  map (fun o => (DrawnElements (length (indices (ro_mesh o))),
                 Some (framebuffer fb)))
    (filter drawn objects)
  ++ repeat (DrawnArrays TRIANGLE_STRIP 0 4, None) 5.

End SceneCalls.

(** ** Further definitions: one frame and the whole page *)

Section FrameCalls.

Context {glm : GlMatrix}.

(** The camera of a geometry pass. *)
Definition frame_view : mat4 :=
  mat4_lookAt (0, 5 # 10, 22 # 10) (0, 0, 0) (0, 1, 0).

Definition frame_projection (width height near far : Q) : mat4 :=
  mat4_perspective (NMul (NDiv NPi (NQ 180)) (NQ 60)) (width / height) near far.

(** Every view matrix a run uploads is [v] and every projection matrix
    is [p]. *)
Definition uploads_view_projection (v p : mat4) (log : list GlCall) : Prop :=
  Forall (fun nm : string * mat4 =>
            (fst nm = "uVMatrix"%string -> snd nm = v) /\
            (fst nm = "uPMatrix"%string -> snd nm = p))
    (matrix_uniforms log).

(** The calls of [renderTexture]. *)
Definition texture_draw_calls (program2 : Handle) (near far : Q)
    (texture : Handle) (isSingleChannel useLinear : bool) : list GlCall :=
  [ UseProgram program2;
    Uniform1i (getUniformLocation program2 "uSampler") (JsNumber 0);
    Uniform1i (getUniformLocation program2 "uIsSingleChannel")
      (JsBoolean isSingleChannel);
    Uniform1i (getUniformLocation program2 "uUseLinear") (JsBoolean useLinear);
    Uniform1f (getUniformLocation program2 "uNear") near;
    Uniform1f (getUniformLocation program2 "uFar") far;
    BindTexture (Some texture);
    DrawArrays TRIANGLE_STRIP 0 4;
    BindTexture None ].

(** The calls of [render] after the capture. *)
Definition composite_calls (width height canvas_width canvas_height : Q)
    (program2 : Handle) (fb : Framebuffer) (near far : Q) : list GlCall :=
  [ Viewport 0 0 canvas_width canvas_height;
    Enable DEPTH_TEST;
    Enable CULL_FACE;
    ClearColor 0 0 0 1;
    ClearDepth 1;
    Clear [COLOR_BUFFER_BIT; DEPTH_BUFFER_BIT];
    Viewport (debug_view_w width * 0)
      (canvas_height - debug_view_h width height)
      (debug_view_w width) (debug_view_h width height) ]
  ++ texture_draw_calls program2 near far (diffuseBuf fb) false false
  ++ [ Viewport (debug_view_w width * 1)
         (canvas_height - debug_view_h width height)
         (debug_view_w width) (debug_view_h width height) ]
  ++ texture_draw_calls program2 near far (normalBuf fb) false false
  ++ [ Viewport (debug_view_w width * 2)
         (canvas_height - debug_view_h width height)
         (debug_view_w width) (debug_view_h width height) ]
  ++ texture_draw_calls program2 near far (positionBuf fb) false false
  ++ [ Viewport (debug_view_w width * 3)
         (canvas_height - debug_view_h width height)
         (debug_view_w width) (debug_view_h width height) ]
  ++ texture_draw_calls program2 near far (depthBuf fb) true false
  ++ [ Viewport 0 0 canvas_width canvas_height ]
  ++ texture_draw_calls program2 near far (diffuseBuf fb) false false.

(** A box as [window.onload] makes it: no color option, 36 indices. *)
Definition box_object (o : RenderObject) : Prop :=
  truthy (color (ro_options o)) = false /\
  length (indices (ro_mesh o)) = 36%nat /\
  exists s, ro_mesh o = createBoxMesh s.

(** The scene [window.onload] builds: the floor, then seven boxes. *)
Definition page_scene (sc : Scene) : Prop :=
  (exists box boxes,
     scene_objects sc = scene_floor sc :: box :: boxes /\
     length boxes = 6%nat /\
     Forall box_object (box :: boxes)) /\
  truthy (color (ro_options (scene_floor sc))) = true /\
  ro_mesh (scene_floor sc) = createFloorMesh (18 # 10).

(** The calls of [window.onbeforeunload] on the context. *)
Definition unload_calls (sc : Scene) : list GlCall :=
  flat_map destroy_calls (scene_objects sc)
  ++ framebuffer_destroy_calls (scene_fb sc)
  ++ [ DeleteProgram (scene_program sc); DeleteProgram (scene_program2 sc) ].

(** The model matrix [window.onload] gives the random box of turn [i]. *)
Definition random_box_placement (random : nat -> Q) (i : nat) : mat4 :=
  mat4_rotateY
    (mat4_rotateZ
       (mat4_translate mat4_create
          (random (5 * i + 1)%nat * (18 # 10) - (9 # 10),
           random (5 * i + 2)%nat * (14 # 10) - (7 # 10),
           0))
       (NMul (NMul (NQ (random (5 * i + 3)%nat)) NPi) (NQ 2)))
    (NMul (NMul (NQ (random (5 * i + 4)%nat)) NPi) (NQ 2)).


End FrameCalls.

(** * Properties *)

(** ** Mesh builders *)

(** C6. For every half-extent [s] the box mesh has 36 position triplets
    (108 numbers), 36 normal triplets, 36 color triplets and 36 indices;
    every index is below 36 and the indices are 0, 1, ..., 35 in order. *)
Theorem createBoxMesh_shape (s : Q) :
  length (positions (createBoxMesh s)) = 108%nat /\
  triplet_count (positions (createBoxMesh s)) = 36%nat /\
  length (normals (createBoxMesh s)) = 108%nat /\
  triplet_count (normals (createBoxMesh s)) = 36%nat /\
  length (colors (createBoxMesh s)) = 108%nat /\
  triplet_count (colors (createBoxMesh s)) = 36%nat /\
  length (indices (createBoxMesh s)) = 36%nat /\
  Forall (fun i => (i < 36)%nat) (indices (createBoxMesh s)) /\
  indices (createBoxMesh s) = seq 0 36.
Proof.
  repeat split; try reflexivity.
  change (indices (createBoxMesh s)) with (seq 0 36).
  apply Forall_forall. intros i Hi. apply in_seq in Hi. lia.
Qed.

Lemma Q_nonzero_cases (s : Q) : ~ s == 0 -> 0 < s \/ s < 0.
Proof.
  intro H. destruct (Q_dec s 0) as [[Hlt | Hgt] | Heq]; auto. contradiction.
Qed.

Lemma Qle_bool_0_compat (a b : Q) : a == b -> Qle_bool a 0 = Qle_bool b 0.
Proof.
  intro H. destruct (Qle_bool a 0) eqn:Ha, (Qle_bool b 0) eqn:Hb; auto.
  - apply Qle_bool_iff in Ha. rewrite H in Ha. apply Qle_bool_iff in Ha.
    congruence.
  - apply Qle_bool_iff in Hb. rewrite <- H in Hb. apply Qle_bool_iff in Hb.
    congruence.
Qed.

Lemma in_quad_pos (s x z : Q) :
  0 < s -> (in_quad s x z <-> - s <= x /\ x <= s /\ - s <= z /\ z <= s).
Proof.
  intro Hs. unfold in_quad.
  assert (Hmin : Qmin (- s) s == - s) by (apply Q.min_l; lra).
  assert (Hmax : Qmax (- s) s == s) by (apply Q.max_r; lra).
  rewrite Hmin, Hmax. tauto.
Qed.

Lemma in_quad_neg (s x z : Q) :
  s < 0 -> (in_quad s x z <-> s <= x /\ x <= - s /\ s <= z /\ z <= - s).
Proof.
  intro Hs. unfold in_quad.
  assert (Hmin : Qmin (- s) s == s) by (apply Q.min_r; lra).
  assert (Hmax : Qmax (- s) s == - s) by (apply Q.max_l; lra).
  rewrite Hmin, Hmax. tauto.
Qed.

(** The two triangles the floor mesh draws, for every [s]. *)
Lemma floor_triangles (s : Q) :
  triangles (createFloorMesh s) =
  [ Some ((- s, 0, - s), (- s, 0, s), (s, 0, - s));
    Some ((s, 0, s), (s, 0, - s), (- s, 0, s)) ].
Proof. reflexivity. Qed.

(** Both geometric normals are (0, 4 s^2, 0), for every [s]. *)
Lemma floor_normals (s : Q) :
  veq (geometric_normal ((- s, 0, - s), (- s, 0, s), (s, 0, - s)))
      (0, 4 * s * s, 0) /\
  veq (geometric_normal ((s, 0, s), (s, 0, - s), (- s, 0, s)))
      (0, 4 * s * s, 0).
Proof. cbn. repeat split; ring. Qed.

(** C3, amended. For every nonzero half-extent [s] the floor's index order
    yields the triangles (0,1,2) and (3,2,1), both with a geometric normal
    along +Y; together they cover the quad exactly, and no culling
    convention culls one of them while keeping the other. *)
Theorem floor_winding_nonzero (s : Q) :
  ~ s == 0 -> floor_winding_consistent s.
Proof.
  intro Hs.
  exists ((- s, 0, - s), (- s, 0, s), (s, 0, - s)),
         ((s, 0, s), (s, 0, - s), (- s, 0, s)).
  split; [apply floor_triangles|].
  pose proof (Q_nonzero_cases s Hs) as Hsign.
  split; [|split; [|split; [|split]]].
  - cbn. repeat split; try ring. destruct Hsign; nra.
  - cbn. repeat split; try ring. destruct Hsign; nra.
  - intros x z. destruct Hsign as [Hp | Hn].
    + rewrite (in_quad_pos s x z Hp). unfold in_triangle, edge. split.
      * intros (H1 & H2 & H3 & H4).
        destruct (Qlt_le_dec 0 (x + z)) as [Hxz | Hxz].
        -- right. right. (split; [|split]); nra.
        -- left. right. (split; [|split]); nra.
      * intros [[(H1 & H2 & H3) | (H1 & H2 & H3)]
               | [(H1 & H2 & H3) | (H1 & H2 & H3)]];
          (split; [|split; [|split]]); nra.
    + rewrite (in_quad_neg s x z Hn). unfold in_triangle, edge. split.
      * intros (H1 & H2 & H3 & H4).
        destruct (Qlt_le_dec 0 (x + z)) as [Hxz | Hxz].
        -- left. right. (split; [|split]); nra.
        -- right. right. (split; [|split]); nra.
      * intros [[(H1 & H2 & H3) | (H1 & H2 & H3)]
               | [(H1 & H2 & H3) | (H1 & H2 & H3)]];
          (split; [|split; [|split]]); nra.
  - intros x z. unfold in_interior, edge.
    intros [[(H1 & H2 & H3) | (H1 & H2 & H3)]
            [(H4 & H5 & H6) | (H4 & H5 & H6)]];
      destruct Hsign; nra.
  - intros ff cm [[ex ey] ez].
    assert (Hccw :
      appears_ccw (ex, ey, ez) ((- s, 0, - s), (- s, 0, s), (s, 0, - s)) =
      appears_ccw (ex, ey, ez) ((s, 0, s), (s, 0, - s), (- s, 0, s))).
    { unfold appears_ccw. f_equal. apply Qle_bool_0_compat. cbn. ring. }
    unfold culled, front_facing. rewrite Hccw. reflexivity.
Qed.

(** The floor of [window.onload], half-extent 1.8. *)
Lemma floor_winding_nonzero_witness :
  ~ (18 # 10) == 0 /\ floor_winding_consistent (18 # 10).
Proof.
  assert (H : ~ (18 # 10) == 0) by (intro H; discriminate H).
  split; [exact H | exact (floor_winding_nonzero (18 # 10) H)].
Defined.

(** C3 as stated fails at half-extent 0: the four vertices coincide and
    both geometric normals are the zero vector. *)
Lemma floor_winding_degenerate : ~ floor_winding_consistent 0.
Proof.
  intros (t1 & t2 & Ht & Hn1 & _).
  rewrite floor_triangles in Ht. injection Ht as <- <-.
  cbn in Hn1. destruct Hn1 as (_ & Hy & _). lra.
Qed.

(** ** The composite fragment shader *)

(** C5. With both flags set the shader outputs (L, L, L, 1), L being the
    linearised red channel; for near = 0.8 and far = 100, L is 1 at c = 1
    and 1.6/100.8 at c = 0; with the single-channel flag clear the output
    is the sample itself. *)
Theorem fragment_main2_output :
  (forall near far sample,
     fragment_main2 true true near far sample =
     (linear_depth near far (red sample),
      linear_depth near far (red sample),
      linear_depth near far (red sample), 1)) /\
  linear_depth (8 # 10) 100 1 == 1 /\
  linear_depth (8 # 10) 100 0 == (16 # 10) / (1008 # 10) /\
  (forall g b a,
     red (fragment_main2 true true (8 # 10) 100 (1, g, b, a)) == 1) /\
  (forall g b a,
     red (fragment_main2 true true (8 # 10) 100 (0, g, b, a))
     == (16 # 10) / (1008 # 10)) /\
  (forall useLinear near far sample,
     fragment_main2 false useLinear near far sample = sample).
Proof.
  repeat split; reflexivity.
Qed.

(** ** Running straight-line code *)

(** Unfold the monad and the context primitives of a computation applied
    to a world. *)
Ltac run_js := cbv [bind gl gl_create modify js_new ret get].

(** Bring a log built by successive calls into the form [old ++ new]. *)
Ltac flatten_log := rewrite <- ?app_assoc; cbn [app].

Section ContextProperties.

Context {glm : GlMatrix}.

Lemma calls_since_app (w w' : World) (log : list GlCall) :
  gl_calls w' = gl_calls w ++ log -> calls_since w w' = log.
Proof.
  intro H. unfold calls_since.
  rewrite H, skipn_app, skipn_all, Nat.sub_diag. reflexivity.
Qed.

(** ** [RenderObject] *)

(** The whole log of a construction. *)
Lemma RenderObject_new_log (mesh : Mesh) (options : option Options) (w : World) :
  exists obj w',
    RenderObject_new mesh options w = Returned obj w' /\
    ro_mesh obj = mesh /\
    ro_options obj = spread_options options /\
    calls_since w w' =
      [ CreateVertexArray (ro_vao obj);
        CreateBuffer (ro_vbo_position obj);
        CreateBuffer (ro_vbo_normal obj);
        CreateBuffer (ro_vbo_color obj);
        CreateBuffer (ro_ebo obj);
        BindVertexArray (Some (ro_vao obj));
        BindBuffer ARRAY_BUFFER (Some (ro_vbo_position obj));
        BufferData ARRAY_BUFFER (Float32Array (positions mesh)) STATIC_DRAW;
        EnableVertexAttribArray 0;
        VertexAttribPointer 0 3 FLOAT false 0 0;
        BindBuffer ARRAY_BUFFER (Some (ro_vbo_normal obj));
        BufferData ARRAY_BUFFER (Float32Array (normals mesh)) STATIC_DRAW;
        EnableVertexAttribArray 1;
        VertexAttribPointer 1 3 FLOAT false 0 0 ]
      ++ (if truthy (color (spread_options options))
          then [ DisableVertexAttribArray 2;
                 VertexAttrib3fv 2 (color (spread_options options)) ]
          else [ BindBuffer ARRAY_BUFFER (Some (ro_vbo_color obj));
                 BufferData ARRAY_BUFFER (Float32Array (colors mesh)) STATIC_DRAW;
                 EnableVertexAttribArray 2;
                 VertexAttribPointer 2 3 FLOAT false 0 0 ])
      ++ [ BindBuffer ELEMENT_ARRAY_BUFFER (Some (ro_ebo obj));
           BufferData ELEMENT_ARRAY_BUFFER (Uint32Array (indices mesh)) STATIC_DRAW;
           BindVertexArray None;
           BindBuffer ARRAY_BUFFER None;
           BindBuffer ELEMENT_ARRAY_BUFFER None ] /\
    ro_vao obj = gl_fresh w /\
    ro_vbo_position obj = S (gl_fresh w) /\
    ro_vbo_normal obj = S (S (gl_fresh w)) /\
    ro_vbo_color obj = S (S (S (gl_fresh w))) /\
    ro_ebo obj = S (S (S (S (gl_fresh w)))).
Proof.
  unfold RenderObject_new.
  destruct (truthy (color (spread_options options))); cbn [negb]; run_js;
    eexists; eexists; (split; [reflexivity|]);
    cbn [ro_mesh ro_options ro_vao ro_vbo_position ro_vbo_normal ro_vbo_color
         ro_ebo];
    (split; [reflexivity|]); (split; [reflexivity|]);
    (split; [|repeat split]);
    apply calls_since_app;
    cbn [record_call set_mMatrix gl_calls gl_fresh]; flatten_log; reflexivity.
Qed.

(** C1, amended. Construction always creates the color buffer object:
    [createBuffer] is called four times, for position, normal, color and
    index, and the four objects are distinct.  With a truthy [color] option
    (an array, as for the floor) the color buffer is never bound and gets no
    data store, and location 2 is fed the constant color, its array
    disabled.  Without the option (it reads [undefined]) the color buffer is
    bound and filled from [mesh.colors], and location 2 is fed from it, its
    array enabled. *)
Theorem RenderObject_new_color_paths (mesh : Mesh) (options : option Options)
    (w : World) :
  exists obj w',
    RenderObject_new mesh options w = Returned obj w' /\
    created_buffers (calls_since w w') =
      [ ro_vbo_position obj; ro_vbo_normal obj; ro_vbo_color obj; ro_ebo obj ] /\
    NoDup (created_buffers (calls_since w w')) /\
    buffer_stores None None (calls_since w w') =
      [ (Some (ro_vbo_position obj), Float32Array (positions mesh));
        (Some (ro_vbo_normal obj), Float32Array (normals mesh)) ]
      ++ (if truthy (color (spread_options options))
          then []
          else [ (Some (ro_vbo_color obj), Float32Array (colors mesh)) ])
      ++ [ (Some (ro_ebo obj), Uint32Array (indices mesh)) ] /\
    (if truthy (color (spread_options options))
     then ~ In (BindBuffer ARRAY_BUFFER (Some (ro_vbo_color obj)))
               (calls_since w w')
     else In (BindBuffer ARRAY_BUFFER (Some (ro_vbo_color obj)))
             (calls_since w w')) /\
    attrib_after 2 None attrib_unset (calls_since w w') =
      (if truthy (color (spread_options options))
       then {| attrib_array_enabled := false;
               attrib_array_buffer := None;
               attrib_constant := Some (color (spread_options options)) |}
       else {| attrib_array_enabled := true;
               attrib_array_buffer := Some (ro_vbo_color obj);
               attrib_constant := None |}) /\
    truthy (color (spread_options None)) = false /\
    truthy (color (spread_options (Some {| color := JsUndefined |}))) = false /\
    (forall l, truthy (color (spread_options (Some {| color := JsArray l |})))
               = true).
Proof.
  destruct (RenderObject_new_log mesh options w)
    as (obj & w' & Hrun & _ & _ & Hlog & Hvao & Hpos & Hnor & Hcol & Hebo).
  exists obj, w'. split; [exact Hrun|]. rewrite Hlog.
  destruct (truthy (color (spread_options options))).
  - split; [reflexivity|]. split.
    { cbn. rewrite Hpos, Hnor, Hcol, Hebo.
      repeat constructor; cbn; intuition lia. }
    split; [reflexivity|]. split.
    { cbn. rewrite Hvao, Hpos, Hnor, Hcol, Hebo.
      intuition (try discriminate);
        match goal with H : _ = _ |- _ => injection H; lia end. }
    repeat split; reflexivity.
  - split; [reflexivity|]. split.
    { cbn. rewrite Hpos, Hnor, Hcol, Hebo.
      repeat constructor; cbn; intuition lia. }
    split; [reflexivity|]. split.
    { cbn. tauto. }
    repeat split; reflexivity.
Qed.

(** A call of [render]: what it logs and what it leaves untouched. *)
Lemma RenderObject_render_run (this : RenderObject) (program : Handle)
    (vMatrix pMatrix : mat4) (w : World) :
  exists w',
    RenderObject_render this program vMatrix pMatrix w = Returned tt w' /\
    (if Nat.eqb (length (indices (ro_mesh this))) 0
     then w' = w
     else gl_calls w' = gl_calls w ++
            [ UniformMatrix4fv (getUniformLocation program "uMMatrix") false
                (js_mMatrix w (ro_self this));
              UniformMatrix4fv (getUniformLocation program "uVMatrix") false
                vMatrix;
              UniformMatrix4fv (getUniformLocation program "uPMatrix") false
                pMatrix;
              BindVertexArray (Some (ro_vao this));
              DrawElements TRIANGLES (length (indices (ro_mesh this)))
                UNSIGNED_INT 0;
              BindVertexArray None ]) /\
    js_mMatrix w' = js_mMatrix w /\
    js_vMatrix w' = js_vMatrix w /\
    js_pMatrix w' = js_pMatrix w /\
    gl_framebuffer w' = gl_framebuffer w.
Proof.
  unfold RenderObject_render.
  destruct (Nat.eqb (length (indices (ro_mesh this))) 0).
  - exists w. repeat split; reflexivity.
  - run_js. eexists. split; [reflexivity|].
    cbn [record_call gl_calls js_mMatrix js_vMatrix js_pMatrix gl_framebuffer].
    split; [flatten_log; reflexivity|]. repeat split; reflexivity.
Qed.

(** C7. A mesh with an empty index list constructs normally and then
    renders as a no-op: the world, and with it the call log, is unchanged.
    With a non-empty index list [render] sets the uniforms [uMMatrix],
    [uVMatrix] and [uPMatrix], binds the vertex array and issues exactly one
    [drawElements], of TRIANGLES over all the indices as UNSIGNED_INT from
    offset 0. *)
Theorem RenderObject_render_spec :
  (forall positions normals colors options w0,
     exists obj w1,
       RenderObject_new
         {| positions := positions; normals := normals; colors := colors;
            indices := [] |} options w0 = Returned obj w1 /\
       indices (ro_mesh obj) = [] /\
       forall program vMatrix pMatrix w,
         RenderObject_render obj program vMatrix pMatrix w = Returned tt w) /\
  (forall this program vMatrix pMatrix w,
     exists w',
       RenderObject_render this program vMatrix pMatrix w = Returned tt w' /\
       match indices (ro_mesh this) with
       | [] =>
           w' = w /\
           calls_since w w' = []
       | _ :: _ =>
           calls_since w w' =
             [ UniformMatrix4fv (getUniformLocation program "uMMatrix") false
                 (js_mMatrix w (ro_self this));
               UniformMatrix4fv (getUniformLocation program "uVMatrix") false
                 vMatrix;
               UniformMatrix4fv (getUniformLocation program "uPMatrix") false
                 pMatrix;
               BindVertexArray (Some (ro_vao this));
               DrawElements TRIANGLES (length (indices (ro_mesh this)))
                 UNSIGNED_INT 0;
               BindVertexArray None ] /\
           map fst (matrix_uniforms (calls_since w w')) =
             [ "uMMatrix"%string; "uVMatrix"%string; "uPMatrix"%string ] /\
           element_draws (calls_since w w') =
             [ (TRIANGLES, length (indices (ro_mesh this)), UNSIGNED_INT, 0%nat) ]
       end).
Proof.
  split.
  - intros positions normals colors options w0.
    destruct (RenderObject_new_log
                {| positions := positions; normals := normals;
                   colors := colors; indices := [] |} options w0)
      as (obj & w1 & Hrun & Hmesh & _).
    exists obj, w1. split; [exact Hrun|].
    split; [rewrite Hmesh; reflexivity|].
    intros program vMatrix pMatrix w.
    unfold RenderObject_render. rewrite Hmesh. reflexivity.
  - intros this program vMatrix pMatrix w.
    destruct (RenderObject_render_run this program vMatrix pMatrix w)
      as (w' & Hrun & Hlog & _).
    exists w'. split; [exact Hrun|].
    destruct (indices (ro_mesh this)) as [|i rest]; cbn [length Nat.eqb] in Hlog.
    + subst w'. split; [reflexivity|].
      apply calls_since_app. rewrite app_nil_r. reflexivity.
    + rewrite (calls_since_app _ _ _ Hlog). repeat split; reflexivity.
Qed.

(** ** [capture] *)

Lemma capture_unfold (fb : Framebuffer) (cb : M World unit) (w : World) :
  capture fb cb w =
  match cb (capture_entry fb w) with
  | Returned _ w3 => Returned tt (record_call (BindFramebuffer None) w3)
  | Thrown e w3 => Thrown e w3
  end.
Proof.
  unfold capture, capture_entry, bind, gl, modify.
  destruct (cb _); reflexivity.
Qed.

Lemma capture_entry_calls (fb : Framebuffer) (w : World) :
  gl_calls (capture_entry fb w) =
  gl_calls w ++
    [ BindFramebuffer (Some (framebuffer fb));
      DrawBuffers [COLOR_ATTACHMENT0; COLOR_ATTACHMENT1; COLOR_ATTACHMENT2] ].
Proof. cbn. flatten_log. reflexivity. Qed.

(** C4. [capture] binds the offscreen framebuffer and names the three color
    attachments as draw buffers, and invokes the callback in that state.
    When the callback returns, [capture] returns after one more call,
    [bindFramebuffer(null)], so the default target is bound: the target
    bound before the call if that was the default.  A callback that makes
    no call at all leaves a log of exactly these three calls. *)
Theorem capture_restores_default (fb : Framebuffer) (cb : M World unit)
    (w w3 : World) :
  cb (capture_entry fb w) = Returned tt w3 ->
  gl_framebuffer (capture_entry fb w) = Some (framebuffer fb) /\
  calls_since w (capture_entry fb w) =
    [ BindFramebuffer (Some (framebuffer fb));
      DrawBuffers [COLOR_ATTACHMENT0; COLOR_ATTACHMENT1; COLOR_ATTACHMENT2] ] /\
  exists w4,
    capture fb cb w = Returned tt w4 /\
    gl_calls w4 = gl_calls w3 ++ [BindFramebuffer None] /\
    gl_framebuffer w4 = None /\
    (gl_framebuffer w = None -> gl_framebuffer w4 = gl_framebuffer w) /\
    (w3 = capture_entry fb w ->
     calls_since w w4 =
       [ BindFramebuffer (Some (framebuffer fb));
         DrawBuffers [COLOR_ATTACHMENT0; COLOR_ATTACHMENT1; COLOR_ATTACHMENT2];
         BindFramebuffer None ]).
Proof.
  intro Hcb. split; [reflexivity|].
  split; [apply calls_since_app, capture_entry_calls|].
  exists (record_call (BindFramebuffer None) w3).
  rewrite capture_unfold, Hcb.
  split; [reflexivity|]. split; [reflexivity|]. split; [reflexivity|].
  split; [intro H; rewrite H; reflexivity|].
  intro H. apply calls_since_app. cbn [record_call gl_calls].
  rewrite H, capture_entry_calls. flatten_log. reflexivity.
Qed.

(** C10. When the callback throws, [capture] throws the same exception and
    ends in the very world the callback threw in: no call follows, so
    [bindFramebuffer(null)] is not issued.  The callback was entered with
    the offscreen framebuffer bound, so for a callback that does not rebind
    the draw target itself the offscreen framebuffer is still bound, and
    the default target is not. *)
Theorem capture_throw_keeps_target (fb : Framebuffer) (cb : M World unit)
    (w w3 : World) (e : JsError) :
  cb (capture_entry fb w) = Thrown e w3 ->
  capture fb cb w = Thrown e w3 /\
  gl_framebuffer (capture_entry fb w) = Some (framebuffer fb) /\
  gl_calls (final_state (capture fb cb w)) = gl_calls w3 /\
  (keeps_framebuffer cb ->
     gl_framebuffer (final_state (capture fb cb w)) = Some (framebuffer fb) /\
     gl_framebuffer (final_state (capture fb cb w)) <> None).
Proof.
  intro Hcb. rewrite capture_unfold, Hcb. cbn [final_state].
  split; [reflexivity|]. split; [reflexivity|]. split; [reflexivity|].
  intro Hk. specialize (Hk (capture_entry fb w)).
  rewrite Hcb in Hk. cbn [final_state] in Hk.
  rewrite Hk. split; [reflexivity | discriminate].
Qed.

(** ** [renderGeometry] *)

Section Geometry.

Variable width height canvas_width canvas_height : Q.
Variable program : Handle.
Variable objects : list RenderObject.
Variable floor : RenderObject.

(** One turn of the [forEach]: the model matrix of a non-floor object is
    spun before [render] uploads it; nothing else changes. *)
Lemma renderGeometry_each_run (object : RenderObject) (w : World) :
  exists w',
    renderGeometry_each program floor object w = Returned tt w' /\
    (forall k, js_mMatrix w' k =
               if Nat.eqb k (ro_self object) && negb (same_object object floor)
               then spin (js_mMatrix w k) else js_mMatrix w k) /\
    js_vMatrix w' = js_vMatrix w /\
    js_pMatrix w' = js_pMatrix w /\
    gl_framebuffer w' = gl_framebuffer w /\
    matrix_uniforms (calls_since w w') =
      match indices (ro_mesh object) with
      | [] => []
      | _ :: _ =>
          [ ("uMMatrix"%string, js_mMatrix w' (ro_self object));
            ("uVMatrix"%string, js_vMatrix w);
            ("uPMatrix"%string, js_pMatrix w) ]
      end.
Proof.
  unfold renderGeometry_each.
  destruct (same_object object floor) eqn:Hf; cbn [negb];
    cbv [bind get modify ret];
    cbn [set_mMatrix js_mMatrix js_vMatrix js_pMatrix];
    rewrite ?Nat.eqb_refl;
    match goal with
    | |- context [RenderObject_render ?o ?p ?v ?q ?W] =>
        destruct (RenderObject_render_run o p v q W)
          as (w' & Hr & Hc & Hm & Hv & Hp & Hfb)
    end;
    exists w'; rewrite Hr; (split; [reflexivity|]);
    cbn [set_mMatrix js_mMatrix js_vMatrix js_pMatrix gl_framebuffer gl_calls]
      in *;
    rewrite ?Nat.eqb_refl in *.
  - split; [intro k; rewrite Hm, andb_false_r; reflexivity|].
    repeat (split; [assumption|]).
    destruct (indices (ro_mesh object)); cbn [length Nat.eqb] in Hc.
    + subst w'. unfold calls_since. rewrite skipn_all. reflexivity.
    + rewrite (calls_since_app _ _ _ Hc), Hm. reflexivity.
  - split.
    { intro k. rewrite Hm, andb_true_r.
      destruct (Nat.eqb k (ro_self object)) eqn:Hk; [|reflexivity].
      apply Nat.eqb_eq in Hk. subst k. reflexivity. }
    repeat (split; [assumption|]).
    destruct (indices (ro_mesh object)); cbn [length Nat.eqb] in Hc.
    + subst w'. unfold calls_since. cbn [gl_calls]. rewrite skipn_all.
      reflexivity.
    + match type of Hc with
      | gl_calls w' = gl_calls ?W ++ ?log =>
          change (gl_calls W) with (gl_calls w) in Hc;
          rewrite (calls_since_app w w' log Hc)
      end.
      rewrite Hm. cbn [matrix_uniforms flat_map loc_name app js_mMatrix].
      rewrite Nat.eqb_refl. reflexivity.
Qed.

Lemma visits_cons (k : nat) (o : RenderObject) (rest : list RenderObject) :
  visits k (o :: rest) =
  ((if Nat.eqb (ro_self o) k then 1 else 0) + visits k rest)%nat.
Proof.
  unfold visits. cbn [filter]. destruct (Nat.eqb (ro_self o) k); reflexivity.
Qed.

Lemma visits_NoDup (o : RenderObject) (l : list RenderObject) :
  NoDup (map ro_self l) -> In o l -> visits (ro_self o) l = 1%nat.
Proof.
  induction l as [|x rest IH]; intros Hnd Hin; [contradiction|].
  rewrite visits_cons. cbn [map] in Hnd.
  inversion Hnd as [|? ? Hx Hrest]; subst.
  destruct Hin as [-> | Hin].
  - rewrite Nat.eqb_refl.
    assert (visits (ro_self o) rest = 0%nat) as ->; [|reflexivity].
    unfold visits. apply length_zero_iff_nil.
    destruct (filter _ rest) as [|y ys] eqn:Hfl; [reflexivity|].
    exfalso.
    assert (Hy : In y (filter (fun o0 => Nat.eqb (ro_self o0) (ro_self o)) rest))
      by (rewrite Hfl; left; reflexivity).
    apply filter_In in Hy. destruct Hy as [Hy1 Hy2]. apply Nat.eqb_eq in Hy2.
    apply Hx. rewrite <- Hy2. apply in_map. assumption.
  - destruct (Nat.eqb (ro_self x) (ro_self o)) eqn:Hxo.
    + exfalso. apply Nat.eqb_eq in Hxo. apply Hx. rewrite Hxo.
      apply in_map. assumption.
    + cbn [Nat.add]. apply IH; assumption.
Qed.

(** The whole [forEach], by induction on the list of objects. *)
Lemma forEach_renderGeometry_each (l : list RenderObject) (w : World) :
  exists w',
    forEach l (renderGeometry_each program floor) w = Returned tt w' /\
    (forall k, js_mMatrix w' k =
               if Nat.eqb k (ro_self floor) then js_mMatrix w k
               else Nat.iter (visits k l) spin (js_mMatrix w k)) /\
    gl_framebuffer w' = gl_framebuffer w.
Proof.
  revert w. induction l as [|o rest IH]; intro w.
  - exists w. split; [reflexivity|]. split; [|reflexivity].
    intro k. destruct (Nat.eqb k (ro_self floor)); reflexivity.
  - destruct (renderGeometry_each_run o w) as (w1 & Hr & Hm & _ & _ & Hfb & _).
    destruct (IH w1) as (w2 & Hr2 & Hm2 & Hfb2).
    exists w2. cbn [forEach]. unfold bind. rewrite Hr, Hr2.
    split; [reflexivity|]. split; [|congruence].
    intro k. rewrite Hm2, Hm, visits_cons. unfold same_object.
    destruct (Nat.eqb k (ro_self floor)) eqn:Hkf.
    + apply Nat.eqb_eq in Hkf. subst k.
      destruct (Nat.eqb (ro_self floor) (ro_self o)) eqn:Ho; [|reflexivity].
      rewrite Nat.eqb_sym, Ho. reflexivity.
    + rewrite (Nat.eqb_sym (ro_self o) k).
      destruct (Nat.eqb k (ro_self o)) eqn:Hko; cbn [andb].
      * apply Nat.eqb_eq in Hko. subst k. rewrite Hkf. cbn [negb Nat.add].
        symmetry. apply Nat.iter_succ_r.
      * reflexivity.
Qed.

(** A geometry pass always returns; it moves the model matrices as the
    [forEach] does and leaves the draw target alone. *)
Lemma renderGeometry_run (near far : Q) (w : World) :
  exists w',
    renderGeometry width height canvas_width canvas_height program objects
      floor near far w = Returned tt w' /\
    (forall k, js_mMatrix w' k =
               if Nat.eqb k (ro_self floor) then js_mMatrix w k
               else Nat.iter (visits k objects) spin (js_mMatrix w k)) /\
    gl_framebuffer w' = gl_framebuffer w.
Proof.
  unfold renderGeometry. cbv [bind gl modify].
  match goal with
  | |- context [forEach objects _ ?W] =>
      destruct (forEach_renderGeometry_each objects W) as (w' & Hr & Hm & Hfb)
  end.
  exists w'. rewrite Hr. split; [reflexivity|].
  split; [exact Hm | exact Hfb].
Qed.

Lemma renderGeometry_keeps_framebuffer (near far : Q) :
  keeps_framebuffer
    (renderGeometry width height canvas_width canvas_height program objects
       floor near far).
Proof.
  intro w. destruct (renderGeometry_run near far w) as (w' & Hr & _ & Hfb).
  rewrite Hr. exact Hfb.
Qed.

(** C8. In a geometry pass the floor's model matrix is unchanged, and the
    model matrix of every other object is rotated by 0.4 degrees about Y,
    then 0.25 degrees about Z, then 0.6 degrees about X, once for each time
    the object occurs in the list: once, when the list holds no object
    twice.  The angles handed to the matrix library are the numbers
    pi / 180 * 0.4, pi / 180 * 0.25 and pi / 180 * 0.6.  In each turn the
    rotation comes first: the matrix [render] uploads as [uMMatrix] is the
    matrix after the turn. *)
Theorem renderGeometry_rotations (near far : Q) (w : World) :
  spin = (fun m =>
            mat4_rotateX
              (mat4_rotateZ
                 (mat4_rotateY m (NMul (NDiv NPi (NQ 180)) (NQ (4 # 10))))
                 (NMul (NDiv NPi (NQ 180)) (NQ (25 # 100))))
              (NMul (NDiv NPi (NQ 180)) (NQ (6 # 10)))) /\
  (forall object w0,
     exists w1,
       renderGeometry_each program floor object w0 = Returned tt w1 /\
       js_mMatrix w1 (ro_self object) =
         (if same_object object floor
          then js_mMatrix w0 (ro_self object)
          else spin (js_mMatrix w0 (ro_self object))) /\
       matrix_uniforms (calls_since w0 w1) =
         match indices (ro_mesh object) with
         | [] => []
         | _ :: _ =>
             [ ("uMMatrix"%string, js_mMatrix w1 (ro_self object));
               ("uVMatrix"%string, js_vMatrix w0);
               ("uPMatrix"%string, js_pMatrix w0) ]
         end) /\
  exists w',
    renderGeometry width height canvas_width canvas_height program objects
      floor near far w = Returned tt w' /\
    js_mMatrix w' (ro_self floor) = js_mMatrix w (ro_self floor) /\
    (forall o, same_object o floor = false ->
       js_mMatrix w' (ro_self o) =
       Nat.iter (visits (ro_self o) objects) spin (js_mMatrix w (ro_self o))) /\
    (NoDup (map ro_self objects) ->
     forall o, In o objects -> same_object o floor = false ->
       js_mMatrix w' (ro_self o) = spin (js_mMatrix w (ro_self o))).
Proof.
  split; [reflexivity|]. split.
  - intros object w0.
    destruct (renderGeometry_each_run object w0)
      as (w1 & Hr & Hm & _ & _ & _ & Hu).
    exists w1. split; [exact Hr|]. split; [|exact Hu].
    rewrite Hm, Nat.eqb_refl. cbn [andb].
    destruct (same_object object floor); reflexivity.
  - destruct (renderGeometry_run near far w) as (w' & Hr & Hm & _).
    exists w'. split; [exact Hr|].
    split; [rewrite Hm, Nat.eqb_refl; reflexivity|].
    assert (Hgen : forall o, same_object o floor = false ->
               js_mMatrix w' (ro_self o) =
               Nat.iter (visits (ro_self o) objects) spin
                 (js_mMatrix w (ro_self o))).
    { intros o Ho. unfold same_object in Ho. rewrite Hm, Ho. reflexivity. }
    split; [exact Hgen|].
    intros Hnd o Hin Ho.
    rewrite (Hgen o Ho), (visits_NoDup o objects Hnd Hin). reflexivity.
Qed.

End Geometry.

(** ** [render] *)

(** C2, amended. [render] captures the geometry pass and then draws five
    textures: the diffuse, normal and position buffers into three shrunk
    views with both flags false, the depth buffer into the fourth shrunk
    view with the single-channel flag true and the use-linear flag false,
    and the diffuse buffer over the whole canvas with both flags false. *)
Theorem render_composite_views (width height canvas_width canvas_height : Q)
    (program program2 : Handle) (objects : list RenderObject)
    (floor : RenderObject) (fb : Framebuffer) (near far : Q) (w : World) :
  exists wc w',
    capture fb (renderGeometry width height canvas_width canvas_height program
                  objects floor near far) w = Returned tt wc /\
    render width height canvas_width canvas_height program program2 objects
      floor fb near far w = Returned tt w' /\
    texture_draws texture_draw_unset (calls_since wc w') =
      [ {| td_viewport :=
             Some (debug_view_w width * 0,
                   canvas_height - debug_view_h width height,
                   debug_view_w width, debug_view_h width height);
           td_texture := Some (diffuseBuf fb);
           td_isSingleChannel := JsBoolean false;
           td_useLinear := JsBoolean false |};
        {| td_viewport :=
             Some (debug_view_w width * 1,
                   canvas_height - debug_view_h width height,
                   debug_view_w width, debug_view_h width height);
           td_texture := Some (normalBuf fb);
           td_isSingleChannel := JsBoolean false;
           td_useLinear := JsBoolean false |};
        {| td_viewport :=
             Some (debug_view_w width * 2,
                   canvas_height - debug_view_h width height,
                   debug_view_w width, debug_view_h width height);
           td_texture := Some (positionBuf fb);
           td_isSingleChannel := JsBoolean false;
           td_useLinear := JsBoolean false |};
        {| td_viewport :=
             Some (debug_view_w width * 3,
                   canvas_height - debug_view_h width height,
                   debug_view_w width, debug_view_h width height);
           td_texture := Some (depthBuf fb);
           td_isSingleChannel := JsBoolean true;
           td_useLinear := JsBoolean false |};
        {| td_viewport := Some (0, 0, canvas_width, canvas_height);
           td_texture := Some (diffuseBuf fb);
           td_isSingleChannel := JsBoolean false;
           td_useLinear := JsBoolean false |} ] /\
    debug_view_w 640 == 80 /\
    debug_view_h 640 480 == 60.
Proof.
  destruct (renderGeometry_run width height canvas_width canvas_height program
              objects floor near far (capture_entry fb w))
    as (w3 & Hg & _).
  exists (record_call (BindFramebuffer None) w3).
  assert (Hcap : capture fb (renderGeometry width height canvas_width
                    canvas_height program objects floor near far) w =
                 Returned tt (record_call (BindFramebuffer None) w3)).
  { rewrite capture_unfold, Hg. reflexivity. }
  unfold render.
  change (truthy (JsNumber 0)) with false. cbv iota.
  unfold bind at 1. rewrite Hcap.
  cbv [bind gl modify renderTexture].
  eexists. split; [reflexivity|]. split; [reflexivity|].
  split; [|split; reflexivity].
  erewrite calls_since_app;
    [ | cbn [record_call gl_calls]; flatten_log; reflexivity ].
  reflexivity.
Qed.

End ContextProperties.

(** ** [loop] *)

Section LoopProperties.

Context {glm : GlMatrix}.

Variable render : M World unit.

Lemma loop_thrown (h : Host) (e : JsError) (w' : World) :
  render (world h) = Thrown e w' ->
  loop render h =
  Returned tt {| world := w';
                 stats_events := stats_events h ++ [StatsBegin];
                 raf_pending := raf_pending h;
                 raf_fresh := raf_fresh h;
                 request := request h;
                 console := console h ++ [e] |}.
Proof.
  intro H.
  unfold loop, try_catch, bind, stats_begin, stats_mark, modify, lift.
  cbn [world]. rewrite H. reflexivity.
Qed.

Lemma loop_returned (h : Host) (w' : World) :
  render (world h) = Returned tt w' ->
  loop render h =
  Returned tt {| world := w';
                 stats_events := stats_events h ++ [StatsBegin; StatsEnd];
                 raf_pending := raf_pending h ++ [raf_fresh h];
                 raf_fresh := S (raf_fresh h);
                 request := Some (raf_fresh h);
                 console := console h |}.
Proof.
  intro H.
  unfold loop, try_catch, bind, stats_begin, stats_end, stats_mark, modify,
    lift, requestAnimationFrame, set_request.
  cbn [world]. rewrite H. cbn. rewrite <- app_assoc. reflexivity.
Qed.

(** With no callback registered a refresh changes nothing. *)
Lemma animation_frame_idle (h : Host) :
  raf_pending h = [] -> animation_frame render h = h.
Proof.
  intro H. unfold animation_frame. rewrite H. cbn [fold_left].
  destruct h; cbn in *; subst; reflexivity.
Qed.

Lemma animation_frames_idle (n : nat) (h : Host) :
  raf_pending h = [] -> animation_frames n render h = h.
Proof.
  intro H. induction n as [|n IH]; [reflexivity|].
  cbn [animation_frames]. rewrite (animation_frame_idle h H). exact IH.
Qed.

(** C9. [loop] itself never throws.  When the frame throws, the exception
    is logged on the console and no callback is registered: the list of
    registered callbacks and [request] are as before; if [loop] was the one
    callback registered, every later refresh finds none and the page stays
    as the failing frame left it, with one frame begun and no further call
    on the context.  When the frame returns, exactly one callback is
    registered and [request] holds its id. *)
Theorem loop_reschedules_only_on_success (h : Host) :
  match render (world h) with
  | Thrown e w' =>
      exists h',
        loop render h = Returned tt h' /\
        world h' = w' /\
        console h' = console h ++ [e] /\
        raf_pending h' = raf_pending h /\
        request h' = request h /\
        (forall id, raf_pending h = [id] ->
           raf_pending (animation_frame render h) = [] /\
           forall n,
             animation_frames (S n) render h = animation_frame render h /\
             frames_begun (animation_frames (S n) render h)
               = S (frames_begun h) /\
             world (animation_frames (S n) render h) = w')
  | Returned _ w' =>
      exists h',
        loop render h = Returned tt h' /\
        world h' = w' /\
        console h' = console h /\
        raf_pending h' = raf_pending h ++ [raf_fresh h] /\
        length (raf_pending h') = S (length (raf_pending h)) /\
        request h' = Some (raf_fresh h)
  end.
Proof.
  destruct (render (world h)) as [[] w' | e w'] eqn:Hr.
  - eexists. split; [apply (loop_returned h w' Hr)|].
    cbn. repeat split. rewrite length_app. cbn. lia.
  - eexists. split; [apply (loop_thrown h e w' Hr)|].
    cbn. repeat (split; [reflexivity|]).
    intros id Hid.
    assert (Hframe : animation_frame render h =
                     {| world := w';
                        stats_events := stats_events h ++ [StatsBegin];
                        raf_pending := [];
                        raf_fresh := raf_fresh h;
                        request := request h;
                        console := console h ++ [e] |}).
    { unfold animation_frame. rewrite Hid. cbn [fold_left].
      rewrite (loop_thrown _ e w'); [reflexivity | exact Hr]. }
    split; [rewrite Hframe; reflexivity|].
    intro n. cbn [animation_frames].
    rewrite animation_frames_idle by (rewrite Hframe; reflexivity).
    split; [reflexivity|]. rewrite Hframe. cbn [world].
    split; [|reflexivity].
    unfold frames_begun. cbn [stats_events]. rewrite filter_app, length_app.
    cbn. lia.
Qed.

End LoopProperties.

(** ** The program on concrete inputs *)

(** [window.onload] returns, and [floor0] and [box0] are what the first
    two constructions on a fresh context return. *)
Lemma onload_returns : returned loaded = true.
Proof. vm_compute. reflexivity. Qed.

Lemma floor0_box0_constructed :
  RenderObject_new floor_mesh floor_options fresh_world =
    Returned floor0
      (final_state (RenderObject_new floor_mesh floor_options fresh_world)) /\
  RenderObject_new (createBoxMesh (4 # 10)) None
      (final_state (RenderObject_new floor_mesh floor_options fresh_world)) =
    Returned box0
      (final_state
         (RenderObject_new (createBoxMesh (4 # 10)) None
            (final_state
               (RenderObject_new floor_mesh floor_options fresh_world)))).
Proof. split; vm_compute; reflexivity. Qed.

(** C1 as stated fails on the floor of [window.onload]: constructed with
    its color option on a fresh context, the object's color buffer is among
    the buffers the construction created. *)
Lemma color_option_still_creates_color_buffer :
  ~ creates_no_color_buffer floor_mesh floor_options fresh_world.
Proof.
  unfold creates_no_color_buffer. intro H. vm_compute in H.
  apply H. right. right. left. reflexivity.
Qed.

(** C2 as stated fails on the first frame of the loaded page: the fourth
    texture draw shows the depth buffer single-channel, with the
    use-linear flag false. *)
Lemma depth_view_not_linearized :
  match loaded_frame with
  | Some (fb, draws) =>
      ~ depth_view_is_linearized fb draws /\
      exists d,
        nth_error draws 3 = Some d /\
        td_texture d = Some (depthBuf fb) /\
        td_isSingleChannel d = JsBoolean true /\
        td_useLinear d = JsBoolean false
  | None => False
  end.
Proof.
  set (f := loaded_frame). vm_compute in f. subst f. cbv beta iota.
  split.
  - intros (d & Hn & _ & _ & Hl). cbn in Hn. injection Hn as <-.
    discriminate Hl.
  - eexists. split; [reflexivity|]. repeat split; reflexivity.
Qed.

(** A callback that makes no call, on a fresh context. *)
Lemma capture_restores_default_witness :
  ret tt (capture_entry fb0 fresh_world)
    = Returned tt (capture_entry fb0 fresh_world) /\
  gl_framebuffer fresh_world = None /\
  gl_framebuffer (final_state (capture fb0 (ret tt) fresh_world))
    = gl_framebuffer fresh_world /\
  calls_since fresh_world (final_state (capture fb0 (ret tt) fresh_world)) =
    [ BindFramebuffer (Some 11%nat);
      DrawBuffers [COLOR_ATTACHMENT0; COLOR_ATTACHMENT1; COLOR_ATTACHMENT2];
      BindFramebuffer None ].
Proof.
  split; [reflexivity|]. split; [reflexivity|].
  destruct (capture_restores_default fb0 (ret tt) fresh_world
              (capture_entry fb0 fresh_world) eq_refl)
    as (_ & _ & w4 & Hrun & _ & _ & Hprev & Hlog).
  rewrite Hrun. cbn [final_state].
  split; [exact (Hprev eq_refl) | exact (Hlog eq_refl)].
Defined.

(** A geometry pass that throws after its first call. *)
Lemma capture_throw_keeps_target_witness :
  failing_pass (capture_entry fb0 fresh_world) =
    Thrown "context lost"%string
      (record_call (Enable DEPTH_TEST) (capture_entry fb0 fresh_world)) /\
  keeps_framebuffer failing_pass /\
  capture fb0 failing_pass fresh_world =
    Thrown "context lost"%string
      (record_call (Enable DEPTH_TEST) (capture_entry fb0 fresh_world)) /\
  gl_framebuffer (final_state (capture fb0 failing_pass fresh_world))
    = Some 11%nat.
Proof.
  assert (Hk : keeps_framebuffer failing_pass) by (intro w; reflexivity).
  split; [reflexivity|]. split; [exact Hk|].
  destruct (capture_throw_keeps_target fb0 failing_pass fresh_world
              (record_call (Enable DEPTH_TEST) (capture_entry fb0 fresh_world))
              "context lost"%string eq_refl)
    as (Hrun & _ & _ & Hfb).
  split; [exact Hrun | exact (proj1 (Hfb Hk))].
Defined.

(** One geometry pass over the floor and the first box. *)
Lemma renderGeometry_rotations_witness :
  NoDup (map ro_self [floor0; box0]) /\
  In box0 [floor0; box0] /\
  same_object box0 floor0 = false /\
  exists w',
    renderGeometry 640 480 640 480 16%nat [floor0; box0] floor0 (8 # 10) 100
      fresh_world = Returned tt w' /\
    js_mMatrix w' (ro_self floor0) = SIdentity /\
    js_mMatrix w' (ro_self box0) =
      SRotateX
        (SRotateZ
           (SRotateY SIdentity (NMul (NDiv NPi (NQ 180)) (NQ (4 # 10))))
           (NMul (NDiv NPi (NQ 180)) (NQ (25 # 100))))
        (NMul (NDiv NPi (NQ 180)) (NQ (6 # 10))).
Proof.
  assert (Hnd : NoDup (map ro_self [floor0; box0])).
  { cbn. repeat constructor; cbn; intuition discriminate. }
  assert (Hin : In box0 [floor0; box0]) by (right; left; reflexivity).
  assert (Hnf : same_object box0 floor0 = false) by reflexivity.
  split; [exact Hnd|]. split; [exact Hin|]. split; [exact Hnf|].
  destruct (renderGeometry_rotations 640 480 640 480 16%nat [floor0; box0]
              floor0 (8 # 10) 100 fresh_world)
    as (_ & _ & w' & Hrun & Hfloor & _ & Hspin).
  exists w'. split; [exact Hrun|].
  split; [exact Hfloor | exact (Hspin Hnd box0 Hin Hnf)].
Defined.

(** The page with [loop] registered once, and a frame that throws. *)
Lemma loop_reschedules_only_on_success_witness :
  raf_pending host0 = [1%nat] /\
  console (final_state (loop failing_pass host0)) = ["context lost"%string] /\
  raf_pending (animation_frame failing_pass host0) = [] /\
  forall n,
    animation_frames (S n) failing_pass host0
      = animation_frame failing_pass host0 /\
    frames_begun (animation_frames (S n) failing_pass host0) = 1%nat.
Proof.
  split; [reflexivity|].
  pose proof (loop_reschedules_only_on_success failing_pass host0) as H.
  cbn [failing_pass bind gl modify throw world host0] in H.
  destruct H as (h' & Hloop & _ & Hcon & _ & _ & Hlater).
  rewrite Hloop. cbn [final_state].
  split; [exact Hcon|].
  destruct (Hlater 1%nat eq_refl) as (Hidle & Hn).
  split; [exact Hidle|].
  intro n. destruct (Hn n) as (Hsame & Hbegun & _).
  split; [exact Hsame | exact Hbegun].
Defined.

(** * Further properties *)

(** ** Meshes as a draw call reads them *)

Lemma lt_Forall (n : nat) (l : list nat) :
  forallb (fun i => Nat.ltb i n) l = true -> Forall (fun i => (i < n)%nat) l.
Proof.
  intro H. apply Forall_forall. intros i Hi.
  rewrite forallb_forall in H. apply Nat.ltb_lt. auto.
Qed.

Lemma createBoxMesh_well_formed (s : Q) : mesh_well_formed (createBoxMesh s).
Proof.
  unfold mesh_well_formed.
  repeat split; try reflexivity. apply lt_Forall. reflexivity.
Qed.

Lemma createFloorMesh_well_formed (s : Q) : mesh_well_formed (createFloorMesh s).
Proof.
  unfold mesh_well_formed.
  repeat split; try reflexivity. apply lt_Forall. reflexivity.
Qed.

(** X1. Both builders return a mesh an indexed triangle-list draw can read,
    for every [s]: the three attribute arrays hold one triplet per vertex
    (4 for the floor, 36 for the box), the index count is a multiple of 3
    and every index names a vertex, so that every index triple resolves to
    a triangle (2 for the floor, 12 for the box). *)
Theorem builders_well_formed (s : Q) :
  mesh_well_formed (createFloorMesh s) /\
  vertex_count (createFloorMesh s) = 4%nat /\
  mesh_well_formed (createBoxMesh s) /\
  vertex_count (createBoxMesh s) = 36%nat /\
  length (triangles (createFloorMesh s)) = 2%nat /\
  length (triangles (createBoxMesh s)) = 12%nat /\
  Forall (fun t => t <> None) (triangles (createFloorMesh s)) /\
  Forall (fun t => t <> None) (triangles (createBoxMesh s)).
Proof.
  split; [apply createFloorMesh_well_formed|]. split; [reflexivity|].
  split; [apply createBoxMesh_well_formed|].
  repeat split; try reflexivity; cbn; repeat constructor; discriminate.
Qed.

(** X2. In both meshes, for every [s], the three vertices of every
    triangle carry the same stored normal, and the triangle's geometric
    normal, from its positions in index order, is that stored normal scaled
    by 4 s^2: the winding that face culling sees agrees with the normals
    the shader is given. *)
Theorem builders_normals_match_winding (s : Q) :
  length (faces (createBoxMesh s)) = 12%nat /\
  Forall (face_normal_matches (4 * s * s)) (faces (createBoxMesh s)) /\
  length (faces (createFloorMesh s)) = 2%nat /\
  Forall (face_normal_matches (4 * s * s)) (faces (createFloorMesh s)).
Proof.
  split; [reflexivity|]. split.
  { cbn. repeat constructor; cbn; ring. }
  split; [reflexivity|].
  cbn. repeat constructor; cbn; ring.
Qed.

(** X3. The box is flat-colored, for every [s]: the three vertices of
    every triangle carry one color, the twelve triangles carry the six
    colors of the table in order, two triangles each, the six colors are
    pairwise different, and every coordinate of every vertex is [s] or
    [-s]. *)
Theorem createBoxMesh_faces (s : Q) :
  Forall face_one_color (faces (createBoxMesh s)) /\
  map face_color (faces (createBoxMesh s)) =
    flat_map (fun c => [Some c; Some c]) Box.colors /\
  NoDup Box.colors /\
  Forall (fun q => q = s \/ q = - s) (positions (createBoxMesh s)).
Proof.
  split.
  { cbn. repeat constructor. }
  split; [reflexivity|]. split.
  { unfold Box.colors. repeat constructor; cbn; intuition discriminate. }
  cbn.
  repeat (constructor; [first [left; reflexivity | right; reflexivity]|]).
  constructor.
Qed.

(** ** The composite shaders *)

Lemma mod4_cases (n : nat) :
  Nat.modulo n 4 = 0%nat \/ Nat.modulo n 4 = 1%nat \/
  Nat.modulo n 4 = 2%nat \/ Nat.modulo n 4 = 3%nat.
Proof.
  pose proof (Nat.mod_upper_bound n 4). lia.
Qed.

(** X4. The composite vertex shader maps every vertex id to a corner of the
    clip-space square with the texture coordinate of that corner,
    (u, v) = ((x + 1) / 2, (y + 1) / 2), and repeats with period 4.  The
    two triangles that [drawArrays(TRIANGLE_STRIP, 0, 4)] assembles from
    it are both counter-clockwise, cover the square from -1 to 1 exactly
    and do not overlap. *)
Theorem vertex_main2_full_screen :
  (forall id,
     let '(p, uv) := vertex_main2 id in
     let '(x, y) := ndc p in
     let '(u, v) := uv in
     u == (x + 1) / 2 /\ v == (y + 1) / 2 /\
     vertex_main2 (id + 4) = vertex_main2 id) /\
  (exists t1 t2,
     quad_triangles 0 4 = [t1; t2] /\
     counter_clockwise t1 /\
     counter_clockwise t2 /\
     (forall x y,
        (- (1) <= x /\ x <= 1 /\ - (1) <= y /\ y <= 1) <->
        (in_triangle2 t1 (x, y) \/ in_triangle2 t2 (x, y))) /\
     (forall p, ~ (in_interior2 t1 p /\ in_interior2 t2 p))).
Proof.
  split.
  - intro id. unfold vertex_main2.
    replace (Nat.modulo (id + 4) 4) with (Nat.modulo id 4)
      by (rewrite <- (Nat.Div0.add_mod_idemp_r id 4 4); cbn;
          rewrite Nat.add_0_r; reflexivity).
    destruct (mod4_cases id) as [H | [H | [H | H]]]; rewrite H; cbn;
      repeat split; reflexivity.
  - assert (E1 : 1 / 1 == 1) by reflexivity.
    assert (E2 : - (1) / 1 == - (1)) by reflexivity.
    eexists. eexists. split; [reflexivity|].
    split; [reflexivity|]. split; [reflexivity|]. split.
    + intros x y. unfold in_triangle2, area2. cbn. rewrite !E1, !E2. split.
      * intros (H1 & H2 & H3 & H4).
        destruct (Qlt_le_dec x y) as [Hxy | Hxy].
        -- left. left. (split; [|split]); lra.
        -- right. left. (split; [|split]); lra.
      * intros [[(H1 & H2 & H3) | (H1 & H2 & H3)]
               | [(H1 & H2 & H3) | (H1 & H2 & H3)]];
          (split; [|split; [|split]]); lra.
    + intros [x y]. unfold in_interior2, area2. cbn. rewrite !E1, !E2.
      intros [[(H1 & H2 & H3) | (H1 & H2 & H3)]
              [(H4 & H5 & H6) | (H4 & H5 & H6)]]; lra.
Qed.

Lemma linear_depth_denominator (near far c : Q) :
  0 < near -> near < far -> c <= 1 ->
  2 * near <= far + near - c * (far - near).
Proof. intros. nra. Qed.

(** X5. For 0 < near < far and a depth sample between 0 and 1, the gray
    level the composite fragment shader outputs with both flags set lies
    between 2 near / (far + near) and 1, does not decrease when the sample
    increases, and does not depend on the other channels of the sample. *)
Theorem fragment_main2_depth_range (near far c1 c2 g1 b1 a1 g2 b2 a2 : Q) :
  0 < near -> near < far -> 0 <= c1 -> c1 <= c2 -> c2 <= 1 ->
  (2 * near) / (far + near)
    <= red (fragment_main2 true true near far (c1, g1, b1, a1)) /\
  red (fragment_main2 true true near far (c1, g1, b1, a1))
    <= red (fragment_main2 true true near far (c2, g2, b2, a2)) /\
  red (fragment_main2 true true near far (c2, g2, b2, a2)) <= 1 /\
  fragment_main2 true true near far (c1, g1, b1, a1) =
    fragment_main2 true true near far (c1, g2, b2, a2).
Proof.
  intros Hn Hf H0 H12 H1.
  change (red (fragment_main2 true true near far (c1, g1, b1, a1)))
    with ((2 * near) / (far + near - c1 * (far - near))).
  change (red (fragment_main2 true true near far (c2, g2, b2, a2)))
    with ((2 * near) / (far + near - c2 * (far - near))).
  pose proof (linear_depth_denominator near far c1 Hn Hf ltac:(lra)) as Hd1.
  pose proof (linear_depth_denominator near far c2 Hn Hf H1) as Hd2.
  assert (Hp1 : 0 < far + near - c1 * (far - near)) by lra.
  assert (Hp2 : 0 < far + near - c2 * (far - near)) by lra.
  assert (Hp0 : 0 < far + near) by lra.
  split.
  { apply Qle_shift_div_l; [exact Hp1|].
    unfold Qdiv. rewrite <- Qmult_assoc.
    setoid_replace (/ (far + near) * (far + near - c1 * (far - near)))
      with ((far + near - c1 * (far - near)) / (far + near))
      by (unfold Qdiv; ring).
    assert (Hq : (far + near - c1 * (far - near)) / (far + near) <= 1).
    { apply Qle_shift_div_r; [exact Hp0 | nra]. }
    nra. }
  split.
  { apply Qle_shift_div_l; [exact Hp2|].
    unfold Qdiv. rewrite <- Qmult_assoc.
    setoid_replace
      (/ (far + near - c1 * (far - near)) * (far + near - c2 * (far - near)))
      with ((far + near - c2 * (far - near)) / (far + near - c1 * (far - near)))
      by (unfold Qdiv; ring).
    assert (Hq : (far + near - c2 * (far - near))
                 / (far + near - c1 * (far - near)) <= 1).
    { apply Qle_shift_div_r; [exact Hp1 | nra]. }
    nra. }
  split.
  { apply Qle_shift_div_r; [exact Hp2 | lra]. }
  reflexivity.
Qed.

(** The program's near and far planes, a sample at the near plane and one
    half way. *)
Lemma fragment_main2_depth_range_witness :
  0 < 8 # 10 /\ 8 # 10 < 100 /\ 0 <= 0 /\ 0 <= 1 # 2 /\ 1 # 2 <= 1 /\
  red (fragment_main2 true true (8 # 10) 100 (0, 0, 0, 1))
    <= red (fragment_main2 true true (8 # 10) 100 (1 # 2, 0, 0, 1)) /\
  red (fragment_main2 true true (8 # 10) 100 (1 # 2, 0, 0, 1)) <= 1.
Proof.
  assert (H1 : 0 < 8 # 10) by reflexivity.
  assert (H2 : 8 # 10 < 100) by reflexivity.
  assert (H3 : 0 <= 0) by (intro H; discriminate H).
  assert (H4 : 0 <= 1 # 2) by (intro H; discriminate H).
  assert (H5 : 1 # 2 <= 1) by (intro H; discriminate H).
  do 5 (split; [assumption|]).
  destruct (fragment_main2_depth_range (8 # 10) 100 0 (1 # 2) 0 0 1 0 0 1
              H1 H2 H3 H4 H5) as (_ & Hmono & Hle & _).
  split; [exact Hmono | exact Hle].
Defined.

(** ** The geometry shaders *)

Lemma alpha_vec4_of (v : vec3) (w : Q) : alpha (vec4_of v w) = w.
Proof. destruct v as [[x y] z]. reflexivity. Qed.

Lemma xyz_vec4_of (v : vec3) (w : Q) : xyz (vec4_of v w) = v.
Proof. destruct v as [[x y] z]. reflexivity. Qed.

(** X6. The geometry pass is unlit and treats normals as directions.  At
    a vertex, whatever the three matrices, the diffuse output is the vertex
    color with alpha 1, and the normal and position outputs have alpha 1;
    the position output is the view-space position.  The normal handed
    to the fragment shader depends neither on the vertex position nor on
    the fourth column of the model matrix, its translation. *)
Theorem geometry_shaders_at_a_vertex (normalize : vec3 -> vec3)
    (c0 c1 c2 t t' : vec4) (uVMatrix uPMatrix : glsl_mat4)
    (aPosition aPosition' aNormal aColor : vec3) :
  outDiffuse
    (fragment_main normalize
       (fst (vertex_main (c0, c1, c2, t) uVMatrix uPMatrix aPosition aNormal
               aColor))) = vec4_of aColor 1 /\
  alpha
    (outNormal
       (fragment_main normalize
          (fst (vertex_main (c0, c1, c2, t) uVMatrix uPMatrix aPosition
                  aNormal aColor)))) = 1 /\
  outPosition
    (fragment_main normalize
       (fst (vertex_main (c0, c1, c2, t) uVMatrix uPMatrix aPosition aNormal
               aColor))) =
    vec4_of
      (xyz (mat_mul_vec uVMatrix
              (mat_mul_vec (c0, c1, c2, t) (vec4_of aPosition 1)))) 1 /\
  veq4
    (vNormal (fst (vertex_main (c0, c1, c2, t') uVMatrix uPMatrix aPosition'
                     aNormal aColor)))
    (vNormal (fst (vertex_main (c0, c1, c2, t) uVMatrix uPMatrix aPosition
                     aNormal aColor))).
Proof.
  unfold vertex_main, fragment_main.
  cbn [fst snd vColor vNormal vPosition outDiffuse outNormal outPosition].
  rewrite !xyz_vec4_of, alpha_vec4_of.
  repeat (split; [reflexivity|]).
  destruct uVMatrix as [[[[[[v00 v01] v02] v03] [[[v10 v11] v12] v13]]
                           [[[v20 v21] v22] v23]] [[[v30 v31] v32] v33]].
  destruct c0 as [[[a0 a1] a2] a3]. destruct c1 as [[[b0 b1] b2] b3].
  destruct c2 as [[[d0 d1] d2] d3]. destruct t as [[[t0 t1] t2] t3].
  destruct t' as [[[s0 s1] s2] s3]. destruct aNormal as [[nx ny] nz].
  cbn. repeat split; ring.
Qed.

(** ** The context through the program's functions *)

(** Run straight-line code on a world, keeping its fields folded. *)
Ltac step_js :=
  cbn [bind gl gl_create modify js_new ret get record_call
       set_mMatrix set_vMatrix set_pMatrix
       gl_calls gl_fresh gl_framebuffer js_fresh js_mMatrix js_vMatrix
       js_pMatrix].

(** Decide the comparisons of object names left in the goal. *)
Ltac decide_eqb :=
  repeat match goal with
         | |- context [Nat.eqb ?a ?b] =>
             first [ replace (Nat.eqb a b) with true
                       by (symmetry; apply Nat.eqb_eq; lia)
                   | replace (Nat.eqb a b) with false
                       by (symmetry; apply Nat.eqb_neq; lia) ]
         end.

(** Evaluate the inputs of the draws of an explicit log. *)
Ltac read_draws :=
  repeat (progress (cbn -[Nat.eqb Nat.add];
                    unfold draw_input, attrib_input, store_data;
                    decide_eqb)).

Section FurtherContextProperties.

Context {glm : GlMatrix}.

Lemma advances_refl (w : World) : advances w w [] 0 0.
Proof. unfold advances. rewrite app_nil_r. repeat split. Qed.

Lemma advances_trans (w w1 w2 : World) (l1 l2 : list GlCall)
    (a1 a2 b1 b2 : nat) :
  advances w w1 l1 a1 b1 -> advances w1 w2 l2 a2 b2 ->
  advances w w2 (l1 ++ l2) (a2 + a1) (b2 + b1).
Proof.
  intros (Hc1 & Hg1 & Hj1) (Hc2 & Hg2 & Hj2). unfold advances.
  rewrite Hc2, Hc1, Hg2, Hg1, Hj2, Hj1, app_assoc. repeat split; lia.
Qed.

Lemma advances_calls_since (w w' : World) (log : list GlCall) (a b : nat) :
  advances w w' log a b -> calls_since w w' = log.
Proof. intros (H & _). apply calls_since_app, H. Qed.

Lemma created_objects_app (l1 l2 : list GlCall) :
  created_objects (l1 ++ l2) = created_objects l1 ++ created_objects l2.
Proof. apply flat_map_app. Qed.

Lemma deleted_objects_app (l1 l2 : list GlCall) :
  deleted_objects (l1 ++ l2) = deleted_objects l1 ++ deleted_objects l2.
Proof. apply flat_map_app. Qed.

Lemma matrix_uniforms_app (l1 l2 : list GlCall) :
  matrix_uniforms (l1 ++ l2) = matrix_uniforms l1 ++ matrix_uniforms l2.
Proof. apply flat_map_app. Qed.

Lemma allocation_free_app (l1 l2 : list GlCall) :
  allocation_free l1 -> allocation_free l2 -> allocation_free (l1 ++ l2).
Proof.
  intros (H1 & H2) (H3 & H4). unfold allocation_free.
  rewrite created_objects_app, deleted_objects_app, H1, H2, H3, H4.
  split; reflexivity.
Qed.

Lemma draw_inputs_app (m : GlMachine) (l1 l2 : list GlCall) :
  draw_inputs m (l1 ++ l2) =
  draw_inputs m l1 ++ draw_inputs (machine_after m l1) l2.
Proof.
  revert m. induction l1 as [|c l1 IH]; intro m; [reflexivity|].
  cbn [app draw_inputs machine_after fold_left]. rewrite IH, app_assoc.
  reflexivity.
Qed.

Lemma draw_targets_app (t : option Handle) (l1 l2 : list GlCall) :
  draw_targets t (l1 ++ l2) =
  draw_targets t l1 ++ draw_targets (target_after t l1) l2.
Proof.
  revert t. induction l1 as [|c l1 IH]; intro t; [reflexivity|].
  destruct c; cbn [app draw_targets target_after]; rewrite ?IH; reflexivity.
Qed.

Lemma target_after_app (t : option Handle) (l1 l2 : list GlCall) :
  target_after t (l1 ++ l2) = target_after (target_after t l1) l2.
Proof.
  revert t. induction l1 as [|c l1 IH]; intro t; [reflexivity|].
  destruct c; cbn [app target_after]; rewrite ?IH; reflexivity.
Qed.

Lemma seq5 (g : nat) :
  seq g 5 = [g; S g; S (S g); S (S (S g)); S (S (S (S g)))].
Proof. reflexivity. Qed.

(** *** What each function does to the world *)

Lemma RenderObject_new_run (mesh : Mesh) (options : option Options) (w : World) :
  exists obj w1,
    RenderObject_new mesh options w = Returned obj w1 /\
    advances w w1 (construction_calls obj) 5 1 /\
    gl_framebuffer w1 = gl_framebuffer w /\
    ro_mesh obj = mesh /\
    ro_options obj = spread_options options /\
    ro_self obj = js_fresh w /\
    owned_objects obj = seq (gl_fresh w) 5.
Proof.
  unfold RenderObject_new, construction_calls, advances.
  destruct (truthy (color (spread_options options))) eqn:Hc; cbn [negb];
    step_js; eexists; eexists; (split; [reflexivity|]); step_js;
    cbn [ro_mesh ro_options ro_vao ro_vbo_position ro_vbo_normal ro_vbo_color
         ro_ebo ro_self];
    rewrite Hc;
    (split; [split; [flatten_log; reflexivity | split; reflexivity]|]);
    repeat split; reflexivity.
Qed.

Lemma RenderObject_render_calls (this : RenderObject) (program : Handle)
    (vMatrix pMatrix : mat4) (w : World) :
  exists w',
    RenderObject_render this program vMatrix pMatrix w = Returned tt w' /\
    advances w w'
      (render_calls this program (js_mMatrix w (ro_self this)) vMatrix pMatrix)
      0 0 /\
    gl_framebuffer w' = gl_framebuffer w /\
    js_mMatrix w' = js_mMatrix w /\
    js_vMatrix w' = js_vMatrix w /\
    js_pMatrix w' = js_pMatrix w.
Proof.
  unfold RenderObject_render, render_calls, drawn, advances.
  destruct (Nat.eqb (length (indices (ro_mesh this))) 0); cbn [negb].
  - exists w. rewrite app_nil_r. repeat split; reflexivity.
  - step_js. eexists. split; [reflexivity|]. step_js.
    split; [split; [flatten_log; reflexivity | split; reflexivity]|].
    repeat split; reflexivity.
Qed.

Lemma RenderObject_destroy_run (this : RenderObject) (w : World) :
  exists w',
    RenderObject_destroy this w = Returned tt w' /\
    advances w w' (destroy_calls this) 0 0 /\
    gl_framebuffer w' = gl_framebuffer w.
Proof.
  unfold RenderObject_destroy, destroy_calls, advances.
  step_js. eexists. split; [reflexivity|]. step_js.
  split; [split; [flatten_log; reflexivity | split; reflexivity]|].
  reflexivity.
Qed.

Lemma createProgram_run (vsSource fsSource : ShaderText) (w : World) :
  exists w',
    createProgram vsSource fsSource w = Returned (gl_fresh w) w' /\
    advances w w' (program_calls (gl_fresh w) vsSource fsSource) 3 0 /\
    gl_framebuffer w' = gl_framebuffer w.
Proof.
  unfold createProgram, createShader, program_calls, shader_calls, advances.
  step_js. eexists. split; [reflexivity|]. step_js.
  split; [split; [flatten_log; reflexivity | split; reflexivity]|].
  reflexivity.
Qed.

Lemma createFramebuffer_run (canvas_width canvas_height : Q) (w : World) :
  exists fb w',
    createFramebuffer canvas_width canvas_height w = Returned fb w' /\
    advances w w' (framebuffer_calls fb canvas_width canvas_height) 5 0 /\
    gl_framebuffer w' = None /\
    framebuffer_objects fb = seq (gl_fresh w) 5.
Proof.
  unfold createFramebuffer, setupTexture, framebuffer_calls,
    texture_setup_calls, advances.
  step_js. eexists. eexists. split; [reflexivity|]. step_js.
  cbn [framebuffer diffuseBuf normalBuf positionBuf depthBuf].
  split; [split; [flatten_log; reflexivity | split; reflexivity]|].
  split; reflexivity.
Qed.

Lemma Framebuffer_destroy_run (fb : Framebuffer) (w : World) :
  exists w',
    Framebuffer_destroy fb w = Returned tt w' /\
    advances w w' (framebuffer_destroy_calls fb) 0 0 /\
    gl_framebuffer w' = gl_framebuffer w.
Proof.
  unfold Framebuffer_destroy, framebuffer_destroy_calls, advances.
  step_js. eexists. split; [reflexivity|]. step_js.
  split; [split; [flatten_log; reflexivity | split; reflexivity]|].
  reflexivity.
Qed.

Lemma update_mMatrix_run (o : RenderObject) (f : mat4 -> mat4) (w : World) :
  exists w',
    update_mMatrix o f w = Returned tt w' /\
    advances w w' [] 0 0 /\
    gl_framebuffer w' = gl_framebuffer w.
Proof.
  unfold update_mMatrix. step_js. eexists. split; [reflexivity|].
  unfold advances. step_js. rewrite app_nil_r. repeat split; reflexivity.
Qed.

Lemma owned_fields (obj : RenderObject) (g : nat) :
  owned_objects obj = seq g 5 ->
  ro_vao obj = g /\ ro_vbo_position obj = S g /\ ro_vbo_normal obj = S (S g) /\
  ro_vbo_color obj = S (S (S g)) /\ ro_ebo obj = S (S (S (S g))).
Proof.
  unfold owned_objects. rewrite seq5. intro H.
  injection H as H1 H2 H3 H4 H5. auto.
Qed.

Lemma construction_creates_owned (obj : RenderObject) :
  created_objects (construction_calls obj) = owned_objects obj /\
  deleted_objects (construction_calls obj) = [].
Proof.
  unfold construction_calls.
  destruct (truthy (color (ro_options obj))); split; reflexivity.
Qed.

Lemma destroy_deletes_owned (o : RenderObject) :
  created_objects (destroy_calls o) = [] /\
  Permutation (deleted_objects (destroy_calls o)) (owned_objects o).
Proof.
  split; [reflexivity|]. cbn. apply perm_skip.
  apply (Permutation_cons_app [_; _; _] []). apply Permutation_refl.
Qed.

(** *** What a draw reads *)

(** A construction followed by a render of the new object. *)
Lemma construct_then_render (mesh : Mesh) (options : option Options)
    (program : Handle) (vMatrix pMatrix : mat4) (w : World) (m0 : GlMachine) :
  exists obj w1 w2,
    RenderObject_new mesh options w = Returned obj w1 /\
    RenderObject_render obj program vMatrix pMatrix w1 = Returned tt w2 /\
    ro_mesh obj = mesh /\
    ro_options obj = spread_options options /\
    draw_inputs m0 (calls_since w w2) =
      (if drawn obj then [mesh_draw_input obj] else []).
Proof.
  destruct (RenderObject_new_run mesh options w)
    as (obj & w1 & Hnew & Hadv & _ & Hmesh & Hopt & _ & Hown).
  destruct (RenderObject_render_calls obj program vMatrix pMatrix w1)
    as (w2 & Hrun & Hadv2 & _).
  exists obj, w1, w2. repeat (split; [assumption|]).
  rewrite (advances_calls_since _ _ _ _ _
             (advances_trans _ _ _ _ _ _ _ _ _ Hadv Hadv2)).
  destruct (owned_fields obj _ Hown) as (Hvao & Hpos & Hnor & Hcol & Hebo).
  unfold construction_calls, render_calls, mesh_draw_input.
  rewrite Hvao, Hpos, Hnor, Hcol, Hebo.
  destruct (drawn obj); destruct (truthy (color (ro_options obj)));
    read_draws; reflexivity.
Qed.

(** X7. A render of a newly constructed object draws that object's mesh,
    whatever state the context was in before the construction: the draw
    reads all the indices of the mesh from the object's index buffer,
    positions and normals per vertex from the mesh's arrays, and the color
    per vertex from [mesh.colors], or, with a truthy [color] option, that
    option as a constant.  With an empty index list nothing is drawn. *)
Theorem RenderObject_draws_its_mesh (mesh : Mesh) (options : option Options)
    (program : Handle) (vMatrix pMatrix : mat4) (w : World) (m0 : GlMachine) :
  exists obj w1 w2,
    RenderObject_new mesh options w = Returned obj w1 /\
    RenderObject_render obj program vMatrix pMatrix w1 = Returned tt w2 /\
    draw_inputs m0 (calls_since w w2) =
      match indices mesh with
      | [] => []
      | _ :: _ =>
          [ {| di_count := length (indices mesh);
               di_indices := Some (Uint32Array (indices mesh));
               di_position := PerVertex (Some (Float32Array (positions mesh)));
               di_normal := PerVertex (Some (Float32Array (normals mesh)));
               di_color :=
                 if truthy (color (spread_options options))
                 then Constant (Some (color (spread_options options)))
                 else PerVertex (Some (Float32Array (colors mesh))) |} ]
      end.
Proof.
  destruct (construct_then_render mesh options program vMatrix pMatrix w m0)
    as (obj & w1 & w2 & Hnew & Hrun & Hmesh & Hopt & Hd).
  exists obj, w1, w2. repeat (split; [assumption|]).
  rewrite Hd. unfold drawn, mesh_draw_input. rewrite Hmesh, Hopt.
  destruct (indices mesh); reflexivity.
Qed.

(** X8. The constant color is state of the context, not of the object, and
    [render] does not set it: when a second object is constructed before
    the first is rendered, the first still draws its own indices,
    positions and normals, but if both have a truthy [color] option the
    first is drawn with the color of the second. *)
Theorem constant_color_is_shared (meshA meshB : Mesh)
    (optionsA optionsB : option Options) (program : Handle)
    (vMatrix pMatrix : mat4) (w : World) (m0 : GlMachine) :
  exists a w1 b w2 w3,
    RenderObject_new meshA optionsA w = Returned a w1 /\
    RenderObject_new meshB optionsB w1 = Returned b w2 /\
    RenderObject_render a program vMatrix pMatrix w2 = Returned tt w3 /\
    draw_inputs m0 (calls_since w w3) =
      match indices meshA with
      | [] => []
      | _ :: _ =>
          [ {| di_count := length (indices meshA);
               di_indices := Some (Uint32Array (indices meshA));
               di_position := PerVertex (Some (Float32Array (positions meshA)));
               di_normal := PerVertex (Some (Float32Array (normals meshA)));
               di_color :=
                 if truthy (color (spread_options optionsA))
                 then Constant
                        (Some (if truthy (color (spread_options optionsB))
                               then color (spread_options optionsB)
                               else color (spread_options optionsA)))
                 else PerVertex (Some (Float32Array (colors meshA))) |} ]
      end.
Proof.
  destruct (RenderObject_new_run meshA optionsA w)
    as (a & w1 & HnewA & HadvA & _ & HmeshA & HoptA & _ & HownA).
  destruct (RenderObject_new_run meshB optionsB w1)
    as (b & w2 & HnewB & HadvB & _ & HmeshB & HoptB & _ & HownB).
  destruct (RenderObject_render_calls a program vMatrix pMatrix w2)
    as (w3 & Hrun & Hadv3 & _).
  exists a, w1, b, w2, w3. repeat (split; [assumption|]).
  rewrite (advances_calls_since _ _ _ _ _
             (advances_trans _ _ _ _ _ _ _ _ _
                (advances_trans _ _ _ _ _ _ _ _ _ HadvA HadvB) Hadv3)).
  destruct HadvA as (_ & HgA & _). rewrite HgA in HownB.
  destruct (owned_fields a _ HownA) as (Hvao & Hpos & Hnor & Hcol & Hebo).
  destruct (owned_fields b _ HownB) as (Hvao' & Hpos' & Hnor' & Hcol' & Hebo').
  unfold construction_calls, render_calls, drawn.
  rewrite Hvao, Hpos, Hnor, Hcol, Hebo, Hvao', Hpos', Hnor', Hcol', Hebo'.
  rewrite HmeshA, HoptA, HoptB.
  destruct (indices meshA) as [|i rest]; cbn [length Nat.eqb negb];
    destruct (truthy (color (spread_options optionsA)));
    destruct (truthy (color (spread_options optionsB)));
    read_draws; reflexivity.
Qed.



(** *** Objects created and deleted *)

(** X10. [destroy] deletes exactly the objects the constructor created: the
    vertex array and the four buffers, which are pairwise different, each
    once; the constructor itself deletes nothing. *)
Theorem RenderObject_destroy_releases (mesh : Mesh) (options : option Options)
    (w : World) :
  exists obj w1 w2,
    RenderObject_new mesh options w = Returned obj w1 /\
    RenderObject_destroy obj w1 = Returned tt w2 /\
    created_objects (calls_since w w2) = owned_objects obj /\
    NoDup (owned_objects obj) /\
    Permutation (deleted_objects (calls_since w w2)) (owned_objects obj) /\
    deleted_objects (calls_since w w1) = [].
Proof.
  destruct (RenderObject_new_run mesh options w)
    as (obj & w1 & Hnew & Hadv & _ & _ & _ & _ & Hown).
  destruct (RenderObject_destroy_run obj w1) as (w2 & Hrun & Hadv2 & _).
  exists obj, w1, w2. repeat (split; [assumption|]).
  rewrite (advances_calls_since _ _ _ _ _
             (advances_trans _ _ _ _ _ _ _ _ _ Hadv Hadv2)).
  rewrite (advances_calls_since _ _ _ _ _ Hadv).
  rewrite created_objects_app, deleted_objects_app.
  destruct (construction_creates_owned obj) as (Hc & Hd).
  destruct (destroy_deletes_owned obj) as (Hc' & Hd').
  rewrite Hc, Hd, Hc', app_nil_r.
  split; [reflexivity|].
  split; [rewrite Hown; apply seq_NoDup|].
  split; [exact Hd' | reflexivity].
Qed.

Lemma framebuffer_fields (fb : Framebuffer) (g : nat) :
  framebuffer_objects fb = seq g 5 ->
  framebuffer fb = g /\ diffuseBuf fb = S g /\ normalBuf fb = S (S g) /\
  positionBuf fb = S (S (S g)) /\ depthBuf fb = S (S (S (S g))).
Proof.
  unfold framebuffer_objects. rewrite seq5. intro H.
  injection H as H1 H2 H3 H4 H5. auto.
Qed.

(** X11. [createFramebuffer] creates one framebuffer and four textures, all
    different.  Whatever was bound before, the framebuffer ends up with the
    diffuse, normal and position textures on color attachments 0, 1, 2 and
    the depth texture on the depth attachment; each texture gets NEAREST
    filters, CLAMP_TO_EDGE wrapping and a storage of the canvas size, RGBA32F
    for the three color textures and DEPTH_COMPONENT32F for depth; and on
    return the default framebuffer is bound and no texture is. *)
Theorem createFramebuffer_setup (canvas_width canvas_height : Q) (w : World)
    (bound : option Handle) (texture : option Handle) :
  exists fb w',
    createFramebuffer canvas_width canvas_height w = Returned fb w' /\
    NoDup (framebuffer_objects fb) /\
    created_objects (calls_since w w') = framebuffer_objects fb /\
    attachments_of (framebuffer fb) bound (calls_since w w') =
      [ (COLOR_ATTACHMENT0, diffuseBuf fb);
        (COLOR_ATTACHMENT1, normalBuf fb);
        (COLOR_ATTACHMENT2, positionBuf fb);
        (DEPTH_ATTACHMENT, depthBuf fb) ] /\
    texture_ops texture (calls_since w w') =
      flat_map
        (fun tf : Handle * (TexFormat * TexFormat) =>
           [ (Some (fst tf), Param TEXTURE_MAG_FILTER NEAREST);
             (Some (fst tf), Param TEXTURE_MIN_FILTER NEAREST);
             (Some (fst tf), Param TEXTURE_WRAP_S CLAMP_TO_EDGE);
             (Some (fst tf), Param TEXTURE_WRAP_T CLAMP_TO_EDGE);
             (Some (fst tf),
              Storage (fst (snd tf)) canvas_width canvas_height
                (snd (snd tf)) FLOAT) ])
        [ (diffuseBuf fb, (RGBA32F, RGBA));
          (normalBuf fb, (RGBA32F, RGBA));
          (positionBuf fb, (RGBA32F, RGBA));
          (depthBuf fb, (DEPTH_COMPONENT32F, DEPTH_COMPONENT)) ] /\
    gl_framebuffer w' = None /\
    target_after bound (calls_since w w') = None /\
    texture_after texture (calls_since w w') = None.
Proof.
  destruct (createFramebuffer_run canvas_width canvas_height w)
    as (fb & w' & Hrun & Hadv & Hfb & Hown).
  exists fb, w'. split; [exact Hrun|].
  split; [rewrite Hown; apply seq_NoDup|].
  rewrite (advances_calls_since _ _ _ _ _ Hadv).
  unfold framebuffer_calls, texture_setup_calls.
  split; [reflexivity|].
  split.
  { cbn -[Nat.eqb]. rewrite Nat.eqb_refl. reflexivity. }
  split; [reflexivity|]. split; [exact Hfb|]. split; reflexivity.
Qed.

(** X12. [destroy] of the offscreen target deletes exactly the five objects
    [createFramebuffer] created, each once. *)
Theorem Framebuffer_destroy_releases (canvas_width canvas_height : Q)
    (w : World) :
  exists fb w1 w2,
    createFramebuffer canvas_width canvas_height w = Returned fb w1 /\
    Framebuffer_destroy fb w1 = Returned tt w2 /\
    created_objects (calls_since w w2) = framebuffer_objects fb /\
    deleted_objects (calls_since w w2) = framebuffer_objects fb /\
    NoDup (framebuffer_objects fb).
Proof.
  destruct (createFramebuffer_run canvas_width canvas_height w)
    as (fb & w1 & Hrun & Hadv & _ & Hown).
  destruct (Framebuffer_destroy_run fb w1) as (w2 & Hrun2 & Hadv2 & _).
  exists fb, w1, w2. repeat (split; [assumption|]).
  rewrite (advances_calls_since _ _ _ _ _
             (advances_trans _ _ _ _ _ _ _ _ _ Hadv Hadv2)).
  split; [reflexivity|]. split; [reflexivity|].
  rewrite Hown. apply seq_NoDup.
Qed.

(** X13. [createProgram] links the program with exactly its two shaders
    attached, a vertex shader of the first source and a fragment shader of
    the second, both compiled; of the three objects it creates it deletes
    the two shaders and returns the program, which it does not delete. *)
Theorem createProgram_links_and_cleans (vsSource fsSource : ShaderText)
    (w : World) :
  exists program w',
    createProgram vsSource fsSource w = Returned program w' /\
    created_objects (calls_since w w') = program :: program_shaders program /\
    NoDup (program :: program_shaders program) /\
    deleted_objects (calls_since w w') = program_shaders program /\
    link_inputs [] [] (calls_since w w') =
      [ (program,
         [ {| sh_type := VERTEX_SHADER;
              sh_source := Some vsSource;
              sh_compiled := true |};
           {| sh_type := FRAGMENT_SHADER;
              sh_source := Some fsSource;
              sh_compiled := true |} ]) ].
Proof.
  destruct (createProgram_run vsSource fsSource w) as (w' & Hrun & Hadv & _).
  exists (gl_fresh w), w'. split; [exact Hrun|].
  rewrite (advances_calls_since _ _ _ _ _ Hadv).
  unfold program_calls, shader_calls, program_shaders.
  split; [reflexivity|]. split; [apply (seq_NoDup 3 (gl_fresh w))|].
  split; [reflexivity|].
  repeat (progress (cbn -[Nat.eqb]; decide_eqb)). reflexivity.
Qed.

(** *** One frame *)

(** What the calls of one [render] of an object amount to. *)
Lemma render_calls_facts (obj : RenderObject) (program : Handle)
    (m v p : mat4) :
  (forall t, draw_targets t (render_calls obj program m v p) =
             if drawn obj
             then [(DrawnElements (length (indices (ro_mesh obj))), t)]
             else []) /\
  (forall t, target_after t (render_calls obj program m v p) = t) /\
  allocation_free (render_calls obj program m v p) /\
  uploads_view_projection v p (render_calls obj program m v p) /\
  map fst (matrix_uniforms (render_calls obj program m v p)) =
    (if drawn obj then ["uMMatrix"; "uVMatrix"; "uPMatrix"]%string else []).
Proof.
  unfold render_calls, allocation_free, uploads_view_projection.
  destruct (drawn obj); cbn; repeat split; auto.
  repeat constructor; cbn; intros; try discriminate; reflexivity.
Qed.

Section Frame.

Variable width height canvas_width canvas_height : Q.
Variable program program2 : Handle.
Variable objects : list RenderObject.
Variable floor : RenderObject.
Variable fb : Framebuffer.
Variable near far : Q.

Lemma renderGeometry_each_calls (object : RenderObject) (w : World) :
  exists w',
    renderGeometry_each program floor object w = Returned tt w' /\
    advances w w'
      (render_calls object program (js_mMatrix w' (ro_self object))
         (js_vMatrix w) (js_pMatrix w)) 0 0.
Proof.
  unfold renderGeometry_each.
  destruct (same_object object floor) eqn:Hf; cbn [negb];
    cbv [bind get modify ret];
    cbn [set_mMatrix js_mMatrix js_vMatrix js_pMatrix];
    rewrite ?Nat.eqb_refl;
    match goal with
    | |- context [RenderObject_render ?o ?p ?v ?q ?W] =>
        destruct (RenderObject_render_calls o p v q W)
          as (w' & Hr & Hadv & _ & Hm & _)
    end;
    exists w'; rewrite Hr; (split; [reflexivity|]);
    rewrite Hm; unfold advances in *;
    cbn [set_mMatrix js_mMatrix js_vMatrix js_pMatrix gl_calls gl_fresh
         js_fresh] in *;
    rewrite ?Nat.eqb_refl in *; exact Hadv.
Qed.

Lemma forEach_renderGeometry_calls (l : list RenderObject) (w : World) :
  exists w' log,
    forEach l (renderGeometry_each program floor) w = Returned tt w' /\
    advances w w' log 0 0 /\
    (forall t, draw_targets t log =
               map (fun o => (DrawnElements (length (indices (ro_mesh o))), t))
                 (filter drawn l)) /\
    (forall t, target_after t log = t) /\
    allocation_free log /\
    uploads_view_projection (js_vMatrix w) (js_pMatrix w) log /\
    map fst (matrix_uniforms log) =
      flat_map (fun _ : RenderObject =>
                  ["uMMatrix"; "uVMatrix"; "uPMatrix"]%string)
        (filter drawn l).
Proof.
  revert w. induction l as [|o rest IH]; intro w.
  - exists w, []. split; [reflexivity|]. split; [apply advances_refl|].
    repeat split; constructor.
  - destruct (renderGeometry_each_calls o w) as (w1 & Hr & Hadv).
    destruct (renderGeometry_each_run program floor o w)
      as (w1' & Hr' & _ & Hv & Hp & _).
    assert (w1' = w1) by congruence. subst w1'.
    destruct (IH w1) as (w2 & log & Hr2 & Hadv2 & Hd & Ht & Ha & Hu & Hn).
    destruct (render_calls_facts o program (js_mMatrix w1 (ro_self o))
                (js_vMatrix w) (js_pMatrix w))
      as (Hd1 & Ht1 & Ha1 & Hu1 & Hn1).
    eexists. eexists. cbn [forEach]. unfold bind. rewrite Hr, Hr2.
    split; [reflexivity|].
    split; [exact (advances_trans _ _ _ _ _ _ _ _ _ Hadv Hadv2)|].
    split.
    { intro t. rewrite draw_targets_app, Hd1, Ht1, Hd. cbn [filter].
      destruct (drawn o); reflexivity. }
    split; [intro t; rewrite target_after_app, Ht1, Ht; reflexivity|].
    split; [apply allocation_free_app; assumption|].
    split.
    { unfold uploads_view_projection in *. rewrite matrix_uniforms_app.
      apply Forall_app. split; [exact Hu1|]. rewrite <- Hv, <- Hp. exact Hu. }
    rewrite matrix_uniforms_app, map_app, Hn1, Hn. cbn [filter].
    destruct (drawn o); reflexivity.
Qed.

Lemma renderGeometry_calls (n f : Q) (w : World) :
  exists w' log,
    renderGeometry width height canvas_width canvas_height program objects
      floor n f w = Returned tt w' /\
    advances w w' log 0 0 /\
    (forall t, draw_targets t log =
               map (fun o => (DrawnElements (length (indices (ro_mesh o))), t))
                 (filter drawn objects)) /\
    (forall t, target_after t log = t) /\
    allocation_free log /\
    uploads_view_projection frame_view (frame_projection width height n f) log /\
    map fst (matrix_uniforms log) =
      flat_map (fun _ : RenderObject =>
                  ["uMMatrix"; "uVMatrix"; "uPMatrix"]%string)
        (filter drawn objects).
Proof.
  unfold renderGeometry. cbv [bind gl modify].
  match goal with
  | |- context [forEach objects _ ?W] =>
      destruct (forEach_renderGeometry_calls objects W)
        as (w' & log & Hr & Hadv & Hd & Ht & Ha & Hu & Hn)
  end.
  exists w'. eexists. rewrite Hr. split; [reflexivity|].
  destruct Hadv as (Hc & Hg & Hj).
  cbn [record_call set_vMatrix set_pMatrix gl_calls gl_fresh js_fresh
       js_vMatrix js_pMatrix] in *.
  split.
  { unfold advances. rewrite Hc, Hg, Hj. flatten_log.
    split; [reflexivity|]. split; reflexivity. }
  destruct Ha as (Ha1 & Ha2).
  split; [intro t; cbn [draw_targets app]; apply Hd|].
  split; [intro t; cbn [target_after app]; apply Ht|].
  split; [split; cbn; assumption|].
  split; [exact Hu|].
  cbn [matrix_uniforms flat_map app]. exact Hn.
Qed.

Lemma render_run (w : World) :
  exists w' log,
    render width height canvas_width canvas_height program program2 objects
      floor fb near far w = Returned tt w' /\
    advances w w' log 0 0 /\
    gl_framebuffer w' = None /\
    (forall t, draw_targets t log = frame_draws objects fb) /\
    allocation_free log /\
    uploads_view_projection frame_view
      (frame_projection width height near far) log /\
    map fst (matrix_uniforms log) =
      flat_map (fun _ : RenderObject =>
                  ["uMMatrix"; "uVMatrix"; "uPMatrix"]%string)
        (filter drawn objects) /\
    (forall k, js_mMatrix w' k =
               if Nat.eqb k (ro_self floor) then js_mMatrix w k
               else Nat.iter (visits k objects) spin (js_mMatrix w k)).
Proof.
  destruct (renderGeometry_calls near far (capture_entry fb w))
    as (w3 & log & Hg & Hadv & Hd & Ht & Ha & Hu & Hn).
  destruct (renderGeometry_run width height canvas_width canvas_height program
              objects floor near far (capture_entry fb w))
    as (w3' & Hg' & Hm & _).
  assert (w3' = w3) by congruence. subst w3'.
  assert (Hcap : capture fb (renderGeometry width height canvas_width
                    canvas_height program objects floor near far) w =
                 Returned tt (record_call (BindFramebuffer None) w3)).
  { rewrite capture_unfold, Hg. reflexivity. }
  unfold render.
  change (truthy (JsNumber 0)) with false. cbv iota.
  unfold bind at 1. rewrite Hcap.
  cbv [bind gl modify renderTexture].
  eexists.
  exists ([ BindFramebuffer (Some (framebuffer fb));
            DrawBuffers [COLOR_ATTACHMENT0; COLOR_ATTACHMENT1;
                         COLOR_ATTACHMENT2] ]
          ++ log ++ [BindFramebuffer None]
          ++ composite_calls width height canvas_width canvas_height program2
               fb near far).
  split; [reflexivity|].
  destruct Hadv as (Hc & Hgf & Hj). destruct Ha as (Ha1 & Ha2).
  cbn [record_call gl_calls gl_fresh js_fresh gl_framebuffer js_mMatrix
       capture_entry] in *.
  split.
  { unfold advances, composite_calls, texture_draw_calls.
    cbn [record_call gl_calls gl_fresh js_fresh].
    rewrite Hc, Hgf, Hj. flatten_log.
    split; [reflexivity|]. split; reflexivity. }
  split; [reflexivity|].
  split.
  { intro t. rewrite draw_targets_app. cbn [draw_targets target_after app].
    rewrite draw_targets_app, Hd, Ht. reflexivity. }
  split.
  { split.
    - rewrite !created_objects_app, Ha1. reflexivity.
    - rewrite !deleted_objects_app, Ha2. reflexivity. }
  assert (Hcomp : matrix_uniforms
            ([BindFramebuffer None]
             ++ composite_calls width height canvas_width canvas_height
                  program2 fb near far) = []) by reflexivity.
  split; [|split; [|exact Hm]].
  - unfold uploads_view_projection in *.
    rewrite !matrix_uniforms_app.
    rewrite <- (matrix_uniforms_app [BindFramebuffer None]), Hcomp.
    cbn [matrix_uniforms flat_map app]. rewrite app_nil_r. exact Hu.
  - rewrite !matrix_uniforms_app.
    rewrite <- (matrix_uniforms_app [BindFramebuffer None]), Hcomp.
    cbn [matrix_uniforms flat_map app]. rewrite app_nil_r. exact Hn.
Qed.

(** X14. A frame always returns, whatever the context and the objects.
    Every mesh draw of the frame goes to the offscreen framebuffer, one
    [drawElements] per object with a non-empty index list, in list order;
    after them exactly five four-vertex triangle strips are drawn, all to
    the default framebuffer.  This does not depend on the framebuffer bound
    before the frame, and the frame leaves the default one bound.  A frame
    creates and deletes no object of the context. *)
Theorem render_frame_draws (w : World) (bound : option Handle) :
  exists w',
    render width height canvas_width canvas_height program program2 objects
      floor fb near far w = Returned tt w' /\
    draw_targets bound (calls_since w w') =
      map (fun o => (DrawnElements (length (indices (ro_mesh o))),
                     Some (framebuffer fb)))
        (filter drawn objects)
      ++ repeat (DrawnArrays TRIANGLE_STRIP 0 4, None) 5 /\
    gl_framebuffer w' = None /\
    created_objects (calls_since w w') = [] /\
    deleted_objects (calls_since w w') = [] /\
    gl_fresh w' = gl_fresh w.
Proof.
  destruct (render_run w) as (w' & log & Hr & Hadv & Hfb & Hd & (Hc & Hdel) & _).
  exists w'. split; [exact Hr|].
  rewrite (advances_calls_since _ _ _ _ _ Hadv).
  destruct Hadv as (_ & Hg & _).
  split; [apply Hd|]. repeat split; assumption.
Qed.

(** X15. The geometry pass of a frame sets the camera itself: each object
    drawn uploads three matrices, model, view and projection in that
    order, and every view matrix uploaded is
    [lookAt([0, 0.5, 2.2], [0, 0, 0], [0, 1, 0])] and every projection
    matrix [perspective(radians(60), width / height, near, far)], whatever
    [vMatrix] and [pMatrix] held before the frame.  The composite pass
    uploads no matrix. *)
Theorem render_uploads_camera (w : World) :
  exists w',
    render width height canvas_width canvas_height program program2 objects
      floor fb near far w = Returned tt w' /\
    map fst (matrix_uniforms (calls_since w w')) =
      flat_map (fun _ : RenderObject =>
                  ["uMMatrix"; "uVMatrix"; "uPMatrix"]%string)
        (filter drawn objects) /\
    Forall (fun nm : string * mat4 =>
              (fst nm = "uVMatrix"%string ->
               snd nm = mat4_lookAt (0, 5 # 10, 22 # 10) (0, 0, 0) (0, 1, 0)) /\
              (fst nm = "uPMatrix"%string ->
               snd nm = mat4_perspective (radians 60) (width / height)
                          near far))
      (matrix_uniforms (calls_since w w')).
Proof.
  destruct (render_run w) as (w' & log & Hr & Hadv & _ & _ & _ & Hu & Hn & _).
  exists w'. split; [exact Hr|].
  rewrite (advances_calls_since _ _ _ _ _ Hadv).
  split; [exact Hn | exact Hu].
Qed.

End Frame.

(** *** Loading the page *)

Lemma construction_draws_nothing (obj : RenderObject) (t : option Handle) :
  draw_targets t (construction_calls obj) = [].
Proof.
  unfold construction_calls.
  destruct (truthy (color (ro_options obj))); reflexivity.
Qed.

Lemma RenderObject_new_matrix (mesh : Mesh) (options : option Options)
    (w : World) (obj : RenderObject) (w1 : World) :
  RenderObject_new mesh options w = Returned obj w1 ->
  forall k, js_mMatrix w1 k =
            if Nat.eqb k (js_fresh w) then mat4_create else js_mMatrix w k.
Proof.
  unfold RenderObject_new.
  destruct (truthy (color (spread_options options))); cbn [negb];
    step_js; intros H k; injection H as _ <-; reflexivity.
Qed.

Lemma update_mMatrix_matrix (o : RenderObject) (f : mat4 -> mat4)
    (w w1 : World) :
  update_mMatrix o f w = Returned tt w1 ->
  forall k, js_mMatrix w1 k =
            if Nat.eqb k (ro_self o) then f (js_mMatrix w (ro_self o))
            else js_mMatrix w k.
Proof.
  unfold update_mMatrix. step_js. intros H k. injection H as <-. reflexivity.
Qed.

Lemma createProgram_matrix (vsSource fsSource : ShaderText) (w : World)
    (p : Handle) (w1 : World) :
  createProgram vsSource fsSource w = Returned p w1 ->
  js_mMatrix w1 = js_mMatrix w.
Proof.
  unfold createProgram, createShader. step_js. intro H.
  injection H as _ <-. reflexivity.
Qed.

Lemma createFramebuffer_matrix (width height : Q) (w : World)
    (fb : Framebuffer) (w1 : World) :
  createFramebuffer width height w = Returned fb w1 ->
  js_mMatrix w1 = js_mMatrix w.
Proof.
  unfold createFramebuffer, setupTexture. step_js. intro H.
  injection H as _ <-. reflexivity.
Qed.

Lemma onload_random_box_run (random : nat -> Q) (i : nat) (w : World) :
  exists obj w',
    onload_random_box random i w = Returned obj w' /\
    advances w w' (construction_calls obj) 5 1 /\
    gl_framebuffer w' = gl_framebuffer w /\
    box_object obj /\
    ro_self obj = js_fresh w /\
    owned_objects obj = seq (gl_fresh w) 5 /\
    (forall k, js_mMatrix w' k =
               if Nat.eqb k (js_fresh w) then random_box_placement random i
               else js_mMatrix w k).
Proof.
  unfold onload_random_box.
  destruct (RenderObject_new_run
              (createBoxMesh (random (5 * i)%nat * (32 # 100))) None w)
    as (obj & w1 & Hnew & Hadv & Hfb & Hmesh & Hopt & Hself & Hown).
  unfold bind at 1. rewrite Hnew.
  match goal with
  | |- context [bind (update_mMatrix obj ?f) _ w1] =>
      destruct (update_mMatrix_run obj f w1) as (w2 & Hu1 & Hadv1 & Hfb1);
      unfold bind at 1; rewrite Hu1
  end.
  match goal with
  | |- context [bind (update_mMatrix obj ?f) _ w2] =>
      destruct (update_mMatrix_run obj f w2) as (w3 & Hu2 & Hadv2 & Hfb2);
      unfold bind at 1; rewrite Hu2
  end.
  match goal with
  | |- context [bind (update_mMatrix obj ?f) _ w3] =>
      destruct (update_mMatrix_run obj f w3) as (w4 & Hu3 & Hadv3 & Hfb3);
      unfold bind at 1; rewrite Hu3
  end.
  exists obj, w4. split; [reflexivity|].
  split.
  { pose proof (advances_trans _ _ _ _ _ _ _ _ _
                  (advances_trans _ _ _ _ _ _ _ _ _
                     (advances_trans _ _ _ _ _ _ _ _ _ Hadv Hadv1) Hadv2)
                  Hadv3) as H.
    rewrite !app_nil_r in H. exact H. }
  split; [congruence|].
  split.
  { unfold box_object. rewrite Hopt, Hmesh. split; [reflexivity|].
    split; [reflexivity|]. eexists. reflexivity. }
  split; [exact Hself|]. split; [exact Hown|].
  intro k.
  rewrite !(update_mMatrix_matrix _ _ _ _ Hu3),
          !(update_mMatrix_matrix _ _ _ _ Hu2),
          !(update_mMatrix_matrix _ _ _ _ Hu1),
          !(RenderObject_new_matrix _ _ _ _ _ Hnew).
  rewrite Hself, Nat.eqb_refl.
  destruct (Nat.eqb k (js_fresh w)); reflexivity.
Qed.

Lemma onload_random_boxes_run (random : nat -> Q) (turns : list nat)
    (w : World) :
  exists objs w' log,
    onload_random_boxes random turns w = Returned objs w' /\
    advances w w' log (5 * length turns) (length turns) /\
    gl_framebuffer w' = gl_framebuffer w /\
    length objs = length turns /\
    Forall box_object objs /\
    map ro_self objs = seq (js_fresh w) (length turns) /\
    flat_map owned_objects objs = seq (gl_fresh w) (5 * length turns) /\
    created_objects log = flat_map owned_objects objs /\
    deleted_objects log = [] /\
    (forall t, draw_targets t log = []) /\
    (forall k, (k < js_fresh w)%nat -> js_mMatrix w' k = js_mMatrix w k) /\
    (forall j, (j < length turns)%nat ->
       js_mMatrix w' (js_fresh w + j) =
       random_box_placement random (nth j turns 0%nat)).
Proof.
  revert w. induction turns as [|i rest IH]; intro w.
  - exists [], w, []. split; [reflexivity|].
    split; [apply advances_refl|].
    do 7 (split; [constructor|]).
    split; [reflexivity|]. split; [reflexivity|].
    intros j Hj. cbn in Hj. lia.
  - destruct (onload_random_box_run random i w)
      as (obj & w1 & Hb & Hadv & Hfb & Hbox & Hself & Hown & Hmat).
    destruct (IH w1)
      as (objs & w2 & log & Hr & Hadv2 & Hfb2 & Hlen & Hall & Hids & Hh & Hc
          & Hd & Hdr & Hold & Hnew).
    exists (obj :: objs), w2, (construction_calls obj ++ log).
    cbn [onload_random_boxes]. unfold bind. rewrite Hb, Hr. unfold ret.
    split; [reflexivity|].
    destruct (construction_creates_owned obj) as (Hco & Hdo).
    pose proof Hadv as (_ & Hg1 & Hj1).
    split.
    { pose proof (advances_trans _ _ _ _ _ _ _ _ _ Hadv Hadv2) as H.
      cbn [length].
      replace (5 * S (length rest))%nat with (5 * length rest + 5)%nat by lia.
      replace (S (length rest)) with (length rest + 1)%nat by lia.
      exact H. }
    split; [congruence|].
    split; [cbn [length]; congruence|].
    split; [constructor; assumption|].
    split.
    { cbn [map length seq]. rewrite Hself, Hids, Hj1. reflexivity. }
    split.
    { cbn [flat_map length]. rewrite Hown, Hh, Hg1.
      replace (5 * S (length rest))%nat with (5 + 5 * length rest)%nat by lia.
      rewrite seq_app, (Nat.add_comm (gl_fresh w) 5). reflexivity. }
    split.
    { rewrite created_objects_app, Hco, Hc. reflexivity. }
    split.
    { rewrite deleted_objects_app, Hdo, Hd. reflexivity. }
    split.
    { intro t. rewrite draw_targets_app, construction_draws_nothing, Hdr.
      reflexivity. }
    split.
    { intros k Hk. rewrite Hold by lia. rewrite Hmat.
      replace (Nat.eqb k (js_fresh w)) with false
        by (symmetry; apply Nat.eqb_neq; lia).
      reflexivity. }
    intros [|j] Hj.
    + rewrite Nat.add_0_r, Hold by lia. rewrite Hmat, Nat.eqb_refl.
      reflexivity.
    + cbn [length] in Hj. cbn [nth].
      replace (js_fresh w + S j)%nat with (js_fresh w1 + j)%nat by lia.
      apply Hnew. lia.
Qed.

Lemma onload_run (random : nat -> Q) (w : World) :
  exists sc w' log,
    onload random w = Returned sc w' /\
    advances w w' log 51 8 /\
    gl_framebuffer w' = None /\
    created_objects log = scene_created sc /\
    scene_created sc = seq (gl_fresh w) 51 /\
    deleted_objects log =
      program_shaders (scene_program sc) ++ program_shaders (scene_program2 sc) /\
    page_scene sc /\
    map ro_self (scene_objects sc) = seq (js_fresh w) 8 /\
    (forall t, draw_targets t log = []) /\
    js_mMatrix w' (js_fresh w) =
      mat4_translate mat4_create (0, - (5 # 10), 0) /\
    js_mMatrix w' (1 + js_fresh w)%nat =
      mat4_translate mat4_create (0, - (1 # 10), 0) /\
    (forall j, (j < 6)%nat ->
       js_mMatrix w' (2 + j + js_fresh w)%nat = random_box_placement random j).
Proof.
  unfold onload. change (truthy (JsNumber 1)) with true. cbv iota.
  cbv [bind gl modify ret].
  match goal with
  | |- context [createProgram ?a ?b ?W] =>
      destruct (createProgram_run a b W) as (w1 & Hp1 & Ha1 & _);
      pose proof (createProgram_matrix _ _ _ _ _ Hp1) as Hm1;
      rewrite Hp1; cbv beta iota
  end.
  match goal with
  | |- context [createProgram ?a ?b ?W] =>
      destruct (createProgram_run a b W) as (w2 & Hp2 & Ha2 & _);
      pose proof (createProgram_matrix _ _ _ _ _ Hp2) as Hm2;
      rewrite Hp2; cbv beta iota
  end.
  match goal with
  | |- context [RenderObject_new ?a ?b ?W] =>
      destruct (RenderObject_new_run a b W)
        as (floor & w3 & Hn3 & Ha3 & _ & Hmesh3 & Hopt3 & Hself3 & Hown3);
      pose proof (RenderObject_new_matrix _ _ _ _ _ Hn3) as Hm3;
      rewrite Hn3; cbv beta iota
  end.
  match goal with
  | |- context [update_mMatrix ?a ?b ?W] =>
      destruct (update_mMatrix_run a b W) as (w4 & Hu4 & Ha4 & _);
      pose proof (update_mMatrix_matrix _ _ _ _ Hu4) as Hm4;
      rewrite Hu4; cbv beta iota
  end.
  match goal with
  | |- context [RenderObject_new ?a ?b ?W] =>
      destruct (RenderObject_new_run a b W)
        as (box & w5 & Hn5 & Ha5 & _ & Hmesh5 & Hopt5 & Hself5 & Hown5);
      pose proof (RenderObject_new_matrix _ _ _ _ _ Hn5) as Hm5;
      rewrite Hn5; cbv beta iota
  end.
  match goal with
  | |- context [update_mMatrix ?a ?b ?W] =>
      destruct (update_mMatrix_run a b W) as (w6 & Hu6 & Ha6 & _);
      pose proof (update_mMatrix_matrix _ _ _ _ Hu6) as Hm6;
      rewrite Hu6; cbv beta iota
  end.
  match goal with
  | |- context [onload_random_boxes ?a ?b ?W] =>
      destruct (onload_random_boxes_run a b W)
        as (boxes & w7 & blog & Hb7 & Ha7 & _ & Hlen7 & Hall7 & Hids7 & Hh7
            & Hc7 & Hd7 & Hdr7 & Hold7 & Hnew7);
      rewrite Hb7; cbv beta iota
  end.
  match goal with
  | |- context [createFramebuffer ?a ?b ?W] =>
      destruct (createFramebuffer_run a b W)
        as (fb & w8 & Hf8 & Ha8 & Hfb8 & Hown8);
      pose proof (createFramebuffer_matrix _ _ _ _ _ Hf8) as Hm8;
      rewrite Hf8; cbv beta iota
  end.
  eexists. exists w8.
  exists ([ GetExtension "EXT_color_buffer_float";
            GetExtension "GMAN_debug_helper" ]
          ++ program_calls (gl_fresh w) vertex_source fragment_source
          ++ program_calls (3 + gl_fresh w)%nat vertex_source2 fragment_source2
          ++ construction_calls floor
          ++ construction_calls box
          ++ blog
          ++ framebuffer_calls fb 640 480).
  split; [reflexivity|].
  cbn [scene_program scene_program2 scene_objects scene_floor scene_fb].
  unfold advances in *.
  cbn [record_call set_vMatrix set_pMatrix gl_calls gl_fresh js_fresh
       js_mMatrix length seq] in *.
  destruct Ha1 as (Hc1 & Hg1 & Hj1). destruct Ha2 as (Hc2 & Hg2 & Hj2).
  destruct Ha3 as (Hc3 & Hg3 & Hj3). destruct Ha4 as (Hc4 & Hg4 & Hj4).
  destruct Ha5 as (Hc5 & Hg5 & Hj5). destruct Ha6 as (Hc6 & Hg6 & Hj6).
  destruct Ha7 as (Hc7' & Hg7 & Hj7). destruct Ha8 as (Hc8 & Hg8 & Hj8).
  rewrite app_nil_r in Hc4, Hc6.
  assert (E1 : gl_fresh w1 = (3 + gl_fresh w)%nat) by lia.
  split.
  { split.
    - rewrite Hc8, Hc7', Hc6, Hc5, Hc4, Hc3, Hc2, Hc1, E1.
      rewrite <- !app_assoc. reflexivity.
    - split; lia. }
  split; [exact Hfb8|].
  destruct (construction_creates_owned floor) as (Hcf & Hdf).
  destruct (construction_creates_owned box) as (Hcb & Hdb).
  split.
  { rewrite !created_objects_app, Hcf, Hcb, Hc7. unfold scene_created.
    cbn [scene_program scene_program2 scene_objects scene_floor scene_fb
         flat_map app].
    rewrite E1.
    unfold program_calls, shader_calls, program_shaders.
    rewrite !created_objects_app. cbn [created_objects flat_map app].
    rewrite <- ?app_assoc. reflexivity. }
  split.
  { unfold scene_created.
    cbn [scene_program scene_program2 scene_objects scene_floor scene_fb
         flat_map app].
    rewrite Hown3, Hown5, Hh7, Hown8, E1.
    replace (gl_fresh w2) with (6 + gl_fresh w)%nat by lia.
    replace (gl_fresh w4) with (11 + gl_fresh w)%nat by lia.
    replace (gl_fresh w6) with (16 + gl_fresh w)%nat by lia.
    replace (gl_fresh w7) with (46 + gl_fresh w)%nat by lia.
    reflexivity. }
  split.
  { rewrite !deleted_objects_app, Hdf, Hdb, Hd7, E1. reflexivity. }
  split.
  { unfold page_scene.
    cbn [scene_program scene_program2 scene_objects scene_floor scene_fb app].
    split.
    - exists box, boxes. split; [reflexivity|]. split; [exact Hlen7|].
      constructor; [|exact Hall7].
      unfold box_object. rewrite Hopt5, Hmesh5. split; [reflexivity|].
      split; [reflexivity|]. eexists. reflexivity.
    - rewrite Hopt3, Hmesh3. split; reflexivity. }
  split.
  { cbn [map app]. rewrite Hself3, Hself5, Hids7.
    replace (js_fresh w2) with (js_fresh w) by lia.
    replace (js_fresh w4) with (1 + js_fresh w)%nat by lia.
    replace (js_fresh w6) with (2 + js_fresh w)%nat by lia.
    reflexivity. }
  split.
  { intro t.
    rewrite !draw_targets_app, !construction_draws_nothing, Hdr7.
    reflexivity. }
  assert (E6 : js_fresh w6 = (2 + js_fresh w)%nat) by lia.
  assert (E4 : js_fresh w4 = (1 + js_fresh w)%nat) by lia.
  assert (E2 : js_fresh w2 = js_fresh w) by lia.
  rewrite E2 in *. rewrite E4 in *. rewrite E6 in *.
  rewrite Hm8.
  split.
  { rewrite Hold7 by lia.
    rewrite !Hm6, !Hm5, !Hm4, !Hm3, Hself3, Hself5.
    decide_eqb. reflexivity. }
  split.
  { rewrite Hold7 by lia.
    rewrite !Hm6, !Hm5, Hself5. decide_eqb. reflexivity. }
  intros j Hj.
  replace (2 + j + js_fresh w)%nat with (2 + js_fresh w + j)%nat by lia.
  rewrite Hnew7 by exact Hj.
  do 6 (destruct j as [|j]; [reflexivity|]). lia.
Qed.

Lemma window_onload_run (random : nat -> Q) (h : Host) :
  exists sc w',
    onload random (world h) = Returned sc w' /\
    window_onload random h =
      Returned sc
        {| world := w';
           stats_events := stats_events h;
           raf_pending := raf_pending h ++ [raf_fresh h];
           raf_fresh := S (raf_fresh h);
           request := Some (raf_fresh h);
           console := console h |}.
Proof.
  destruct (onload_run random (world h)) as (sc & w' & log & Hrun & _).
  exists sc, w'. split; [exact Hrun|].
  unfold window_onload, bind, lift, requestAnimationFrame, set_request, modify,
    ret.
  rewrite Hrun. reflexivity.
Qed.

(** X16. [window.onload] on a page where nothing has run returns, whatever
    [Math.random] yields and whatever the context created before.  It
    creates 51 objects in the context, all different: the two programs with
    two shaders each, five objects for each of the eight render objects and
    five for the offscreen target; the four shaders are the only objects
    it deletes.  The scene is the floor, with a constant color, followed by
    seven boxes with per-vertex colors, eight distinct render objects.  On
    return the default framebuffer is bound and [loop] is registered
    exactly once, under the id held by [request]. *)
Theorem window_onload_scene (random : nat -> Q) (w : World) :
  exists sc h,
    window_onload random (blank_page w) = Returned sc h /\
    scheduled h /\
    gl_framebuffer (world h) = None /\
    created_objects (calls_since w (world h)) = seq (gl_fresh w) 51 /\
    created_objects (calls_since w (world h)) =
      (scene_program sc :: program_shaders (scene_program sc))
      ++ (scene_program2 sc :: program_shaders (scene_program2 sc))
      ++ flat_map owned_objects (scene_objects sc)
      ++ framebuffer_objects (scene_fb sc) /\
    deleted_objects (calls_since w (world h)) =
      program_shaders (scene_program sc)
      ++ program_shaders (scene_program2 sc) /\
    page_scene sc /\
    map ro_self (scene_objects sc) = seq (js_fresh w) 8.
Proof.
  destruct (window_onload_run random (blank_page w)) as (sc & w' & Hrun & Hw).
  destruct (onload_run random w)
    as (sc' & w'' & log & Hrun' & Hadv & Hfb & Hc & Hs & Hd & Hp & Hids & _).
  cbn [blank_page world] in Hrun.
  assert (E : Returned sc w' = Returned sc' w'') by congruence.
  injection E as -> ->.
  eexists. eexists. split; [exact Hw|]. cbn [world].
  rewrite (advances_calls_since _ _ _ _ _ Hadv).
  split; [exists 1%nat; split; reflexivity|].
  split; [exact Hfb|].
  split; [rewrite Hc; exact Hs|].
  split; [exact Hc|].
  split; [exact Hd|]. split; [exact Hp | exact Hids].
Qed.

(** *** Frames on the page *)

Lemma animation_frame_scheduled (render : M World unit) (h : Host)
    (w' : World) :
  scheduled h ->
  render (world h) = Returned tt w' ->
  animation_frame render h =
    {| world := w';
       stats_events := stats_events h ++ [StatsBegin; StatsEnd];
       raf_pending := [raf_fresh h];
       raf_fresh := S (raf_fresh h);
       request := Some (raf_fresh h);
       console := console h |}.
Proof.
  intros (id & Hp & Hq) Hr. unfold animation_frame. rewrite Hp.
  cbn [fold_left].
  rewrite (loop_returned render _ w'); [reflexivity | exact Hr].
Qed.

Lemma frames_begun_app (h : Host) (evs : list StatsEvent) :
  length (filter (fun ev => match ev with
                            | StatsBegin => true
                            | StatsEnd => false
                            end)
            (stats_events h ++ evs)) =
  (frames_begun h +
   length (filter (fun ev => match ev with
                             | StatsBegin => true
                             | StatsEnd => false
                             end) evs))%nat.
Proof. unfold frames_begun. rewrite filter_app, length_app. reflexivity. Qed.

Section Frames.

Variable width height canvas_width canvas_height : Q.
Variable program program2 : Handle.
Variable objects : list RenderObject.
Variable floor : RenderObject.
Variable fb : Framebuffer.
Variable near far : Q.

Local Notation "'frame'" :=
  (render width height canvas_width canvas_height program program2 objects
     floor fb near far) (only parsing).

Lemma page_frames_run (n : nat) (h : Host) :
  scheduled h ->
  scheduled (animation_frames n frame h) /\
  frames_begun (animation_frames n frame h) = (n + frames_begun h)%nat /\
  console (animation_frames n frame h) = console h /\
  (forall k,
     js_mMatrix (world (animation_frames n frame h)) k =
     if Nat.eqb k (ro_self floor) then js_mMatrix (world h) k
     else Nat.iter (n * visits k objects) spin (js_mMatrix (world h) k)) /\
  exists log,
    advances (world h) (world (animation_frames n frame h)) log 0 0 /\
    (forall t, draw_targets t log = concat (repeat (frame_draws objects fb) n)) /\
    allocation_free log.
Proof.
  revert h. induction n as [|n IH]; intros h Hs.
  - cbn [animation_frames]. split; [exact Hs|]. split; [reflexivity|].
    split; [reflexivity|]. split.
    { intro k. destruct (Nat.eqb k (ro_self floor)); reflexivity. }
    exists []. split; [apply advances_refl|]. split; [reflexivity|].
    split; reflexivity.
  - destruct (render_run width height canvas_width canvas_height program
                program2 objects floor fb near far (world h))
      as (w' & log1 & Hr & Hadv1 & _ & Hd1 & Ha1 & _ & _ & Hm1).
    pose proof (animation_frame_scheduled frame h w' Hs Hr) as Hf.
    assert (Hs1 : scheduled (animation_frame frame h)).
    { rewrite Hf. exists (raf_fresh h). split; reflexivity. }
    destruct (IH (animation_frame frame h) Hs1)
      as (Hsn & Hbn & Hcn & Hmn & log & Hadv & Hd & Ha).
    cbn [animation_frames].
    split; [exact Hsn|].
    split.
    { rewrite Hbn, Hf. unfold frames_begun at 1. cbn [stats_events].
      rewrite frames_begun_app. cbn. lia. }
    split; [rewrite Hcn, Hf; reflexivity|].
    split.
    { intro k. rewrite Hmn, Hf. cbn [world]. rewrite Hm1.
      destruct (Nat.eqb k (ro_self floor)); [reflexivity|].
      rewrite <- Nat.iter_add. f_equal. lia. }
    exists (log1 ++ log).
    rewrite Hf in Hadv. cbn [world] in Hadv. rewrite Hf.
    split; [exact (advances_trans _ _ _ _ _ _ _ _ _ Hadv1 Hadv)|].
    split.
    { intro t. rewrite draw_targets_app, Hd1, Hd. reflexivity. }
    apply allocation_free_app; assumption.
Qed.

(** X17. Once [loop] is registered the animation never stops by itself and
    never fails: after any number [n] of display refreshes [loop] is again
    registered exactly once, [n] more frames have begun and nothing was
    written to the console.  The [n] frames made the draws of one frame [n]
    times over and created or deleted no object; the floor's model matrix
    is as before, and every other object's has been rotated [n] times the
    number of its occurrences in the list. *)
Theorem frames_keep_running (n : nat) (h : Host) (bound : option Handle) :
  scheduled h ->
  scheduled (animation_frames n frame h) /\
  frames_begun (animation_frames n frame h) = (n + frames_begun h)%nat /\
  console (animation_frames n frame h) = console h /\
  draw_targets bound
    (calls_since (world h) (world (animation_frames n frame h))) =
    concat (repeat (frame_draws objects fb) n) /\
  created_objects
    (calls_since (world h) (world (animation_frames n frame h))) = [] /\
  deleted_objects
    (calls_since (world h) (world (animation_frames n frame h))) = [] /\
  js_mMatrix (world (animation_frames n frame h)) (ro_self floor) =
    js_mMatrix (world h) (ro_self floor) /\
  (forall o, same_object o floor = false ->
     js_mMatrix (world (animation_frames n frame h)) (ro_self o) =
     Nat.iter (n * visits (ro_self o) objects) spin
       (js_mMatrix (world h) (ro_self o))).
Proof.
  intro Hs.
  destruct (page_frames_run n h Hs)
    as (Hsn & Hbn & Hcn & Hm & log & Hadv & Hd & Hc & Hdel).
  rewrite (advances_calls_since _ _ _ _ _ Hadv).
  repeat (split; [solve [auto]|]).
  split.
  - rewrite Hm, Nat.eqb_refl. reflexivity.
  - intros o Ho. rewrite Hm. unfold same_object in Ho. rewrite Ho.
    reflexivity.
Qed.

End Frames.

(** *** Leaving the page *)

Lemma forEach_destroy_run (l : list RenderObject) (w : World) :
  exists w',
    forEach l RenderObject_destroy w = Returned tt w' /\
    advances w w' (flat_map destroy_calls l) 0 0.
Proof.
  revert w. induction l as [|o rest IH]; intro w.
  - exists w. split; [reflexivity | apply advances_refl].
  - destruct (RenderObject_destroy_run o w) as (w1 & Hr & Hadv & _).
    destruct (IH w1) as (w2 & Hr2 & Hadv2).
    exists w2. cbn [forEach flat_map]. unfold bind. rewrite Hr, Hr2.
    split; [reflexivity|].
    exact (advances_trans _ _ _ _ _ _ _ _ _ Hadv Hadv2).
Qed.

Lemma onbeforeunload_run (sc : Scene) (h : Host) :
  exists w',
    advances (world h) w' (unload_calls sc) 0 0 /\
    onbeforeunload sc h =
      Returned tt
        {| world := w';
           stats_events := stats_events h;
           raf_pending :=
             match request h with
             | Some id => filter (fun k => negb (Nat.eqb k id)) (raf_pending h)
             | None => raf_pending h
             end;
           raf_fresh := raf_fresh h;
           request := request h;
           console := console h |}.
Proof.
  destruct (forEach_destroy_run (scene_objects sc) (world h))
    as (w1 & Hr1 & Hadv1).
  destruct (Framebuffer_destroy_run (scene_fb sc) w1) as (w2 & Hr2 & Hadv2 & _).
  eexists. split; cycle 1.
  - unfold onbeforeunload, bind, get, cancelAnimationFrame, modify, lift.
    cbn [world]. rewrite Hr1. cbn [world]. rewrite Hr2. cbn [world gl modify].
    reflexivity.
  - unfold unload_calls.
    pose proof (advances_trans _ _ _ _ _ _ _ _ _ Hadv1 Hadv2) as H.
    destruct H as (Hc & Hg & Hj). unfold advances.
    cbn [record_call gl_calls gl_fresh js_fresh]. rewrite Hc, Hg, Hj.
    rewrite <- !app_assoc. repeat split; reflexivity.
Qed.

Lemma flat_map_destroy_deletes (l : list RenderObject) :
  created_objects (flat_map destroy_calls l) = [] /\
  Permutation (deleted_objects (flat_map destroy_calls l))
    (flat_map owned_objects l) /\
  (forall t, draw_targets t (flat_map destroy_calls l) = []).
Proof.
  induction l as [|o rest (IH1 & IH2 & IH3)].
  { split; [reflexivity|]. split; [constructor | reflexivity]. }
  cbn [flat_map]. rewrite created_objects_app, deleted_objects_app, IH1.
  destruct (destroy_deletes_owned o) as (H1 & H2). rewrite H1.
  split; [reflexivity|]. split; [apply Permutation_app; assumption|].
  intro t. rewrite draw_targets_app, IH3. reflexivity.
Qed.

(** The cancellation withdraws every registration of [loop]. *)
Lemma cancel_withdraws_all (pending : list nat) (req : option nat) :
  Forall (fun id => req = Some id) pending ->
  match req with
  | Some id => filter (fun k => negb (Nat.eqb k id)) pending
  | None => pending
  end = [].
Proof.
  intro H. destruct req as [id|].
  - induction H as [|k rest Hk _ IH]; [reflexivity|].
    injection Hk as <-. cbn [filter]. rewrite Nat.eqb_refl. exact IH.
  - destruct H as [|k rest Hk _]; [reflexivity | discriminate].
Qed.

Lemma unload_deletes (sc : Scene) :
  created_objects (unload_calls sc) = [] /\
  Permutation (deleted_objects (unload_calls sc))
    (scene_program sc :: scene_program2 sc
     :: flat_map owned_objects (scene_objects sc)
     ++ framebuffer_objects (scene_fb sc)) /\
  (forall t, draw_targets t (unload_calls sc) = []).
Proof.
  unfold unload_calls.
  destruct (flat_map_destroy_deletes (scene_objects sc)) as (Hc & Hp & Hd).
  rewrite !created_objects_app, !deleted_objects_app, Hc.
  split; [reflexivity|].
  split.
  - change (deleted_objects (framebuffer_destroy_calls (scene_fb sc)))
      with (framebuffer_objects (scene_fb sc)).
    change (deleted_objects
              [DeleteProgram (scene_program sc);
               DeleteProgram (scene_program2 sc)])
      with [scene_program sc; scene_program2 sc].
    rewrite app_assoc.
    etransitivity; [apply Permutation_app_comm|].
    cbn [app]. do 2 apply perm_skip.
    apply Permutation_app_tail. exact Hp.
  - intro t. rewrite draw_targets_app, Hd. reflexivity.
Qed.

Lemma unload_deletes_scene (sc : Scene) :
  Permutation
    (program_shaders (scene_program sc) ++ program_shaders (scene_program2 sc)
     ++ deleted_objects (unload_calls sc))
    (scene_created sc).
Proof.
  destruct (unload_deletes sc) as (_ & Hp & _).
  unfold scene_created.
  set (s1 := program_shaders (scene_program sc)).
  set (s2 := program_shaders (scene_program2 sc)).
  set (R := flat_map owned_objects (scene_objects sc)
            ++ framebuffer_objects (scene_fb sc)) in *.
  rewrite Hp. symmetry.
  change (Permutation
            (scene_program sc :: (s1 ++ scene_program2 sc :: s2 ++ R))
            (s1 ++ s2 ++ scene_program sc :: scene_program2 sc :: R)).
  replace (s1 ++ s2 ++ scene_program sc :: scene_program2 sc :: R)
    with ((s1 ++ s2) ++ scene_program sc :: scene_program2 sc :: R)
    by (rewrite <- app_assoc; reflexivity).
  apply Permutation_cons_app. rewrite <- app_assoc.
  apply Permutation_app_head. apply Permutation_middle.
Qed.

(** X18. [window.onbeforeunload] returns.  If every registered callback is
    the one [request] names, as it is after [window.onload] and after every
    frame, none is registered afterwards, so no later display refresh runs
    a frame or touches the page.  It creates nothing and deletes, each
    once, the two programs, the five objects of every render object of the
    scene and the five objects of the offscreen target. *)
Theorem onbeforeunload_stops_and_releases (sc : Scene) (h : Host)
    (render : M World unit) :
  Forall (fun id => request h = Some id) (raf_pending h) ->
  exists h',
    onbeforeunload sc h = Returned tt h' /\
    raf_pending h' = [] /\
    (forall n, animation_frames n render h' = h') /\
    created_objects (calls_since (world h) (world h')) = [] /\
    Permutation (deleted_objects (calls_since (world h) (world h')))
      (scene_program sc :: scene_program2 sc
       :: flat_map owned_objects (scene_objects sc)
       ++ framebuffer_objects (scene_fb sc)) /\
    stats_events h' = stats_events h /\
    console h' = console h.
Proof.
  intro Hreq.
  destruct (onbeforeunload_run sc h) as (w' & Hadv & Hrun).
  destruct (unload_deletes sc) as (Hc & Hp & _).
  eexists. split; [exact Hrun|]. cbn [world raf_pending stats_events console].
  rewrite (advances_calls_since _ _ _ _ _ Hadv).
  pose proof (cancel_withdraws_all _ _ Hreq) as Hnil.
  split; [exact Hnil|].
  split.
  { intro n. apply animation_frames_idle. exact Hnil. }
  repeat split; assumption.
Qed.

(** *** The whole life of the page *)

Lemma concat_repeat_length {A} (l : list A) (n : nat) :
  length (concat (repeat l n)) = (n * length l)%nat.
Proof.
  induction n as [|n IH]; [reflexivity|].
  cbn [repeat concat]. rewrite length_app, IH. lia.
Qed.

Lemma box_object_drawn (o : RenderObject) : box_object o -> drawn o = true.
Proof. intros (_ & H & _). unfold drawn. rewrite H. reflexivity. Qed.

Lemma page_scene_draws (sc : Scene) :
  page_scene sc ->
  length (frame_draws (scene_objects sc) (scene_fb sc)) = 13%nat.
Proof.
  intros ((box & boxes & Ho & Hlen & Hall) & _ & Hmesh).
  unfold frame_draws. rewrite length_app, length_map, repeat_length.
  assert (Hf : filter drawn (scene_objects sc) = scene_objects sc).
  { rewrite Ho. change (filter drawn (scene_floor sc :: box :: boxes))
      with (if drawn (scene_floor sc)
            then scene_floor sc :: filter drawn (box :: boxes)
            else filter drawn (box :: boxes)).
    replace (drawn (scene_floor sc)) with true
      by (unfold drawn; rewrite Hmesh; reflexivity).
    f_equal. apply forallb_filter_id. apply forallb_forall.
    intros o Hin. apply box_object_drawn.
    rewrite Forall_forall in Hall. apply Hall, Hin. }
  rewrite Hf, Ho. cbn [length]. rewrite Hlen. reflexivity.
Qed.

(** X19. The page from load to unload: [window.onload] on a page where
    nothing has run, then any number [n] of display refreshes, then
    [window.onbeforeunload].  All three return; [n] frames have begun,
    nothing was written to the console and no callback is left registered.
    Each frame made 13 draws, 8 meshes and 5 textured quads, and these are
    all the draws there are.  Over the whole run 51 different objects were
    created in the context and every one of them was deleted, each once. *)
Theorem page_lifecycle_releases_everything (random : nat -> Q) (w : World)
    (n : nat) (bound : option Handle) :
  exists sc h1 h2,
    window_onload random (blank_page w) = Returned sc h1 /\
    onbeforeunload sc (animation_frames n (scene_render sc) h1) =
      Returned tt h2 /\
    frames_begun h2 = n /\
    console h2 = [] /\
    raf_pending h2 = [] /\
    draw_targets bound (calls_since w (world h2)) =
      concat (repeat (frame_draws (scene_objects sc) (scene_fb sc)) n) /\
    length (draw_targets bound (calls_since w (world h2))) = (n * 13)%nat /\
    created_objects (calls_since w (world h2)) = seq (gl_fresh w) 51 /\
    NoDup (created_objects (calls_since w (world h2))) /\
    Permutation (deleted_objects (calls_since w (world h2)))
      (created_objects (calls_since w (world h2))).
Proof.
  destruct (window_onload_run random (blank_page w)) as (sc & w1 & Hrun & Hw).
  destruct (onload_run random w)
    as (sc' & w1' & log1 & Hrun' & Hadv1 & _ & Hc1 & Hs1 & Hd1 & Hp & _ & Hdr1
        & _).
  cbn [blank_page world] in Hrun.
  assert (E : Returned sc w1 = Returned sc' w1') by congruence.
  injection E as <- <-.
  set (h1 := {| world := w1;
                stats_events := stats_events (blank_page w);
                raf_pending := raf_pending (blank_page w)
                               ++ [raf_fresh (blank_page w)];
                raf_fresh := S (raf_fresh (blank_page w));
                request := Some (raf_fresh (blank_page w));
                console := console (blank_page w) |}) in *.
  assert (Hsch : scheduled h1) by (exists 1%nat; split; reflexivity).
  destruct (page_frames_run 640 480 640 480 (scene_program sc)
              (scene_program2 sc) (scene_objects sc) (scene_floor sc)
              (scene_fb sc) (8 # 10) 100 n h1 Hsch)
    as (Hsn & Hbn & Hcn & _ & log2 & Hadv2 & Hdr2 & Hc2 & Hd2).
  fold (scene_render sc) in Hsn, Hbn, Hcn, Hadv2.
  set (hn := animation_frames n (scene_render sc) h1) in *.
  destruct (onbeforeunload_run sc hn) as (w3 & Hadv3 & Hun).
  destruct (unload_deletes sc) as (Hc3 & _ & Hdr3).
  pose proof (unload_deletes_scene sc) as Hperm.
  exists sc, h1. eexists. split; [exact Hw|]. split; [exact Hun|].
  cbn [world raf_pending console].
  change (world h1) with w1 in Hadv2.
  rewrite (advances_calls_since _ _ _ _ _
             (advances_trans _ _ _ _ _ _ _ _ _
                (advances_trans _ _ _ _ _ _ _ _ _ Hadv1 Hadv2) Hadv3)).
  assert (Hdraws : forall t,
            draw_targets t ((log1 ++ log2) ++ unload_calls sc) =
            concat (repeat (frame_draws (scene_objects sc) (scene_fb sc)) n)).
  { intro t. rewrite !draw_targets_app, Hdr1, Hdr2, Hdr3, app_nil_r.
    reflexivity. }
  assert (Hcreated : created_objects ((log1 ++ log2) ++ unload_calls sc) =
                     seq (gl_fresh w) 51).
  { rewrite !created_objects_app, Hc1, Hc2, Hc3, !app_nil_r. exact Hs1. }
  split.
  { unfold frames_begun in *. cbn [stats_events]. rewrite Hbn. cbn. lia. }
  split; [rewrite Hcn; reflexivity|].
  split.
  { apply cancel_withdraws_all. destruct Hsn as (id & Hp1 & Hq1).
    rewrite Hp1, Hq1. constructor; [reflexivity | constructor]. }
  split; [apply Hdraws|].
  split.
  { rewrite Hdraws, concat_repeat_length, (page_scene_draws sc Hp).
    reflexivity. }
  split; [exact Hcreated|].
  split; [rewrite Hcreated; apply seq_NoDup|].
  rewrite Hcreated, <- Hs1, !deleted_objects_app, Hd1, Hd2.
  cbn [app]. rewrite <- app_assoc. exact Hperm.
Qed.

(** X20. How the scene moves: after [window.onload] and any number [n] of
    display refreshes the floor's model matrix is still the translation by
    [0, -0.5, 0] that [window.onload] gave it, and the model matrix of
    every box is its placement of [window.onload], the translation by
    [0, -0.1, 0] for the first box and the random translation and two
    rotations for the six others, rotated [n] times by the per-frame
    rotation. *)
Theorem page_motion (random : nat -> Q) (w : World) (n : nat) :
  exists sc h1,
    window_onload random (blank_page w) = Returned sc h1 /\
    map (fun o =>
           js_mMatrix (world (animation_frames n (scene_render sc) h1))
             (ro_self o))
      (scene_objects sc) =
    mat4_translate mat4_create (0, - (5 # 10), 0)
    :: Nat.iter n spin (mat4_translate mat4_create (0, - (1 # 10), 0))
    :: map (fun i => Nat.iter n spin (random_box_placement random i))
         (seq 0 6).
Proof.
  destruct (window_onload_run random (blank_page w)) as (sc & w1 & Hrun & Hw).
  destruct (onload_run random w)
    as (sc' & w1' & log1 & Hrun' & _ & _ & _ & _ & _ & Hp & Hids & _ & M0 & M1
        & M2).
  cbn [blank_page world] in Hrun.
  assert (E : Returned sc w1 = Returned sc' w1') by congruence.
  injection E as <- <-.
  set (h1 := {| world := w1;
                stats_events := stats_events (blank_page w);
                raf_pending := raf_pending (blank_page w)
                               ++ [raf_fresh (blank_page w)];
                raf_fresh := S (raf_fresh (blank_page w));
                request := Some (raf_fresh (blank_page w));
                console := console (blank_page w) |}) in *.
  assert (Hsch : scheduled h1) by (exists 1%nat; split; reflexivity).
  destruct (page_frames_run 640 480 640 480 (scene_program sc)
              (scene_program2 sc) (scene_objects sc) (scene_floor sc)
              (scene_fb sc) (8 # 10) 100 n h1 Hsch)
    as (_ & _ & _ & Hm & _).
  fold (scene_render sc) in Hm.
  change (world h1) with w1 in Hm.
  exists sc, h1. split; [exact Hw|].
  assert (Hfloor : ro_self (scene_floor sc) = js_fresh w).
  { destruct Hp as ((box & boxes & Ho & _) & _). rewrite Ho in Hids.
    cbn [map seq] in Hids. injection Hids as Hf _. exact Hf. }
  assert (Hbox : forall k, In k (seq (S (js_fresh w)) 7) ->
            js_mMatrix (world (animation_frames n (scene_render sc) h1)) k =
            Nat.iter n spin (js_mMatrix w1 k)).
  { intros k Hk. rewrite Hm, Hfloor.
    replace (Nat.eqb k (js_fresh w)) with false
      by (symmetry; apply Nat.eqb_neq; apply in_seq in Hk; lia).
    assert (Hin : In k (map ro_self (scene_objects sc))).
    { rewrite Hids. right. exact Hk. }
    apply in_map_iff in Hin. destruct Hin as (o & <- & Ho).
    rewrite (visits_NoDup o (scene_objects sc)); [|rewrite Hids; apply seq_NoDup
                                                  |exact Ho].
    rewrite Nat.mul_1_r. reflexivity. }
  rewrite <- (map_map ro_self
                (fun k => js_mMatrix
                            (world (animation_frames n (scene_render sc) h1)) k)),
    Hids.
  change (seq (js_fresh w) 8) with (js_fresh w :: seq (S (js_fresh w)) 7).
  cbn [map]. f_equal.
  { rewrite Hm, Hfloor, Nat.eqb_refl. exact M0. }
  change (seq (S (js_fresh w)) 7)
    with (S (js_fresh w) :: map (fun i => (2 + i + js_fresh w)%nat) (seq 0 6)).
  cbn [map]. f_equal.
  { rewrite Hbox by (left; reflexivity). f_equal. exact M1. }
  rewrite map_map. apply map_ext_in. intros i Hi. apply in_seq in Hi.
  rewrite Hbox.
  - f_equal. apply M2. lia.
  - apply in_seq. lia.
Qed.

End FurtherContextProperties.

(** ** The further properties on concrete inputs *)


(** Three refreshes of a page with the floor and one box. *)
Lemma frames_keep_running_witness :
  scheduled host0 /\
  scheduled
    (animation_frames 3
       (render 640 480 640 480 16%nat 19%nat [floor0; box0] floor0 fb0
          (8 # 10) 100) host0) /\
  frames_begun
    (animation_frames 3
       (render 640 480 640 480 16%nat 19%nat [floor0; box0] floor0 fb0
          (8 # 10) 100) host0) = 3%nat.
Proof.
  assert (H : scheduled host0) by (exists 1%nat; split; reflexivity).
  split; [exact H|].
  destruct (@frames_keep_running SymGlMatrix 640 480 640 480 16%nat 19%nat
              [floor0; box0] floor0 fb0 (8 # 10) 100 3 host0 None H)
    as (Hs & Hb & _).
  split; [exact Hs | exact Hb].
Defined.

(** Leaving a page with the floor and one box while [loop] is registered. *)
Lemma onbeforeunload_stops_and_releases_witness :
  Forall (fun id => request host0 = Some id) (raf_pending host0) /\
  exists h',
    onbeforeunload
      {| scene_program := 16%nat;
         scene_program2 := 19%nat;
         scene_objects := [floor0; box0];
         scene_floor := floor0;
         scene_fb := fb0 |} host0 = Returned tt h' /\
    raf_pending h' = [].
Proof.
  assert (H : Forall (fun id => request host0 = Some id) (raf_pending host0)).
  { repeat constructor. }
  split; [exact H|].
  destruct (@onbeforeunload_stops_and_releases SymGlMatrix
              {| scene_program := 16%nat;
                 scene_program2 := 19%nat;
                 scene_objects := [floor0; box0];
                 scene_floor := floor0;
                 scene_fb := fb0 |} host0 (ret tt) H)
    as (h' & Hrun & Hnil & _).
  exists h'. split; [exact Hrun | exact Hnil].
Defined.
